(** * Terraform Cloud collector and analyzer: the request executor, the
      pager, the snapshot assembly and the command line of
      [terraform_api_client.py]; the loader, the reports and the command
      line of [analyze_data.py]

    The client is one asyncio task: [get_all_data] builds coroutine objects
    and awaits them one after the other, so every run is a sequence of
    semaphore operations, HTTP GETs and sleeps.  The remote server is a
    script of replies, one per GET, consumed in order.

    A [string] is a Python [str] whose characters have code points below
    256, one character per [ascii]; text with other characters is outside
    the model.  The session is given a URL as a [str]: any other value makes
    [session.get] raise [TypeError] before anything is sent.  Whether the
    session can parse a string as a URL is part of the script: the reply to
    a string it cannot parse is a [Fault] (aiohttp's [InvalidURL] is a
    [ClientError]).

    Not modelled: logging, the session's timeout, JSON numbers with a
    fractional part, the text of a failed response, a body that is not
    text in the charset of its response, the digits of a formatted quotient
    (the reports take the formatting as a parameter). *)

From Stdlib Require Import List String Ascii ZArith Bool Arith Lia DecimalString.
Import ListNotations.

Local Open Scope string_scope.
Local Open Scope Z_scope.

#[local] Set Warnings "-register-all".

(** ** Decoded JSON values *)

(** What [response.json()] returns: Python's [None], [bool], [int], [str],
    [list] and [dict].  The fields of a [JObj] are the dict's items in
    insertion order; a lookup takes the first field with the key. *)
Inductive json : Type :=
| JNull
| JBool (b : bool)
| JNum (z : Z)
| JStr (s : string)
| JArr (items : list json)
| JObj (fields : list (string * json)).

(** ** Exceptions and outcomes *)

Inductive exn : Type :=
| ClientResponseError (status : Z)  (* aiohttp: raise_for_status *)
| ClientError (detail : string)     (* aiohttp: session.get fails (connection, URL) *)
| ContentTypeError                  (* aiohttp: response.json(), content type not JSON *)
| JSONDecodeError                   (* json: response.json(), body not a JSON document *)
| ValueError
| TypeError
| OverflowError
| KeyError (key : string).

(** How an awaited coroutine ends.  [Blocked]: it waits for a permit no task
    will ever release.  [Exhausted]: it waits for a reply the script does not
    hold.  [OutOfFuel]: the model's loop bound was reached. *)
Inductive outcome (A : Type) : Type :=
| Ok (a : A)
| Raise (e : exn)
| Blocked
| Exhausted
| OutOfFuel.

Arguments Ok {A} a.
Arguments Raise {A} e.
Arguments Blocked {A}.
Arguments Exhausted {A}.
Arguments OutOfFuel {A}.

(** The coroutine ran to its end: it returned or it raised. *)
Definition completes {A} (o : outcome A) : bool :=
  match o with
  | Ok _ | Raise _ => true
  | _ => false
  end.

(** ** Python operations on decoded values *)

Fixpoint obj_get (k : string) (fields : list (string * json)) : option json :=
  match fields with
  | [] => None
  | (k', v) :: rest => if String.eqb k k' then Some v else obj_get k rest
  end.

Fixpoint substringb (p s : string) : bool :=
  String.prefix p s ||
  match s with
  | EmptyString => false
  | String _ s' => substringb p s'
  end.

Definition is_key (k : string) (v : json) : bool :=
  match v with
  | JStr s => String.eqb k s
  | _ => false
  end.

(** [k in v] for a string [k]. *)
Definition py_contains (k : string) (v : json) : outcome bool :=
  match v with
  | JObj fields => Ok (match obj_get k fields with Some _ => true | None => false end)
  | JArr items => Ok (existsb (is_key k) items)
  | JStr s => Ok (substringb k s)
  | _ => Raise TypeError
  end.

(** [v[k]] for a string [k]. *)
Definition py_getitem (k : string) (v : json) : outcome json :=
  match v with
  | JObj fields =>
      match obj_get k fields with
      | Some x => Ok x
      | None => Raise (KeyError k)
      end
  | _ => Raise TypeError
  end.

Fixpoint chars (s : string) : list json :=
  match s with
  | EmptyString => []
  | String c s' => JStr (String c EmptyString) :: chars s'
  end.

(** The elements [list.extend(v)] appends. *)
Definition py_iter (v : json) : outcome (list json) :=
  match v with
  | JArr items => Ok items
  | JObj fields => Ok (map (fun kv => JStr (fst kv)) fields)
  | JStr s => Ok (chars s)
  | _ => Raise TypeError
  end.

(** Truth value of [v] in a condition. *)
Definition py_truthy (v : json) : bool :=
  match v with
  | JNull => false
  | JBool b => b
  | JNum z => negb (z =? 0)
  | JStr s => negb (String.eqb s "")
  | JArr items => match items with [] => false | _ => true end
  | JObj fields => match fields with [] => false | _ => true end
  end.

(** ** [int(str)] *)

(** The white space [int] strips: tab to carriage return and the space,
    and above ASCII the next-line character and the no-break space. *)
Definition is_space (c : ascii) : bool :=
  let n := nat_of_ascii c in
  (((9 <=? n) && (n <=? 13)) || (n =? 32) || (n =? 133) || (n =? 160))%nat.

Definition is_digit (c : ascii) : bool :=
  let n := nat_of_ascii c in
  ((48 <=? n) && (n <=? 57))%nat.

Definition digit_value (c : ascii) : Z := Z.of_nat (nat_of_ascii c) - 48.

Fixpoint all_space (s : string) : bool :=
  match s with
  | EmptyString => true
  | String c s' => is_space c && all_space s'
  end.

Fixpoint lstrip (s : string) : string :=
  match s with
  | String c s' => if is_space c then lstrip s' else s
  | EmptyString => s
  end.

(** Digits with single underscores between them, then only white space.
    [after_digit] says that the character just read was a digit. *)
Fixpoint parse_digits (s : string) (acc : Z) (after_digit : bool) : option Z :=
  match s with
  | EmptyString => if after_digit then Some acc else None
  | String c s' =>
      if is_digit c then parse_digits s' (10 * acc + digit_value c) true
      else if Ascii.eqb c "_" then
        if after_digit then parse_digits s' acc false else None
      else if is_space c && after_digit && all_space s' then Some acc
      else None
  end.

Fixpoint count_digits (s : string) : nat :=
  match s with
  | EmptyString => 0%nat
  | String c s' => ((if is_digit c then 1 else 0) + count_digits s')%nat
  end.

(** [sys.get_int_max_str_digits()], as Python sets it. *)
Definition max_str_digits : nat := 4300.

(** The integer a decimal literal denotes, whatever its length. *)
Definition int_literal (s : string) : option Z :=
  match lstrip s with
  | String "-" s' => option_map Z.opp (parse_digits s' 0 false)
  | String "+" s' => parse_digits s' 0 false
  | s' => parse_digits s' 0 false
  end.

(** [int(s)]: [None] stands for [ValueError], raised for text that is no
    decimal literal and for a literal of more than [max_str_digits] digits.
    The only decimal digits below code point 256 are [0] to [9]. *)
Definition py_int (s : string) : option Z :=
  if (max_str_digits <? count_digits s)%nat then None else int_literal s.

(** The least integer [float] cannot hold: a quotient or a delay of this
    size and more raises [OverflowError] ([2 ^ 1024 - 2 ^ 970], half way
    between the largest float and [2 ^ 1024], rounds to the latter). *)
Definition float_overflow : Z := Eval vm_compute in 2 ^ 1024 - 2 ^ 970.

Arguments float_overflow : simpl never.

(** ** Responses *)

Definition query := list (string * string).

(** What aiohttp's [response.json()] finds: it checks the content type
    first and raises [ContentTypeError] when it is not a JSON type, returns
    [None] for a body that is empty or white space, and decodes any other
    body with [json.loads], which raises [JSONDecodeError] on text that is
    no JSON document. *)
Inductive content : Type :=
| Document (j : json)   (* accepted content type, the body decodes to [j] *)
| Empty                 (* accepted content type, the body is empty *)
| Malformed             (* accepted content type, the body does not decode *)
| NotJson.              (* the content type is not accepted *)

(** A response.  [headers] holds the fields the client looks up by name;
    what [response.json()] makes of the content type and of the body is
    told by [body]. *)
Record response : Type := mk_response {
  status : Z;
  headers : list (string * string);
  body : content
}.

(** What the session does with one GET. *)
Inductive reply : Type :=
| Answer (r : response)
| Fault (detail : string).

Definition lower (c : ascii) : ascii :=
  let n := nat_of_ascii c in
  if ((65 <=? n) && (n <=? 90))%nat then ascii_of_nat (n + 32) else c.

Fixpoint lower_string (s : string) : string :=
  match s with
  | EmptyString => EmptyString
  | String c s' => String (lower c) (lower_string s')
  end.

(** [response.headers.get(name)]: header names compare without case. *)
Fixpoint headers_get (name : string) (hs : list (string * string)) : option string :=
  match hs with
  | [] => None
  | (k, v) :: rest =>
      if String.eqb (lower_string k) (lower_string name) then Some v
      else headers_get name rest
  end.

(** [int(response.headers.get('Retry-After', 5))] *)
Definition retry_after (r : response) : option Z :=
  match headers_get "Retry-After" (headers r) with
  | Some v => py_int v
  | None => Some 5
  end.

(** [await asyncio.sleep(seconds)] returns for every [int] a float can
    hold (at once when it is not positive) and raises [OverflowError] for
    the others. *)
Definition can_sleep (seconds : Z) : bool := seconds <? float_overflow.

(** aiohttp: [response.ok] is [400 > status]; [raise_for_status] raises
    [ClientResponseError] when the response is not ok and returns otherwise. *)
Definition raise_for_status (r : response) : outcome unit :=
  if 400 <=? status r then Raise (ClientResponseError (status r)) else Ok tt.

(** ** The client *)

(** What the task does: it takes a permit, gives one back, hands the
    session a GET for a URL string, or awaits [asyncio.sleep(seconds)],
    which returns at once when [seconds] is not positive. *)
Inductive event : Type :=
| EvAcquire
| EvRelease
| EvGet (url : json) (params : option query)
| EvSleep (seconds : Z).

Record TerraformConfig : Type := mk_config {
  api_token : string;
  base_url : string;
  max_concurrent_requests : nat;
  timeout : Z
}.

(** The client and its world: the semaphore's free permits, the replies the
    server still has to give, and what the task has done so far. *)
Record client : Type := mk_client {
  config : TerraformConfig;
  semaphore : nat;
  server : list reply;
  trace : list event
}.

(** [TerraformAPIClient(config)] in front of a scripted server. *)
Definition new_client (cfg : TerraformConfig) (script : list reply) : client :=
  mk_client cfg (max_concurrent_requests cfg) script [].

Definition log (evs : list event) (c : client) : client :=
  mk_client (config c) (semaphore c) (server c) (trace c ++ evs)%list.

Definition set_semaphore (n : nat) (c : client) : client :=
  mk_client (config c) n (server c) (trace c).

Definition set_server (s : list reply) (c : client) : client :=
  mk_client (config c) (semaphore c) s (trace c).

(** The exit of [async with self.semaphore]: reached when the body returned
    or raised, never while it waits. *)
Definition release {A} (r : outcome A * client) : outcome A * client :=
  let (o, c) := r in
  if completes o then (o, log [EvRelease] (set_semaphore (S (semaphore c)) c))
  else (o, c).

(** What the body of [_make_request] decides for one response. *)
Inductive verdict : Type :=
| Return (v : json)
| RetryAfter (seconds : Z)
| Throw (e : exn).

Definition handle_response (r : response) : verdict :=
  if status r =? 200 then
    match body r with
    | Document j => Return j
    | Empty => Return JNull
    | Malformed => Throw JSONDecodeError
    | NotJson => Throw ContentTypeError
    end
  else if status r =? 429 then
    match retry_after r with
    | Some seconds =>
        if can_sleep seconds then RetryAfter seconds else Throw OverflowError
    | None => Throw ValueError
    end
  else
    match raise_for_status r with
    | Raise e => Throw e
    | _ => Return JNull           (* the function ends without a return *)
    end.

(** A value the session takes as a URL: a [str]. *)
Definition is_string (v : json) : bool :=
  match v with
  | JStr _ => true
  | _ => false
  end.

(** [_make_request(url, params)] in front of the replies [script], which
    replace the [server] of [c].  Every GET takes one reply, so the retry is
    a call on the rest of the script.  With no free permit the call waits
    for ever: the client is one task and nobody else releases.  A [url]
    that is not a [str] makes [session.get] raise [TypeError] inside the
    [try]: the permit is taken and given back, nothing is sent and no reply
    is taken. *)
Fixpoint make_request (script : list reply) (url : json) (params : option query)
    (c : client) : outcome json * client :=
  match semaphore c with
  | O => (Blocked, set_server script c)
  | S free =>
      if is_string url then
        let c1 := log [EvAcquire; EvGet url params] (set_semaphore free c) in
        match script with
        | [] => (Exhausted, set_server [] c1)
        | Fault detail :: rest =>
            release (Raise (ClientError detail), set_server rest c1)
        | Answer r :: rest =>
            match handle_response r with
            | Return v => release (Ok v, set_server rest c1)
            | Throw e => release (Raise e, set_server rest c1)
            | RetryAfter seconds =>
                release (make_request rest url params (log [EvSleep seconds] c1))
            end
        end
      else
        release (Raise TypeError,
                 set_server script (log [EvAcquire] (set_semaphore free c)))
  end.

Definition _make_request (url : json) (params : option query)
    (c : client) : outcome json * client :=
  make_request (server c) url params c.

(** Sequencing of Python operations that return or raise at once. *)
Definition obind {A B} (o : outcome A) (k : A -> outcome B) : outcome B :=
  match o with
  | Ok a => k a
  | Raise e => Raise e
  | Blocked => Blocked
  | Exhausted => Exhausted
  | OutOfFuel => OutOfFuel
  end.

Notation "x <-- o ;;; k" := (obind o (fun x => k))
  (at level 61, o at next level, right associativity).

(** ** Awaited computations *)

(** A coroutine of the client, awaited: it takes the client's world and gives
    the outcome and the world left behind. *)
Definition M (A : Type) : Type := client -> outcome A * client.

Definition ret {A} (a : A) : M A := fun c => (Ok a, c).

Definition bind {A B} (m : M A) (k : A -> M B) : M B :=
  fun c =>
    match m c with
    | (Ok a, c') => k a c'
    | (Raise e, c') => (Raise e, c')
    | (Blocked, c') => (Blocked, c')
    | (Exhausted, c') => (Exhausted, c')
    | (OutOfFuel, c') => (OutOfFuel, c')
    end.

(** A Python operation that returns or raises at once. *)
Definition lift {A} (o : outcome A) : M A := fun c => (o, c).

Notation "x <- m ;; k" := (bind m (fun x => k))
  (at level 61, m at next level, right associativity).

(** ** The pager *)

(** ['links' in response and 'next' in response['links'] and
    response['links']['next']], the operands evaluated from the left as
    Python does; the result is the truth value of the chain. *)
Definition has_next (response : json) : outcome bool :=
  has_links <-- py_contains "links" response ;;;
  if (has_links : bool) then
    links <-- py_getitem "links" response ;;;
    next_in_links <-- py_contains "next" links ;;;
    if (next_in_links : bool) then
      next <-- py_getitem "next" links ;;;
      Ok (py_truthy next)
    else Ok false
  else Ok false.

(** [response['links']['next']], read once [has_next] holds. *)
Definition next_link (response : json) : outcome json :=
  links <-- py_getitem "links" response ;;;
  py_getitem "next" links.

(** [if 'data' in response: all_data.extend(response['data'])] *)
Definition extend_with_data (all_data : list json) (response : json)
    : outcome (list json) :=
  has_data <-- py_contains "data" response ;;;
  if (has_data : bool) then
    data <-- py_getitem "data" response ;;;
    items <-- py_iter data ;;;
    Ok (all_data ++ items)%list
  else Ok all_data.

(** The [while current_url:] loop; one unit of fuel per test of the
    condition. *)
Fixpoint paginated_loop (fuel : nat) (current_url : json) (params : option query)
    (all_data : list json) : M (list json) :=
  match fuel with
  | O => lift OutOfFuel
  | S fuel' =>
      if py_truthy current_url then
        response <- _make_request current_url params ;;
        all_data' <- lift (extend_with_data all_data response) ;;
        more <- lift (has_next response) ;;
        if (more : bool) then
          next <- lift (next_link response) ;;
          paginated_loop fuel' next None all_data'
        else
          paginated_loop fuel' JNull params all_data'
      else ret all_data
  end.

(** [_paginated_request(url, params)].  Every turn of the loop takes at least
    one reply, so the loop tests its condition at most once more than there
    are replies. *)
Definition _paginated_request (url : json) (params : option query) : M (list json) :=
  fun c => paginated_loop (S (List.length (server c))) url params [] c.

(** ** Python dictionaries *)

(** What a key hashes and compares as: [True == 1] and [False == 0], so a
    [bool] and an [int] can be the same key. *)
Inductive hkey : Type :=
| HNone
| HInt (z : Z)
| HStr (s : string).

(** [None] for a [list] or a [dict]: unhashable. *)
Definition py_hash_key (k : json) : option hkey :=
  match k with
  | JNull => Some HNone
  | JBool b => Some (HInt (if b then 1 else 0))
  | JNum z => Some (HInt z)
  | JStr s => Some (HStr s)
  | JArr _ | JObj _ => None
  end.

Definition hkey_eqb (a b : hkey) : bool :=
  match a, b with
  | HNone, HNone => true
  | HInt x, HInt y => x =? y
  | HStr x, HStr y => String.eqb x y
  | _, _ => false
  end.

(** Two hashable values are the same dictionary key. *)
Definition same_key (a b : json) : bool :=
  match py_hash_key a, py_hash_key b with
  | Some x, Some y => hkey_eqb x y
  | _, _ => false
  end.

(** A [dict]: its items in insertion order, the keys pairwise different. *)
Definition pydict (V : Type) : Type := list (json * V).

Fixpoint dict_get {V} (k : json) (d : pydict V) : option V :=
  match d with
  | [] => None
  | (k', v) :: rest => if same_key k k' then Some v else dict_get k rest
  end.

(** [d[k] = v] for a hashable [k]: a key already there keeps its place and
    its first spelling, a new key goes to the end. *)
Fixpoint dict_set {V} (k : json) (v : V) (d : pydict V) : pydict V :=
  match d with
  | [] => [(k, v)]
  | (k', v') :: rest =>
      if same_key k k' then (k', v) :: rest else (k', v') :: dict_set k v rest
  end.

Definition dict_mem {V} (k : json) (d : pydict V) : bool :=
  match dict_get k d with
  | Some _ => true
  | None => false
  end.

Definition dict_values {V} (d : pydict V) : list V := map snd d.

(** [d[k] = v]: raises [TypeError] on an unhashable key. *)
Definition py_setitem {V} (k : json) (v : V) (d : pydict V) : outcome (pydict V) :=
  match py_hash_key k with
  | Some _ => Ok (dict_set k v d)
  | None => Raise TypeError
  end.

Definition sum (l : list nat) : nat := fold_right Nat.add 0%nat l.

(** ** The snapshot *)

(** [{'workspace_id': workspace_id, 'runs': runs}] *)
Record run_entry : Type := mk_run_entry {
  workspace_id : json;
  entry_runs : list json
}.

Record summary_counts : Type := mk_summary {
  total_organizations : nat;
  total_workspaces : nat;
  total_runs : nat
}.

Record snapshot : Type := mk_snapshot {
  organizations : list json;
  workspaces : pydict (list json);
  runs : pydict (pydict run_entry);
  summary : summary_counts
}.

(** One element of [run_tasks]; the coroutine of the tuple is
    [get_runs_for_workspace task_workspace_id], not started yet. *)
Record run_task : Type := mk_run_task {
  task_org_name : json;
  task_workspace_name : json;
  task_workspace_id : json
}.

(** ** The orchestrator *)

Section Orchestrator.

(** [str(v)], as an f-string formats a decoded value into a URL. *)
Variable py_str : json -> string.

Definition get_organizations : M (list json) :=
  fun c =>
    _paginated_request
      (JStr (base_url (config c) ++ "/organizations")) None c.

Definition get_workspaces_for_organization (org_name : json) : M (list json) :=
  fun c =>
    _paginated_request
      (JStr (base_url (config c) ++ "/organizations/" ++ py_str org_name ++ "/workspaces"))
      (Some [("include", "current-run,organization")]) c.

Definition get_runs_for_workspace (workspace_id : json) : M (list json) :=
  fun c =>
    _paginated_request
      (JStr (base_url (config c) ++ "/workspaces/" ++ py_str workspace_id ++ "/runs"))
      (Some [("include", "plan,apply,configuration-version")]) c.

(** Step 2, first loop: [org['attributes']['name']] of every organization.
    The coroutines made here do not run before they are awaited. *)
Fixpoint workspace_tasks (organizations : list json) : outcome (list json) :=
  match organizations with
  | [] => Ok []
  | org :: rest =>
      attributes <-- py_getitem "attributes" org ;;;
      org_name <-- py_getitem "name" attributes ;;;
      tasks <-- workspace_tasks rest ;;;
      Ok (org_name :: tasks)
  end.

(** Step 2, second loop: await the fetches in order and fill
    [org_workspaces]. *)
Fixpoint await_workspaces (tasks : list json) (org_workspaces : pydict (list json))
    : M (pydict (list json)) :=
  match tasks with
  | [] => ret org_workspaces
  | org_name :: rest =>
      workspaces <- get_workspaces_for_organization org_name ;;
      org_workspaces' <- lift (py_setitem org_name workspaces org_workspaces) ;;
      await_workspaces rest org_workspaces'
  end.

(** Step 3, inner loop over the workspaces of one organization. *)
Fixpoint workspace_run_tasks (org_name : json) (workspaces : list json)
    : outcome (list run_task) :=
  match workspaces with
  | [] => Ok []
  | workspace :: rest =>
      workspace_id <-- py_getitem "id" workspace ;;;
      attributes <-- py_getitem "attributes" workspace ;;;
      workspace_name <-- py_getitem "name" attributes ;;;
      tasks <-- workspace_run_tasks org_name rest ;;;
      Ok (mk_run_task org_name workspace_name workspace_id :: tasks)
  end.

(** Step 3, outer loop over [org_workspaces.items()]. *)
Fixpoint run_tasks (items : pydict (list json)) : outcome (list run_task) :=
  match items with
  | [] => Ok []
  | (org_name, workspaces) :: rest =>
      here <-- workspace_run_tasks org_name workspaces ;;;
      later <-- run_tasks rest ;;;
      Ok (here ++ later)%list
  end.

(** [if org_name not in workspace_runs: workspace_runs[org_name] = {}] and
    [workspace_runs[org_name][workspace_name] = {...}].  The organization
    name is a key of [org_workspaces], hence hashable. *)
Definition store_runs (t : run_task) (fetched : list json)
    (workspace_runs : pydict (pydict run_entry)) : outcome (pydict (pydict run_entry)) :=
  let workspace_runs' :=
    if dict_mem (task_org_name t) workspace_runs then workspace_runs
    else dict_set (task_org_name t) [] workspace_runs in
  let org_runs :=
    match dict_get (task_org_name t) workspace_runs' with
    | Some d => d
    | None => []
    end in
  org_runs' <-- py_setitem (task_workspace_name t)
                  (mk_run_entry (task_workspace_id t) fetched) org_runs ;;;
  Ok (dict_set (task_org_name t) org_runs' workspace_runs').

(** Step 3, second loop: await the run fetches in order and fill
    [workspace_runs]. *)
Fixpoint await_runs (tasks : list run_task) (workspace_runs : pydict (pydict run_entry))
    : M (pydict (pydict run_entry)) :=
  match tasks with
  | [] => ret workspace_runs
  | t :: rest =>
      fetched <- get_runs_for_workspace (task_workspace_id t) ;;
      workspace_runs' <- lift (store_runs t fetched workspace_runs) ;;
      await_runs rest workspace_runs'
  end.

(** The [summary] built from the three collections. *)
Definition summarize (organizations : list json) (org_workspaces : pydict (list json))
    (workspace_runs : pydict (pydict run_entry)) : summary_counts :=
  mk_summary
    (List.length organizations)
    (sum (map (fun ws => List.length ws) (dict_values org_workspaces)))
    (sum (flat_map
            (fun org_runs =>
               map (fun workspace_data => List.length (entry_runs workspace_data))
                   (dict_values org_runs))
            (dict_values workspace_runs))).

Definition get_all_data : M snapshot :=
  organizations <- get_organizations ;;
  tasks <- lift (workspace_tasks organizations) ;;
  org_workspaces <- await_workspaces tasks [] ;;
  tasks' <- lift (run_tasks org_workspaces) ;;
  workspace_runs <- await_runs tasks' [] ;;
  ret (mk_snapshot organizations org_workspaces workspace_runs
         (summarize organizations org_workspaces workspace_runs)).

End Orchestrator.

(** ** Scripts and pages for concrete runs *)

(** The defaults of [TerraformConfig] and of the command line. *)
Definition cfg10 : TerraformConfig :=
  mk_config "token" "https://app.terraform.io/api/v2" 10 30.

(** A reply with status 200 and the document [j]. *)
Definition ok_page (j : json) : reply := Answer (mk_response 200 [] (Document j)).

(** A reply with status 429 and the headers [hs]. *)
Definition rate_limited (hs : list (string * string)) : reply :=
  Answer (mk_response 429 hs Empty).

(** A document with [items] under ["data"] and, when there is a next page,
    its locator under ["links"]["next"]. *)
Definition page (items : list json) (next : option string) : json :=
  JObj (("data", JArr items) ::
        match next with
        | Some u => [("links", JObj [("next", JStr u)])]
        | None => []
        end).

(** [str(v)] on the strings and constants the concrete runs use. *)
Definition plain_str (v : json) : string :=
  match v with
  | JStr s => s
  | JNull => "None"
  | JBool true => "True"
  | JBool false => "False"
  | _ => ""
  end.

(** A Resource Item with an id and a name attribute. *)
Definition item (id name : string) : json :=
  JObj [("id", JStr id); ("type", JStr "t"); ("attributes", JObj [("name", JStr name)])].

Definition run (id : string) : json := JObj [("id", JStr id)].

(** Two organizations, one workspace each, three runs each. *)
Definition two_org_script : list reply :=
  [ok_page (page [item "org-1" "acme"; item "org-2" "globex"] None);
   ok_page (page [item "ws-a" "prod"] None);
   ok_page (page [item "ws-b" "prod"] None);
   ok_page (page [run "r1"; run "r2"; run "r3"] None);
   ok_page (page [run "r4"; run "r5"; run "r6"] None)].

(** ** Permits along a trace *)

(** The events a call added to the trace. *)
Definition events_since (before after : client) : list event :=
  skipn (List.length (trace before)) (trace after).

(** Permits the task holds after [evs] when it held [held] before. *)
Fixpoint held_after (held : Z) (evs : list event) : Z :=
  match evs with
  | [] => held
  | EvAcquire :: rest => held_after (held + 1) rest
  | EvRelease :: rest => held_after (held - 1) rest
  | _ :: rest => held_after held rest
  end.

(** Every sleep of [evs] starts with no permit held. *)
Fixpoint sleeps_without_permit (held : Z) (evs : list event) : bool :=
  match evs with
  | [] => true
  | EvAcquire :: rest => sleeps_without_permit (held + 1) rest
  | EvRelease :: rest => sleeps_without_permit (held - 1) rest
  | EvSleep _ :: rest => (held =? 0) && sleeps_without_permit held rest
  | EvGet _ _ :: rest => sleeps_without_permit held rest
  end.

(** Every sleep of [evs] starts with a permit held. *)
Fixpoint sleeps_with_permit (held : Z) (evs : list event) : bool :=
  match evs with
  | [] => true
  | EvAcquire :: rest => sleeps_with_permit (held + 1) rest
  | EvRelease :: rest => sleeps_with_permit (held - 1) rest
  | EvSleep _ :: rest => (0 <? held) && sleeps_with_permit held rest
  | EvGet _ _ :: rest => sleeps_with_permit held rest
  end.

(** The most permits held at any point of [evs]. *)
Fixpoint peak_held (held : Z) (evs : list event) : Z :=
  match evs with
  | [] => held
  | EvAcquire :: rest => Z.max held (peak_held (held + 1) rest)
  | EvRelease :: rest => Z.max held (peak_held (held - 1) rest)
  | _ :: rest => peak_held held rest
  end.

(** The requests of a trace, in order. *)
Fixpoint gets (evs : list event) : list (json * option query) :=
  match evs with
  | [] => []
  | EvGet url params :: rest => (url, params) :: gets rest
  | _ :: rest => gets rest
  end.

(** The sleeps of a trace, in order. *)
Fixpoint sleeps (evs : list event) : list Z :=
  match evs with
  | [] => []
  | EvSleep seconds :: rest => seconds :: sleeps rest
  | _ :: rest => sleeps rest
  end.

(** The permit discipline of the specification: the executor sleeps out a
    rate limit holding no permit, and one request never holds two. *)
Definition releases_permit_to_sleep (url : json) (params : option query)
    (c : client) : Prop :=
  let evs := events_since c (snd (_make_request url params c)) in
  sleeps_without_permit 0 evs = true /\ peak_held 0 evs <= 1.

(** ** Page Responses *)

(** A Page Response: an object whose ["data"], when there, is the array of
    its items and whose ["links"], when there, is an object. *)
Definition is_page (body : json) : bool :=
  match body with
  | JObj fields =>
      match obj_get "data" fields with
      | Some (JArr _) | None => true
      | Some _ => false
      end &&
      match obj_get "links" fields with
      | Some (JObj _) | None => true
      | Some _ => false
      end
  | _ => false
  end.

(** The items of a Page Response, in the order of the page. *)
Definition page_items (body : json) : list json :=
  match body with
  | JObj fields =>
      match obj_get "data" fields with
      | Some (JArr items) => items
      | _ => []
      end
  | _ => []
  end.

(** The next-page locator of a Page Response: [None] when there is none or
    it is empty. *)
Definition page_next (body : json) : option json :=
  match body with
  | JObj fields =>
      match obj_get "links" fields with
      | Some (JObj links) =>
          match obj_get "next" links with
          | Some next => if py_truthy next then Some next else None
          | None => None
          end
      | _ => None
      end
  | _ => None
  end.

Definition has_locator (body : json) : bool :=
  match page_next body with
  | Some _ => true
  | None => false
  end.

(** The next-page locator is there and is a [str], as a URL is. *)
Definition has_url (body : json) : bool :=
  match page_next body with
  | Some next => is_string next
  | None => false
  end.

(** The pages of one collection: pages 1..k-1 carry a next-page locator, a
    string that is not empty; page k, the last one, carries none. *)
Fixpoint is_chain (pages : list json) : bool :=
  match pages with
  | [] => false
  | [last] => is_page last && negb (has_locator last)
  | p :: rest => is_page p && has_url p && is_chain rest
  end.

(** The requests after the first: the locator of every page but the last,
    with no query parameters. *)
Fixpoint next_requests (pages : list json) : list (json * option query) :=
  match pages with
  | p :: (_ :: _) as rest =>
      match page_next p with
      | Some locator => (locator, None) :: next_requests rest
      | None => []
      end
  | _ => []
  end.

Definition page_requests (url : json) (params : option query) (pages : list json)
    : list (json * option query) :=
  (url, params) :: next_requests pages.

(** The events of one request that is answered at once. *)
Definition request_events (q : json * option query) : list event :=
  [EvAcquire; EvGet (fst q) (snd q); EvRelease].

(** ** One turn of the pager's loop *)

(** What the body of the loop does with the response: the items so far, the
    URL and the parameters of the next turn. *)
Definition page_step (all_data : list json) (params : option query) (response : json)
    : outcome (json * option query * list json) :=
  all_data' <-- extend_with_data all_data response ;;;
  more <-- has_next response ;;;
  if (more : bool) then
    next <-- next_link response ;;;
    Ok (next, None, all_data')
  else Ok (JNull, params, all_data').

(** A Python operation returns or raises; it does not wait. *)
Definition returns_or_raises {A} (o : outcome A) : Prop :=
  match o with
  | Ok _ | Raise _ => True
  | _ => False
  end.

Definition not_rate_limited (rep : reply) : bool :=
  match rep with
  | Answer r => negb (status r =? 429)
  | Fault _ => true
  end.

(** ** Two runs, one of them rate limited once *)

(** Two clients with the same free permits in front of the same replies. *)
Definition same_server (ca cb : client) : Prop :=
  semaphore ca = semaphore cb /\ server ca = server cb.

(** Two clients in front of the same replies but for one more reply to
    [ca]: the rate-limited response [r], still to come. *)
Definition rate_limit_pending (r : response) (ca cb : client) : Prop :=
  semaphore ca = semaphore cb /\
  (2 <= semaphore ca)%nat /\
  exists s1 s2,
    forallb not_rate_limited s1 = true /\
    forallb not_rate_limited s2 = true /\
    server ca = (s1 ++ Answer r :: s2)%list /\
    server cb = (s1 ++ s2)%list.

Definition rate_limit_related (r : response) (ca cb : client) : Prop :=
  same_server ca cb \/ rate_limit_pending r ca cb.

(** ** The runs mapping as a function of what was fetched *)

(** [workspace['attributes']['name']] *)
Definition workspace_name (workspace : json) : outcome json :=
  attributes <-- py_getitem "attributes" workspace ;;;
  py_getitem "name" attributes.

(** [runs[org][name]], [None] when a key is missing. *)
Definition runs_entry (workspace_runs : pydict (pydict run_entry))
    (org name : json) : option run_entry :=
  match dict_get org workspace_runs with
  | Some org_runs => dict_get name org_runs
  | None => None
  end.

(** The keys of a dictionary are hashable and pairwise different. *)
Fixpoint dict_wf {V} (d : pydict V) : Prop :=
  match d with
  | [] => True
  | (k, _) :: rest => py_hash_key k <> None /\ dict_get k rest = None /\ dict_wf rest
  end.

(** [k] is a key of [d] with the value [v]: read as [d[k]], or met as
    [(k, v)] in [d.items()]. *)
Definition is_item {V} (k : json) (v : V) (d : pydict V) : Prop :=
  dict_get k d = Some v \/ In (k, v) d.


(** The awaits of step 3 alone: the run lists in the order of the tasks. *)
Fixpoint fetch_runs (py_str : json -> string) (tasks : list run_task)
    : M (list (list json)) :=
  match tasks with
  | [] => ret []
  | t :: rest =>
      fetched <- get_runs_for_workspace py_str (task_workspace_id t) ;;
      others <- fetch_runs py_str rest ;;
      ret (fetched :: others)
  end.

(** The stores of step 3 alone, on the tasks paired with their run lists. *)
Fixpoint store_all (l : list (run_task * list json))
    (workspace_runs : pydict (pydict run_entry)) : outcome (pydict (pydict run_entry)) :=
  match l with
  | [] => Ok workspace_runs
  | (t, fetched) :: rest =>
      workspace_runs' <-- store_runs t fetched workspace_runs ;;;
      store_all rest workspace_runs'
  end.


(** The entry of the last task of [l] under the keys [org] and [name]. *)
Fixpoint last_match (l : list (run_task * list json)) (org name : json)
    : option run_entry :=
  match l with
  | [] => None
  | (t, fetched) :: rest =>
      match last_match rest org name with
      | Some e => Some e
      | None =>
          if same_key org (task_org_name t) && same_key name (task_workspace_name t)
          then Some (mk_run_entry (task_workspace_id t) fetched)
          else None
      end
  end.


(** The number of runs under one organization, and in the whole mapping. *)
Definition org_runs_count (org_runs : pydict run_entry) : nat :=
  sum (map (fun entry => List.length (entry_runs entry)) (dict_values org_runs)).

Definition runs_count (workspace_runs : pydict (pydict run_entry)) : nat :=
  sum (map org_runs_count (dict_values workspace_runs)).

(** One organization whose two workspaces carry the same name. *)
Definition duplicate_script : list reply :=
  [ok_page (page [item "org-1" "acme"] None);
   ok_page (page [item "ws-a" "prod"; item "ws-b" "prod"] None);
   ok_page (page [run "r1"; run "r2"] None);
   ok_page (page [run "r3"] None)].

Definition empty_snapshot : snapshot := mk_snapshot [] [] [] (mk_summary 0 0 0).

Definition snapshot_of (r : outcome snapshot * client) : snapshot :=
  match fst r with
  | Ok snap => snap
  | _ => empty_snapshot
  end.

Definition two_org_run : outcome snapshot * client :=
  Eval vm_compute in get_all_data plain_str (new_client cfg10 two_org_script).

Definition duplicate_run : outcome snapshot * client :=
  Eval vm_compute in get_all_data plain_str (new_client cfg10 duplicate_script).

(** ** The analyzer: [analyze_data.py] *)

(** What [open(file_path, 'r')] followed by reading gives. *)
Inductive open_result : Type :=
| FileNotFound
| OtherOSError                (* a directory, no permission, ... *)
| Opened (text : string).

(** How a piece of the program ends. *)
Inductive ending : Type :=
| Returned
| SysExit (code : Z)
| Uncaught.                   (* an exception nobody catches *)

(** The process exit code: an uncaught exception makes Python exit with 1. *)
Definition exit_code (e : ending) : Z :=
  match e with
  | Returned => 0
  | SysExit code => code
  | Uncaught => 1
  end.

(** The command line: [--input], [--organizations], [--workspaces],
    [--runs], [--all]. *)
Record arguments : Type := mk_arguments {
  input : string;
  arg_organizations : bool;
  arg_workspaces : bool;
  arg_runs : bool;
  arg_all : bool
}.

(** The four report functions print counts and formatted ratios of [data].
    They are taken as given: the lines each prints on standard output and
    whether it returns or fails on [data]. *)
Record reports : Type := mk_reports {
  generate_summary_report : json -> list string * ending;
  analyze_organizations : json -> list string * ending;
  analyze_workspaces : json -> list string * ending;
  analyze_runs : json -> list string * ending
}.

Section Analyzer.

(** The file system, and [json.load]: [None] stands for [JSONDecodeError]. *)
Variable file_system : string -> open_result.
Variable json_loads : string -> option json.
Variable the_reports : reports.

(** [load_data(file_path)]: the data, or the lines printed and the ending. *)
Definition load_data (file_path : string) : json + (list string * ending) :=
  match file_system file_path with
  | Opened text =>
      match json_loads text with
      | Some data => inl data
      | None => inr (["Error: Invalid JSON in " ++ file_path], SysExit 1)
      end
  | FileNotFound => inr (["Error: File " ++ file_path ++ " not found"], SysExit 1)
  | OtherOSError => inr ([], Uncaught)
  end.

(** Run [next] after [p] when [p] returned. *)
Definition and_then (p : list string * ending) (next : list string * ending)
    : list string * ending :=
  match snd p with
  | Returned => (fst p ++ fst next, snd next)%list
  | _ => p
  end.

Definition when (b : bool) (p : list string * ending) : list string * ending :=
  if b then p else ([], Returned).

Definition usage_hint : string :=
  String "010" "Use --all or specify --organizations, --workspaces, or --runs for detailed analysis".

(** [main()]: standard output and the ending of the process. *)
Definition main (args : arguments) : list string * ending :=
  match load_data (input args) with
  | inr stopped => stopped
  | inl data =>
      and_then (generate_summary_report the_reports data)
        (and_then
           (when (arg_all args || arg_organizations args)
              (analyze_organizations the_reports data))
           (and_then
              (when (arg_all args || arg_workspaces args)
                 (analyze_workspaces the_reports data))
              (and_then
                 (when (arg_all args || arg_runs args)
                    (analyze_runs the_reports data))
                 (when (negb (arg_organizations args || arg_workspaces args
                              || arg_runs args || arg_all args))
                    ([usage_hint], Returned)))))
  end.

End Analyzer.

(** Reports that print one line each, and a decoder that takes only the
    empty object. *)
Definition sample_reports : reports :=
  mk_reports (fun _ => (["summary"], Returned))
             (fun _ => (["organizations"], Returned))
             (fun _ => (["workspaces"], Returned))
             (fun _ => (["runs"], Returned)).

Definition sample_loads (text : string) : option json :=
  if String.eqb text "{}" then Some (JObj []) else None.

Definition sample_files (path : string) : open_result :=
  if String.eqb path "terraform_data.json" then Opened "{}"
  else if String.eqb path "broken.json" then Opened "{"
  else FileNotFound.

(** ** Replies that end a request *)

(** The exception a reply makes [_make_request] raise at once, if any: the
    fault of the session, or what the body of the call raises on the
    response. *)
Definition failure_of (rep : reply) : option exn :=
  match rep with
  | Fault detail => Some (ClientError detail)
  | Answer r =>
      match handle_response r with
      | Throw e => Some e
      | _ => None
      end
  end.




(** ** The permit pool over a computation *)

(** What a computation of the client does to the permit pool: it leaves the
    configuration alone and only adds events to the trace; at its end the
    free permits and the permits it holds make up the permits that were
    free at its start; it never holds more than were free; and when it
    returns or raises it holds none. *)
Definition conserves_permits {A} (m : M A) : Prop :=
  forall c,
    config (snd (m c)) = config c /\
    exists evs,
      trace (snd (m c)) = (trace c ++ evs)%list /\
      Z.of_nat (semaphore (snd (m c))) + held_after 0 evs = Z.of_nat (semaphore c) /\
      peak_held 0 evs <= Z.of_nat (semaphore c) /\
      (completes (fst (m c)) = true -> held_after 0 evs = 0).

(** ** Pages that all name a next page *)

(** The next-page locator the pager reads off [p]; [None] when there is
    none. *)
Definition locator (p : json) : json :=
  match page_next p with
  | Some next => next
  | None => JNull
  end.

(** A Page Response whose next-page locator is a string that is not
    empty. *)
Definition linked (p : json) : bool := is_page p && has_url p.

(** The first request and the request each page of [pages] leads to. *)
Definition requests_along (url : json) (params : option query) (pages : list json)
    : list (json * option query) :=
  (url, params) :: map (fun p => (locator p, None)) pages.

(** The request the pager is about to make once it has read [pages]. *)
Fixpoint last_request (q : json * option query) (pages : list json)
    : json * option query :=
  match pages with
  | [] => q
  | p :: rest => last_request (locator p, None) rest
  end.

(** ** Organizations and workspaces as [get_all_data] reads them *)

(** [org['attributes']['name']] *)
Definition organization_name (org : json) : outcome json :=
  attributes <-- py_getitem "attributes" org ;;;
  py_getitem "name" attributes.

(** A workspace [get_all_data] cannot make a task of: [workspace['id']] or
    [workspace['attributes']['name']] raises. *)
Definition malformed_workspace (workspace : json) : Prop :=
  (forall id, py_getitem "id" workspace <> Ok id) \/
  (forall name, workspace_name workspace <> Ok name).

(** One organization without attributes, and one workspace without a name. *)
Definition malformed_org_script : list reply :=
  [ok_page (page [item "org-1" "acme"; JObj [("id", JStr "org-2")]] None);
   ok_page (page [item "ws-a" "prod"] None)].

Definition malformed_workspace_script : list reply :=
  [ok_page (page [item "org-1" "acme"] None);
   ok_page (page [item "ws-a" "prod";
                  JObj [("id", JStr "ws-b"); ("attributes", JObj [])]] None);
   ok_page (page [run "r1"] None)].

(** Two organizations; the fetch of the first one's workspaces fails. *)
Definition failing_workspaces_script : list reply :=
  [ok_page (page [item "org-1" "acme"; item "org-2" "globex"] None);
   Answer (mk_response 500 [] Empty);
   ok_page (page [item "ws-b" "prod"] None)].

(** Two organizations, the first without workspaces. *)
Definition empty_org_script : list reply :=
  [ok_page (page [item "org-1" "acme"; item "org-2" "globex"] None);
   ok_page (page [] None);
   ok_page (page [item "ws-b" "prod"] None);
   ok_page (page [run "r1"] None)].

Definition empty_org_run : outcome snapshot * client :=
  Eval vm_compute in get_all_data plain_str (new_client cfg10 empty_org_script).

(** ** The command line of the collector: [main] of [terraform_api_client.py] *)

(** [--token], [--output], [--max-concurrent] and [--timeout], as
    [parse_args] returns them. *)
Record collector_arguments : Type := mk_collector_arguments {
  arg_token : string;
  arg_output : string;
  arg_max_concurrent : Z;
  arg_timeout : Z
}.

(** How the process ends: with an exit code, or never, waiting for a
    permit or a reply that does not come. *)
Inductive process_end : Type :=
| Exits (code : Z)
| Waits.

(** What a run of the collector leaves behind: standard output, one string
    per [print]; the path and the document handed to [json.dump], when it
    was reached; the requests and sleeps of the client. *)
Record collector_run : Type := mk_collector_run {
  printed : list string;
  saved : option (string * snapshot);
  activity : list event;
  process : process_end
}.

(** ["=" * n] *)
Fixpoint rule (n : nat) : string :=
  match n with
  | O => ""
  | S n' => String "=" (rule n')
  end.

(** [f"{n}"] for a count. *)
Definition py_str_count (n : nat) : string :=
  NilZero.string_of_uint (Nat.to_uint n).

(** The summary [main] prints once the document is saved. *)
Definition summary_lines (s : summary_counts) (output : string) : list string :=
  [String "010" (rule 50);
   "TERRAFORM CLOUD DATA COLLECTION SUMMARY";
   rule 50;
   "Organizations: " ++ py_str_count (total_organizations s);
   "Workspaces: " ++ py_str_count (total_workspaces s);
   "Runs: " ++ py_str_count (total_runs s);
   "Output file: " ++ output;
   rule 50].

(** [TerraformConfig(api_token=..., max_concurrent_requests=..., timeout=...)]
    with the default [base_url]. *)
Definition config_of (args : collector_arguments) : TerraformConfig :=
  mk_config (arg_token args) "https://app.terraform.io/api/v2"
    (Z.to_nat (arg_max_concurrent args)) (arg_timeout args).

Section Collector.

Variable py_str : json -> string.

(** The replies of the server, and whether [open(path, 'w')] succeeds; the
    write is taken to succeed once the file is open. *)
Variable script : list reply.
Variable can_write : string -> bool.

(** [main()].  [asyncio.Semaphore] raises [ValueError] on a negative value,
    inside the [try]; every exception of the [try] block is caught and ends
    the process with [sys.exit(1)].  The document of a snapshot can always
    be serialized: its keys are [None], [bool], [int] or [str]. *)
Definition collector_main (args : collector_arguments) : collector_run :=
  if arg_max_concurrent args <? 0 then mk_collector_run [] None [] (Exits 1)
  else
    match get_all_data py_str (new_client (config_of args) script) with
    | (Ok data, c) =>
        if can_write (arg_output args) then
          mk_collector_run (summary_lines (summary data) (arg_output args))
            (Some (arg_output args, data)) (trace c) (Exits 0)
        else mk_collector_run [] None (trace c) (Exits 1)
    | (Raise _, c) => mk_collector_run [] None (trace c) (Exits 1)
    | (_, c) => mk_collector_run [] None (trace c) Waits
    end.

End Collector.

(** The command line with nothing but a token. *)
Definition default_arguments : collector_arguments :=
  mk_collector_arguments "token" "terraform_data.json" 10 30.

(** ** The reports of the analyzer *)

(** Python operations of the reports on a decoded document.  [None] stands
    for the exception the operation raises ([AttributeError], [TypeError]);
    the analyzer catches none of them. *)

(** [v.get(k, default)] *)
Definition py_get (k : string) (default : json) (v : json) : option json :=
  match v with
  | JObj fields =>
      Some (match obj_get k fields with
            | Some x => x
            | None => default
            end)
  | _ => None
  end.

(** [v.items()] *)
Definition py_items (v : json) : option (list (string * json)) :=
  match v with
  | JObj fields => Some fields
  | _ => None
  end.

(** [len(v)] *)
Definition py_len (v : json) : option nat :=
  match v with
  | JArr items => Some (List.length items)
  | JObj fields => Some (List.length fields)
  | JStr s => Some (String.length s)
  | _ => None
  end.

(** The elements of [for x in v]. *)
Definition py_elements (v : json) : option (list json) :=
  match py_iter v with
  | Ok items => Some items
  | _ => None
  end.

(** [v[:n]] *)
Definition py_slice (n : nat) (v : json) : option json :=
  match v with
  | JStr s => Some (JStr (substring 0 n s))
  | JArr items => Some (JArr (firstn n items))
  | _ => None
  end.

(** [a == b]: [True == 1], lists compare element by element, dictionaries
    as sets of items. *)
Fixpoint py_eq (a b : json) {struct a} : bool :=
  match a, b with
  | JNull, JNull => true
  | JBool x, JBool y => Bool.eqb x y
  | JBool x, JNum z => (if x then 1 else 0) =? z
  | JNum z, JBool y => z =? (if y then 1 else 0)
  | JNum x, JNum y => x =? y
  | JStr x, JStr y => String.eqb x y
  | JArr xs, JArr ys =>
      (fix all2 (xs ys : list json) {struct xs} : bool :=
         match xs, ys with
         | [], [] => true
         | x :: xs', y :: ys' => py_eq x y && all2 xs' ys'
         | _, _ => false
         end) xs ys
  | JObj fs, JObj gs =>
      (List.length fs =? List.length gs)%nat &&
      (fix all (fs : list (string * json)) {struct fs} : bool :=
         match fs with
         | [] => true
         | (k, v) :: fs' =>
             match obj_get k gs with
             | Some w => py_eq v w
             | None => false
             end && all fs'
         end) fs
  | _, _ => false
  end.

(** A number as arithmetic and comparisons take it: an [int], or a [bool]
    as 0 or 1. *)
Definition as_int (v : json) : option Z :=
  match v with
  | JNum z => Some z
  | JBool b => Some (if b then 1 else 0)
  | _ => None
  end.

(** [v > 0] *)
Definition py_positive (v : json) : option bool :=
  match as_int v with
  | Some z => Some (0 <? z)
  | None => None
  end.

(** [counter[k] += 1] on a [Counter]: [TypeError] on an unhashable key. *)
Definition count_up (k : json) (counts : pydict nat) : option (pydict nat) :=
  match py_hash_key k with
  | Some _ =>
      Some (dict_set k
              (S (match dict_get k counts with
                  | Some n => n
                  | None => 0%nat
                  end))
              counts)
  | None => None
  end.

(** [counter.most_common()]: the items by falling count, items of the same
    count in the order of their insertion. *)
Fixpoint insert_by_count (x : json * nat) (l : list (json * nat))
    : list (json * nat) :=
  match l with
  | [] => [x]
  | y :: rest =>
      if (snd y <=? snd x)%nat then x :: y :: rest
      else y :: insert_by_count x rest
  end.

Definition most_common (counts : pydict nat) : list (json * nat) :=
  fold_right insert_by_count [] counts.

(** A piece of a report: the lines it prints, and its value unless an
    exception ends it. *)
Definition report_step (A : Type) : Type := list string * option A.

Definition rret {A} (a : A) : report_step A := ([], Some a).

Definition rbind {A B} (m : report_step A) (k : A -> report_step B) : report_step B :=
  match m with
  | (out, Some a) => let (out', b) := k a in ((out ++ out')%list, b)
  | (out, None) => (out, None)
  end.

Definition print (line : string) : report_step unit := ([line], Some tt).

Definition need {A} (o : option A) : report_step A := ([], o).

Notation "x <~ m ;~ k" := (rbind m (fun x => k))
  (at level 61, m at next level, right associativity).

(** The report as [main] sees it. *)
Definition finish (r : report_step unit) : list string * ending :=
  (fst r, match snd r with
          | Some _ => Returned
          | None => Uncaught
          end).

(** The three lines at the head of every report. *)
Definition heading (title : string) : report_step unit :=
  _ <~ print (String "010" (rule 60)) ;~
  _ <~ print title ;~
  print (rule 60).

(** [len([r for r in runs if r == run]) <= 10] *)
Definition shown (run : json) (runs : list json) : bool :=
  (List.length (filter (fun r => py_eq r run) runs) <=? 10)%nat.

Module Report.

Section Reports.

(** [str(v)] in an f-string; [f"{a / b:.1f}"] for two numbers, [b] not
    zero; and [f"{count / total * 100:.1f}"], [total] not zero. *)
Variable py_str : json -> string.
Variable format_ratio : Z -> Z -> string.
Variable format_percentage : nat -> nat -> string.

(** The body of the loop of [analyze_organizations]. *)
Fixpoint organizations_loop (organizations : list json) : report_step unit :=
  match organizations with
  | [] => rret tt
  | org :: rest =>
      attrs <~ need (py_get "attributes" (JObj []) org) ;~
      name <~ need (py_get "name" (JStr "N/A") attrs) ;~
      _ <~ print (String "010" ("Organization: " ++ py_str name)) ;~
      email <~ need (py_get "email" (JStr "N/A") attrs) ;~
      _ <~ print ("  Email: " ++ py_str email) ;~
      created <~ need (py_get "created-at" (JStr "N/A") attrs) ;~
      _ <~ print ("  Created: " ++ py_str created) ;~
      plan <~ need (py_get "plan" (JStr "N/A") attrs) ;~
      _ <~ print ("  Plan: " ++ py_str plan) ;~
      users <~ need (py_get "users" (JStr "N/A") attrs) ;~
      _ <~ print ("  Users: " ++ py_str users) ;~
      organizations_loop rest
  end.

Definition analyze_organizations (data : json) : report_step unit :=
  _ <~ heading "ORGANIZATION ANALYSIS" ;~
  organizations <~ need (py_get "organizations" (JArr []) data) ;~
  items <~ need (py_elements organizations) ;~
  organizations_loop items.

(** The inner loop of [analyze_workspaces]: the workspaces counted so far
    and the counter of the Terraform versions.  The counts by execution
    mode are never read. *)
Fixpoint workspaces_loop (workspaces : list json) (total : nat)
    (terraform_versions : pydict nat) : report_step (nat * pydict nat) :=
  match workspaces with
  | [] => rret (total, terraform_versions)
  | workspace :: rest =>
      attrs <~ need (py_get "attributes" (JObj []) workspace) ;~
      execution_mode <~ need (py_get "execution-mode" (JStr "unknown") attrs) ;~
      tf_version <~ need (py_get "terraform-version" (JStr "unknown") attrs) ;~
      terraform_versions' <~ need (count_up tf_version terraform_versions) ;~
      name <~ need (py_get "name" (JStr "N/A") attrs) ;~
      _ <~ print ("    - " ++ py_str name) ;~
      _ <~ print ("      Terraform Version: " ++ py_str tf_version) ;~
      _ <~ print ("      Execution Mode: " ++ py_str execution_mode) ;~
      auto_apply <~ need (py_get "auto-apply" (JBool false) attrs) ;~
      _ <~ print ("      Auto Apply: " ++ py_str auto_apply) ;~
      created <~ need (py_get "created-at" (JStr "N/A") attrs) ;~
      _ <~ print ("      Created: " ++ py_str created) ;~
      workspaces_loop rest (S total) terraform_versions'
  end.

(** The outer loop of [analyze_workspaces], over [workspaces_data.items()]. *)
Fixpoint organizations_workspaces_loop (items : list (string * json)) (total : nat)
    (terraform_versions : pydict nat) : report_step (nat * pydict nat) :=
  match items with
  | [] => rret (total, terraform_versions)
  | (org_name, workspaces) :: rest =>
      _ <~ print (String "010" ("Organization: " ++ org_name)) ;~
      n <~ need (py_len workspaces) ;~
      _ <~ print ("  Total Workspaces: " ++ py_str_count n) ;~
      elements <~ need (py_elements workspaces) ;~
      stats <~ workspaces_loop elements total terraform_versions ;~
      organizations_workspaces_loop rest (fst stats) (snd stats)
  end.

Fixpoint version_lines (versions : list (json * nat)) : report_step unit :=
  match versions with
  | [] => rret tt
  | (version, count) :: rest =>
      _ <~ print ("  " ++ py_str version ++ ": " ++ py_str_count count) ;~
      version_lines rest
  end.

Definition analyze_workspaces (data : json) : report_step unit :=
  _ <~ heading "WORKSPACE ANALYSIS" ;~
  workspaces_data <~ need (py_get "workspaces" (JObj []) data) ;~
  items <~ need (py_items workspaces_data) ;~
  stats <~ organizations_workspaces_loop items 0 [] ;~
  _ <~ print (String "010" "Workspace Statistics:") ;~
  _ <~ print ("  Total Workspaces: " ++ py_str_count (fst stats)) ;~
  _ <~ print (String "010" "Terraform Versions:") ;~
  version_lines (most_common (snd stats)).

(** The four lines about one run. *)
Definition run_details (run status attrs : json) : report_step unit :=
  id <~ need (py_get "id" (JStr "N/A") run) ;~
  short_id <~ need (py_slice 8 id) ;~
  _ <~ print ("      - Run " ++ py_str short_id ++ "...") ;~
  _ <~ print ("        Status: " ++ py_str status) ;~
  created <~ need (py_get "created-at" (JStr "N/A") attrs) ;~
  _ <~ print ("        Created: " ++ py_str created) ;~
  message <~ need (py_get "message" (JStr "N/A") attrs) ;~
  short_message <~ need (py_slice 50 message) ;~
  print ("        Message: " ++ py_str short_message ++ "...").

(** The loop of [analyze_runs] over the runs of one workspace: [todo] are
    the runs still to visit, [runs] all the runs of the workspace. *)
Fixpoint runs_loop (todo runs : list json) (status_counts : pydict nat)
    : report_step (pydict nat) :=
  match todo with
  | [] => rret status_counts
  | run :: rest =>
      attrs <~ need (py_get "attributes" (JObj []) run) ;~
      status <~ need (py_get "status" (JStr "unknown") attrs) ;~
      status_counts' <~ need (count_up status status_counts) ;~
      _ <~ (if shown run runs then run_details run status attrs else rret tt) ;~
      runs_loop rest runs status_counts'
  end.

(** The loop over [org_runs.items()]: the runs counted so far and the
    counter of the statuses. *)
Fixpoint workspaces_runs_loop (items : list (string * json)) (total : nat)
    (status_counts : pydict nat) : report_step (nat * pydict nat) :=
  match items with
  | [] => rret (total, status_counts)
  | (workspace_name, workspace_data) :: rest =>
      runs <~ need (py_get "runs" (JArr []) workspace_data) ;~
      _ <~ print ("  Workspace: " ++ workspace_name) ;~
      n <~ need (py_len runs) ;~
      _ <~ print ("    Total Runs: " ++ py_str_count n) ;~
      elements <~ need (py_elements runs) ;~
      status_counts' <~ runs_loop elements elements status_counts ;~
      workspaces_runs_loop rest (total + n) status_counts'
  end.

(** The loop over [runs_data.items()]. *)
Fixpoint organizations_runs_loop (items : list (string * json)) (total : nat)
    (status_counts : pydict nat) : report_step (nat * pydict nat) :=
  match items with
  | [] => rret (total, status_counts)
  | (org_name, org_runs) :: rest =>
      _ <~ print (String "010" ("Organization: " ++ org_name)) ;~
      workspaces <~ need (py_items org_runs) ;~
      stats <~ workspaces_runs_loop workspaces total status_counts ;~
      organizations_runs_loop rest (fst stats) (snd stats)
  end.

Fixpoint status_lines (total : nat) (statuses : list (json * nat)) : report_step unit :=
  match statuses with
  | [] => rret tt
  | (status, count) :: rest =>
      _ <~ print ("  " ++ py_str status ++ ": " ++ py_str_count count ++ " ("
                  ++ (if (0 <? total)%nat then format_percentage count total
                      else "0.0")
                  ++ "%)") ;~
      status_lines total rest
  end.

Definition analyze_runs (data : json) : report_step unit :=
  _ <~ heading "RUN ANALYSIS" ;~
  runs_data <~ need (py_get "runs" (JObj []) data) ;~
  items <~ need (py_items runs_data) ;~
  stats <~ organizations_runs_loop items 0 [] ;~
  _ <~ print (String "010" "Run Statistics:") ;~
  _ <~ print ("  Total Runs: " ++ py_str_count (fst stats)) ;~
  _ <~ print (String "010" "Run Status Distribution:") ;~
  status_lines (fst stats) (most_common (snd stats)).

(** [a / b] formatted with [.1f]: [TypeError] unless both are numbers,
    [ZeroDivisionError] when [b] is zero, [OverflowError] when the quotient
    is too large for a [float]. *)
Definition py_ratio (a b : json) : option string :=
  match as_int a, as_int b with
  | Some x, Some y =>
      if y =? 0 then None
      else if float_overflow * Z.abs y <=? Z.abs x then None
      else Some (format_ratio x y)
  | _, _ => None
  end.

Definition generate_summary_report (data : json) : report_step unit :=
  _ <~ heading "COMPREHENSIVE SUMMARY REPORT" ;~
  summary <~ need (py_get "summary" (JObj []) data) ;~
  organizations <~ need (py_get "total_organizations" (JNum 0) summary) ;~
  _ <~ print ("Total Organizations: " ++ py_str organizations) ;~
  workspaces <~ need (py_get "total_workspaces" (JNum 0) summary) ;~
  _ <~ print ("Total Workspaces: " ++ py_str workspaces) ;~
  runs <~ need (py_get "total_runs" (JNum 0) summary) ;~
  _ <~ print ("Total Runs: " ++ py_str runs) ;~
  total_orgs <~ need (py_get "total_organizations" (JNum 0) summary) ;~
  total_workspaces <~ need (py_get "total_workspaces" (JNum 0) summary) ;~
  some_orgs <~ need (py_positive total_orgs) ;~
  _ <~ (if (some_orgs : bool) then
          average <~ need (py_ratio total_workspaces total_orgs) ;~
          print ("Average Workspaces per Organization: " ++ average)
        else rret tt) ;~
  some_workspaces <~ need (py_positive total_workspaces) ;~
  if (some_workspaces : bool) then
    total_runs <~ need (py_get "total_runs" (JNum 0) summary) ;~
    average <~ need (py_ratio total_runs total_workspaces) ;~
    print ("Average Runs per Workspace: " ++ average)
  else rret tt.

End Reports.

End Report.

(** One line of the Terraform versions. *)
Definition version_line (py_str : json -> string) (x : json * nat) : string :=
  "  " ++ py_str (fst x) ++ ": " ++ py_str_count (snd x).

(** One line of the status distribution when there are runs. *)
Definition status_line (py_str : json -> string)
    (format_percentage : nat -> nat -> string) (total : nat) (x : json * nat)
    : string :=
  "  " ++ py_str (fst x) ++ ": " ++ py_str_count (snd x) ++ " ("
  ++ format_percentage (snd x) total ++ "%)".

(** No two runs of the list compare equal. *)
Fixpoint all_different (runs : list json) : bool :=
  match runs with
  | [] => true
  | run :: rest =>
      forallb (fun r => negb (py_eq r run) && negb (py_eq run r)) rest
      && all_different rest
  end.

(** The four reports as [main] of the analyzer calls them. *)
Definition python_reports (py_str : json -> string)
    (format_ratio : Z -> Z -> string)
    (format_percentage : nat -> nat -> string) : reports :=
  mk_reports
    (fun data => finish (Report.generate_summary_report py_str format_ratio data))
    (fun data => finish (Report.analyze_organizations py_str data))
    (fun data => finish (Report.analyze_workspaces py_str data))
    (fun data => finish (Report.analyze_runs py_str format_percentage data)).

(** ** A document for concrete reports *)

(** A run with an id and a status. *)
Definition status_run (id status : string) : json :=
  JObj [("id", JStr id);
        ("attributes", JObj [("status", JStr status);
                             ("message", JStr "Queued manually")])].

(** Two workspaces, and four runs of the first, three of them applied. *)
Definition sample_document : json :=
  JObj [("workspaces",
         JObj [("acme",
                JArr [JObj [("id", JStr "ws-a");
                            ("attributes",
                             JObj [("name", JStr "prod");
                                   ("terraform-version", JStr "1.5.0")])];
                      JObj [("id", JStr "ws-b");
                            ("attributes",
                             JObj [("name", JStr "staging");
                                   ("terraform-version", JStr "1.5.0")])]])]);
        ("runs",
         JObj [("acme",
                JObj [("prod",
                       JObj [("workspace_id", JStr "ws-a");
                             ("runs",
                              JArr [status_run "run-1" "applied";
                                    status_run "run-2" "errored";
                                    status_run "run-3" "applied";
                                    status_run "run-4" "applied"])])])]);
        ("summary",
         JObj [("total_organizations", JNum 1);
               ("total_workspaces", JNum 2);
               ("total_runs", JNum 4)])].

(** [.1f] of a percentage and of a quotient that are whole numbers. *)
Definition whole_percentage (count total : nat) : string :=
  py_str_count (count * 100 / total) ++ ".0".

Definition whole_ratio (a b : Z) : string :=
  NilZero.string_of_int (Z.to_int (a / b)) ++ ".0".

(** [str(v)] on strings, constants and integers. *)
Definition scalar_str (v : json) : string :=
  match v with
  | JNum z => NilZero.string_of_int (Z.to_int z)
  | _ => plain_str v
  end.

Definition sample_runs_report : report_step unit :=
  Eval vm_compute in Report.analyze_runs scalar_str whole_percentage sample_document.

Definition sample_workspaces_report : report_step unit :=
  Eval vm_compute in Report.analyze_workspaces scalar_str sample_document.

(** Eleven runs, no two alike. *)
Definition eleven_runs : list json :=
  map (fun id => status_run id "applied")
    ["run-01"; "run-02"; "run-03"; "run-04"; "run-05"; "run-06";
     "run-07"; "run-08"; "run-09"; "run-10"; "run-11"].

Definition eleven_runs_report : report_step (pydict nat) :=
  Eval vm_compute in Report.runs_loop scalar_str eleven_runs eleven_runs [].

(** ** The document of a snapshot *)

(** A dictionary key as [json.dump] writes it: a string as it is, [None],
    a [bool] and an [int] as their JSON text. *)
Definition key_text (k : json) : string :=
  match k with
  | JStr s => s
  | JNull => "null"
  | JBool true => "true"
  | JBool false => "false"
  | JNum z => NilZero.string_of_int (Z.to_int z)
  | JArr _ | JObj _ => ""       (* unhashable: never a key *)
  end.

(** [fields[k] = v] while [json.load] builds an object: a key read twice
    keeps its first place and its last value. *)
Fixpoint obj_set (k : string) (v : json) (fields : list (string * json))
    : list (string * json) :=
  match fields with
  | [] => [(k, v)]
  | (k', v') :: rest =>
      if String.eqb k k' then (k', v) :: rest else (k', v') :: obj_set k v rest
  end.

(** What [json.load] reads from the text [json.dump] writes for a
    dictionary. *)
Definition object_of {V} (to_json : V -> json) (d : pydict V) : json :=
  JObj (fold_left
          (fun fields kv => obj_set (key_text (fst kv)) (to_json (snd kv)) fields)
          d []).

Definition entry_document (e : run_entry) : json :=
  JObj [("workspace_id", workspace_id e); ("runs", JArr (entry_runs e))].

(** What the analyzer loads from the file the collector wrote: the
    snapshot after [json.dump(data, f, indent=2, default=str)] and
    [json.load]. *)
Definition document (snap : snapshot) : json :=
  JObj [("organizations", JArr (organizations snap));
        ("workspaces", object_of (fun ws => JArr ws) (workspaces snap));
        ("runs", object_of (object_of entry_document) (runs snap));
        ("summary",
         JObj [("total_organizations",
                JNum (Z.of_nat (total_organizations (summary snap))));
               ("total_workspaces",
                JNum (Z.of_nat (total_workspaces (summary snap))));
               ("total_runs",
                JNum (Z.of_nat (total_runs (summary snap))))])].

(** The names of the organizations and of the workspaces of the runs
    mapping are strings. *)
Definition string_names (workspace_runs : pydict (pydict run_entry)) : bool :=
  forallb (fun kv => is_string (fst kv)
                     && forallb (fun ne => is_string (fst ne)) (snd kv))
    workspace_runs.

(** The reports on the document of the end-to-end run. *)
Definition two_org_organizations_report : report_step unit :=
  Eval vm_compute in
    Report.analyze_organizations scalar_str (document (snapshot_of two_org_run)).

Definition two_org_runs_report : report_step unit :=
  Eval vm_compute in
    Report.analyze_runs scalar_str whole_percentage
      (document (snapshot_of two_org_run)).

(** * Verified properties *)

(** ** Concrete runs *)

Example py_int_plain : py_int "30" = Some 30.
Proof. reflexivity. Qed.

Example py_int_padded : py_int " -1_000  " = Some (-1000).
Proof. reflexivity. Qed.

Example py_int_date : py_int "Wed, 21 Oct 2015 07:28:00 GMT" = None.
Proof. reflexivity. Qed.

Example py_int_empty : py_int "" = None.
Proof. reflexivity. Qed.

Example py_int_inner_space : py_int "1 2" = None.
Proof. reflexivity. Qed.

(** The no-break space is stripped, the file separator is not. *)
Example py_int_no_break_space : py_int (String (ascii_of_nat 160) "7") = Some 7.
Proof. reflexivity. Qed.

Example py_int_file_separator : py_int (String (ascii_of_nat 28) "7") = None.
Proof. reflexivity. Qed.

(** 4300 digits are read, 4301 are refused. *)
Example py_int_longest :
  exists z, py_int (string_of_list_ascii (repeat "1"%char 4300)) = Some z.
Proof. eexists. vm_compute. reflexivity. Qed.

Example py_int_too_long :
  py_int (string_of_list_ascii (repeat "1"%char 4301)) = None.
Proof. vm_compute. reflexivity. Qed.

Example make_request_retry :
  _make_request (JStr "u") None
    (new_client cfg10 [rate_limited [("retry-after", "2")]; ok_page (JObj [])])
  = (Ok (JObj []),
     mk_client cfg10 10 []
       [EvAcquire; EvGet (JStr "u") None; EvSleep 2;
        EvAcquire; EvGet (JStr "u") None; EvRelease; EvRelease]).
Proof. reflexivity. Qed.

(** A status 200 with an empty body: [response.json()] returns [None]. *)
Example make_request_empty_body :
  _make_request (JStr "u") None
    (new_client cfg10 [Answer (mk_response 200 [] Empty)])
  = (Ok JNull,
     mk_client cfg10 10 [] [EvAcquire; EvGet (JStr "u") None; EvRelease]).
Proof. reflexivity. Qed.

(** A status 200 with a body that is no JSON document, and one whose
    content type is not JSON. *)
Example make_request_malformed_body :
  fst (_make_request (JStr "u") None
         (new_client cfg10 [Answer (mk_response 200 [] Malformed)]))
  = Raise JSONDecodeError /\
  fst (_make_request (JStr "u") None
         (new_client cfg10 [Answer (mk_response 200 [] NotJson)]))
  = Raise ContentTypeError.
Proof. split; reflexivity. Qed.

(** A retry-after value of 401 digits: [int] reads it, [asyncio.sleep]
    raises, and the request is not retried. *)
Example make_request_delay_too_large :
  _make_request (JStr "u") None
    (new_client cfg10
       [rate_limited
          [("Retry-After", String "1" (string_of_list_ascii (repeat "0"%char 400)))];
        ok_page (JObj [])])
  = (Raise OverflowError,
     mk_client cfg10 10 [ok_page (JObj [])]
       [EvAcquire; EvGet (JStr "u") None; EvRelease]).
Proof. vm_compute. reflexivity. Qed.

(** A URL that is not a string: nothing is sent and no reply is taken. *)
Example make_request_number_url :
  _make_request (JNum 5) None (new_client cfg10 [ok_page (JObj [])])
  = (Raise TypeError,
     mk_client cfg10 10 [ok_page (JObj [])] [EvAcquire; EvRelease]).
Proof. reflexivity. Qed.

(** A next-page locator that is a number: the pager raises on its second
    turn, the items of the first page are lost and the second page is never
    requested. *)
Example paginated_number_locator :
  _paginated_request (JStr "u") None
    (new_client cfg10
       [ok_page (JObj [("data", JArr [JNum 1]); ("links", JObj [("next", JNum 5)])]);
        ok_page (page [JNum 2] None)])
  = (Raise TypeError,
     mk_client cfg10 10 [ok_page (page [JNum 2] None)]
       [EvAcquire; EvGet (JStr "u") None; EvRelease; EvAcquire; EvRelease]).
Proof. reflexivity. Qed.

Example paginated_two_pages :
  _paginated_request (JStr "u") (Some [("include", "x")])
    (new_client cfg10
       [ok_page (page [JNum 1; JNum 2] (Some "u2")); ok_page (page [JNum 3] None)])
  = (Ok [JNum 1; JNum 2; JNum 3],
     mk_client cfg10 10 []
       [EvAcquire; EvGet (JStr "u") (Some [("include", "x")]); EvRelease;
        EvAcquire; EvGet (JStr "u2") None; EvRelease]).
Proof. reflexivity. Qed.

Example end_to_end :
  let (o, c) := get_all_data plain_str (new_client cfg10 two_org_script) in
  match o with
  | Ok snap =>
      summary snap = mk_summary 2 2 6 /\
      option_map (map (fun kv => workspace_id (snd kv)))
        (dict_get (JStr "globex") (runs snap)) = Some [JStr "ws-b"] /\
      server c = []
  | _ => False
  end.
Proof. vm_compute. repeat split. Qed.

(** ** The executor *)

Lemma events_since_app (c c' : client) (evs : list event) :
  trace c' = (trace c ++ evs)%list -> events_since c c' = evs.
Proof.
  intros H. unfold events_since. rewrite H.
  rewrite skipn_app, skipn_all, Nat.sub_diag. reflexivity.
Qed.

Lemma sleeps_with_permit_mono (evs : list event) :
  forall h h', h <= h' ->
    sleeps_with_permit h evs = true -> sleeps_with_permit h' evs = true.
Proof.
  induction evs as [|e evs IH]; intros h h' Hle; simpl; [reflexivity|].
  destruct e; try (apply IH; lia).
  rewrite !andb_true_iff, !Z.ltb_lt. intros [H1 H2]. split; [lia|].
  now apply (IH h h').
Qed.

Lemma sleeps_with_permit_app (a b : list event) :
  forall h, sleeps_with_permit h (a ++ b)
            = sleeps_with_permit h a && sleeps_with_permit (held_after h a) b.
Proof.
  induction a as [|e a IH]; intros h; simpl; [reflexivity|].
  destruct e; rewrite ?IH; try reflexivity.
  now rewrite andb_assoc.
Qed.

Lemma held_after_app (a b : list event) :
  forall h, held_after h (a ++ b) = held_after (held_after h a) b.
Proof.
  induction a as [|e a IH]; intros h; simpl; [reflexivity|].
  destruct e; apply IH.
Qed.

Lemma held_after_shift (evs : list event) :
  forall h, held_after h evs = h + held_after 0 evs.
Proof.
  induction evs as [|e evs IH]; intros h; simpl; [lia|].
  destruct e.
  - rewrite (IH (h + 1)), (IH 1). lia.
  - rewrite (IH (h - 1)), (IH (-1)). lia.
  - apply IH.
  - apply IH.
Qed.

(** What one call does to the client: it only adds events, every sleep of
    the call is slept with a permit held, and a call that returns or raises
    has given back every permit it took. *)
Lemma make_request_events (script : list reply) (url : json) (params : option query) :
  forall c,
    let r := make_request script url params c in
    exists evs,
      trace (snd r) = (trace c ++ evs)%list /\
      config (snd r) = config c /\
      sleeps_with_permit 0 evs = true /\
      (if completes (fst r)
       then held_after 0 evs = 0 /\ semaphore (snd r) = semaphore c
       else True).
Proof.
  induction script as [|rep rest IH]; intros c; simpl.
  - destruct (semaphore c) as [|free] eqn:Hs; simpl.
    + exists []. rewrite app_nil_r. auto.
    + destruct (is_string url); simpl.
      * exists [EvAcquire; EvGet url params]. auto.
      * exists [EvAcquire; EvRelease]. rewrite <- app_assoc. simpl. auto.
  - destruct (semaphore c) as [|free] eqn:Hs; simpl.
    + exists []. rewrite app_nil_r. auto.
    + destruct (is_string url) eqn:Hurl; simpl;
        [|exists [EvAcquire; EvRelease]; rewrite <- app_assoc; simpl; auto].
      destruct rep as [r|detail].
      * destruct (handle_response r) as [v|seconds|e]; simpl.
        -- exists [EvAcquire; EvGet url params; EvRelease].
           rewrite <- app_assoc. simpl. auto.
        -- specialize (IH (log [EvSleep seconds]
                            (log [EvAcquire; EvGet url params] (set_semaphore free c)))).
           simpl in IH. destruct IH as (evs & Ht & Hc & Hsl & Hdone).
           destruct (make_request rest url params _) as [o c'] eqn:Hrun.
           simpl in *. unfold release.
           destruct (completes o) eqn:Hcompl; simpl.
           ++ exists ([EvAcquire; EvGet url params; EvSleep seconds] ++ evs ++ [EvRelease])%list.
              rewrite Ht, <- !app_assoc. simpl. rewrite Hcompl.
              destruct Hdone as [Hh Hsem].
              assert (Hsl1 : sleeps_with_permit 1 evs = true)
                by (apply (sleeps_with_permit_mono evs 0 1); [lia | assumption]).
              repeat split; auto.
              ** now rewrite sleeps_with_permit_app, Hsl1.
              ** rewrite held_after_app, (held_after_shift evs), Hh. reflexivity.
           ++ exists ([EvAcquire; EvGet url params; EvSleep seconds] ++ evs)%list.
              rewrite Ht, <- !app_assoc. simpl. rewrite Hcompl.
              repeat split; auto.
              now rewrite (sleeps_with_permit_mono evs 0 1) by (auto; lia).
        -- exists [EvAcquire; EvGet url params; EvRelease].
           rewrite <- app_assoc. simpl. auto.
      * simpl. exists [EvAcquire; EvGet url params; EvRelease].
        rewrite <- app_assoc. simpl. auto.
Qed.

(** C1 (as amended): for every rate-limited response [_make_request] keeps
    the permit it took for the request while it sleeps out the retry-after
    duration, and once the call has returned or raised every permit it took
    has been released. *)
Theorem make_request_sleeps_holding_permit (url : json) (params : option query)
    (c : client) :
  let r := _make_request url params c in
  let evs := events_since c (snd r) in
  trace (snd r) = (trace c ++ evs)%list /\
  sleeps_with_permit 0 evs = true /\
  (if completes (fst r)
   then held_after 0 evs = 0 /\ semaphore (snd r) = semaphore c
   else True).
Proof.
  unfold _make_request.
  destruct (make_request_events (server c) url params c) as (evs & Ht & _ & Hsl & Hdone).
  simpl. rewrite (events_since_app _ _ _ Ht). auto.
Qed.

(** C1 (as stated) fails: one rate-limited response followed by a success.
    The task sleeps holding its permit and takes a second one for the
    retry. *)
Lemma releases_permit_to_sleep_fails :
  ~ releases_permit_to_sleep (JStr "u") None
      (new_client cfg10 [rate_limited [("Retry-After", "2")]; ok_page (JObj [])]).
Proof.
  unfold releases_permit_to_sleep. vm_compute. intros [H _]. discriminate H.
Qed.

(** With one permit in the pool the retry waits for the permit its own
    caller holds. *)
Example retry_blocks_on_last_permit :
  fst (_make_request (JStr "u") None
         (mk_client cfg10 1 [rate_limited []; ok_page (JObj [])] []))
  = Blocked.
Proof. reflexivity. Qed.

(** A URL that is not a [str]: the call raises with the permit taken and
    given back, and the replies are all still to come. *)
Lemma make_request_not_string (script : list reply) (url : json)
    (params : option query) (c : client) :
  is_string url = false ->
  (0 < semaphore c)%nat ->
  make_request script url params c
  = (Raise TypeError,
     mk_client (config c) (semaphore c) script
       (trace c ++ [EvAcquire; EvRelease])).
Proof.
  intros Hurl Hsem.
  destruct script; simpl; rewrite Hurl;
    (destruct (semaphore c) as [|free]; [lia|]); simpl;
    unfold log, set_semaphore, set_server; simpl;
    now rewrite <- app_assoc.
Qed.

(** The client after a call that took one reply and made one request. *)
Lemma make_request_once (r : response) (rest : list reply) (url : json)
    (params : option query) (c : client) :
  (0 < semaphore c)%nat ->
  is_string url = true ->
  (forall seconds, handle_response r <> RetryAfter seconds) ->
  make_request (Answer r :: rest) url params c
  = (match handle_response r with
     | Return v => Ok v
     | Throw e => Raise e
     | RetryAfter _ => Blocked
     end,
     mk_client (config c) (semaphore c) rest
       (trace c ++ [EvAcquire; EvGet url params; EvRelease])).
Proof.
  intros Hsem Hurl Hno. simpl. rewrite Hurl.
  destruct (semaphore c) as [|free]; [lia|].
  destruct (handle_response r) as [v|seconds|e]; simpl;
    unfold log, set_semaphore, set_server; simpl.
  - now rewrite <- app_assoc.
  - now destruct (Hno seconds).
  - now rewrite <- app_assoc.
Qed.

Lemma make_request_retry_step (r : response) (rest : list reply) (url : json)
    (params : option query) (c : client) (free : nat) (seconds : Z) :
  semaphore c = S free ->
  is_string url = true ->
  handle_response r = RetryAfter seconds ->
  make_request (Answer r :: rest) url params c
  = release (make_request rest url params
               (log [EvSleep seconds]
                  (log [EvAcquire; EvGet url params] (set_semaphore free c)))).
Proof. intros Hsem Hurl Hv. simpl. now rewrite Hsem, Hurl, Hv. Qed.

Lemma handle_rate_limited (r : response) :
  status r = 429 ->
  handle_response r
  = match retry_after r with
    | Some seconds =>
        if can_sleep seconds then RetryAfter seconds else Throw OverflowError
    | None => Throw ValueError
    end.
Proof. intros H. unfold handle_response. now rewrite H. Qed.

(** A rate limit that is slept out: the retry-after value is absent or an
    integer [asyncio.sleep] accepts. *)
Lemma handle_slept (r : response) (seconds : Z) :
  status r = 429 ->
  retry_after r = Some seconds ->
  can_sleep seconds = true ->
  handle_response r = RetryAfter seconds.
Proof.
  intros Hst Hretry Hsleep. rewrite handle_rate_limited by assumption.
  now rewrite Hretry, Hsleep.
Qed.

(** The sleep is the advertised number of seconds when the header parses
    and a float can hold the number. *)
Lemma retry_after_advertised (r : response) (v : string) (seconds : Z) :
  status r = 429 ->
  headers_get "Retry-After" (headers r) = Some v ->
  py_int v = Some seconds ->
  can_sleep seconds = true ->
  handle_response r = RetryAfter seconds.
Proof.
  intros Hs Hh Hp Hsleep. apply handle_slept; try assumption.
  unfold retry_after. now rewrite Hh.
Qed.

(** An advertised delay no float can hold raises in [asyncio.sleep]: the
    call neither sleeps nor retries. *)
Lemma retry_after_overflow (r : response) (v : string) (seconds : Z) :
  status r = 429 ->
  headers_get "Retry-After" (headers r) = Some v ->
  py_int v = Some seconds ->
  can_sleep seconds = false ->
  handle_response r = Throw OverflowError.
Proof.
  intros Hs Hh Hp Hsleep. rewrite handle_rate_limited by assumption.
  unfold retry_after. now rewrite Hh, Hp, Hsleep.
Qed.

(** The sleep is five seconds when there is no header. *)
Lemma retry_after_default (r : response) :
  status r = 429 ->
  headers_get "Retry-After" (headers r) = None ->
  handle_response r = RetryAfter 5.
Proof.
  intros Hs Hh. rewrite handle_rate_limited by assumption.
  unfold retry_after. now rewrite Hh.
Qed.

Lemma handle_not_rate_limited (r : response) :
  status r <> 429 -> forall seconds, handle_response r <> RetryAfter seconds.
Proof.
  intros H seconds. unfold handle_response.
  destruct (status r =? 200); [destruct (body r); discriminate|].
  destruct (status r =? 429) eqn:E; [apply Z.eqb_eq in E; contradiction|].
  destruct (raise_for_status r); discriminate.
Qed.

(** One rate-limited response, then an answer: the same request is made
    twice and the only sleep is the retry-after value. *)
Lemma rate_limited_once (r r' : response) (rest : list reply) (seconds : Z)
    (url : json) (params : option query) (c : client) :
  status r = 429 ->
  retry_after r = Some seconds ->
  can_sleep seconds = true ->
  status r' <> 429 ->
  is_string url = true ->
  (2 <= semaphore c)%nat ->
  server c = Answer r :: Answer r' :: rest ->
  let res := _make_request url params c in
  sleeps (events_since c (snd res)) = [seconds] /\
  gets (events_since c (snd res)) = [(url, params); (url, params)] /\
  server (snd res) = rest /\
  semaphore (snd res) = semaphore c.
Proof.
  intros Hst Hretry Hsleep Hst' Hurl Hsem Hsrv. unfold _make_request. rewrite Hsrv.
  destruct (semaphore c) as [|[|free]] eqn:Hc; try lia.
  pose proof (handle_slept r seconds Hst Hretry Hsleep) as Hv.
  pose proof (handle_not_rate_limited r' Hst') as Hno.
  rewrite (make_request_retry_step r _ url params c (S free) seconds Hc Hurl Hv).
  rewrite make_request_once; [|simpl; lia|assumption|assumption].
  assert (Hcompl : completes
                     match handle_response r' with
                     | Return v => Ok v
                     | RetryAfter _ => Blocked
                     | Throw e => Raise e
                     end = true).
  { destruct (handle_response r') as [v|s|e]; try reflexivity. now destruct (Hno s). }
  unfold release. rewrite Hcompl. cbn [snd].
  rewrite (events_since_app c _
             [EvAcquire; EvGet url params; EvSleep seconds;
              EvAcquire; EvGet url params; EvRelease; EvRelease]).
  - repeat split.
  - simpl. now rewrite <- !app_assoc.
Qed.

(** A status of 400 or more, other than 429, raises and is not retried. *)
Lemma error_status_raises (r : response) (rest : list reply) (url : string)
    (params : option query) (c : client) :
  status r <> 429 -> 400 <= status r ->
  (0 < semaphore c)%nat ->
  server c = Answer r :: rest ->
  _make_request (JStr url) params c
  = (Raise (ClientResponseError (status r)),
     mk_client (config c) (semaphore c) rest
       (trace c ++ [EvAcquire; EvGet (JStr url) params; EvRelease])).
Proof.
  intros H429 H400 Hsem Hsrv. unfold _make_request. rewrite Hsrv.
  assert (Hv : handle_response r = Throw (ClientResponseError (status r))).
  { unfold handle_response, raise_for_status.
    destruct (status r =? 200) eqn:E1; [apply Z.eqb_eq in E1; lia|].
    destruct (status r =? 429) eqn:E2; [apply Z.eqb_eq in E2; lia|].
    destruct (400 <=? status r) eqn:E3; [reflexivity|apply Z.leb_gt in E3; lia]. }
  rewrite make_request_once;
    [now rewrite Hv | assumption | reflexivity | rewrite Hv; discriminate].
Qed.

(** C2 (the code at the failing inputs): a response whose status is below
    400 and is neither 200 nor 429 makes [_make_request] return [None] to its
    caller, after one request and with no exception raised. *)
Theorem other_status_below_400_returns_none (r : response) (rest : list reply)
    (url : string) (params : option query) (c : client) :
  status r <> 200 -> status r <> 429 -> status r < 400 ->
  (0 < semaphore c)%nat ->
  server c = Answer r :: rest ->
  _make_request (JStr url) params c
  = (Ok JNull,
     mk_client (config c) (semaphore c) rest
       (trace c ++ [EvAcquire; EvGet (JStr url) params; EvRelease])).
Proof.
  intros H200 H429 H400 Hsem Hsrv. unfold _make_request. rewrite Hsrv.
  assert (Hv : handle_response r = Return JNull).
  { unfold handle_response, raise_for_status.
    destruct (status r =? 200) eqn:E1; [apply Z.eqb_eq in E1; lia|].
    destruct (status r =? 429) eqn:E2; [apply Z.eqb_eq in E2; lia|].
    destruct (400 <=? status r) eqn:E3; [apply Z.leb_le in E3; lia|reflexivity]. }
  rewrite make_request_once;
    [now rewrite Hv | assumption | reflexivity | rewrite Hv; discriminate].
Qed.

Lemma other_status_below_400_returns_none_witness :
  _make_request (JStr "u") None
    (new_client cfg10 [Answer (mk_response 204 [] Empty)])
  = (Ok JNull,
     mk_client cfg10 10 [] [EvAcquire; EvGet (JStr "u") None; EvRelease]).
Proof.
  apply (other_status_below_400_returns_none
           (mk_response 204 [] Empty) [] "u" None
           (new_client cfg10 [Answer (mk_response 204 [] Empty)]));
    simpl; try lia; reflexivity.
Defined.

(** C5 (the code at the failing inputs): a rate-limited response whose
    [Retry-After] header is there and is not an integer makes
    [_make_request] raise [ValueError]; it neither sleeps nor retries. *)
Theorem unparsable_retry_after_raises (r : response) (v : string)
    (rest : list reply) (url : string) (params : option query) (c : client) :
  status r = 429 ->
  headers_get "Retry-After" (headers r) = Some v ->
  py_int v = None ->
  (0 < semaphore c)%nat ->
  server c = Answer r :: rest ->
  _make_request (JStr url) params c
  = (Raise ValueError,
     mk_client (config c) (semaphore c) rest
       (trace c ++ [EvAcquire; EvGet (JStr url) params; EvRelease])).
Proof.
  intros Hs Hh Hp Hsem Hsrv. unfold _make_request. rewrite Hsrv.
  assert (Hv : handle_response r = Throw ValueError).
  { rewrite handle_rate_limited by assumption. unfold retry_after.
    now rewrite Hh, Hp. }
  rewrite make_request_once;
    [now rewrite Hv | assumption | reflexivity | rewrite Hv; discriminate].
Qed.

Lemma unparsable_retry_after_raises_witness :
  _make_request (JStr "u") None
    (new_client cfg10
       [rate_limited [("Retry-After", "Wed, 21 Oct 2015 07:28:00 GMT")];
        ok_page (JObj [])])
  = (Raise ValueError,
     mk_client cfg10 10 [ok_page (JObj [])]
       [EvAcquire; EvGet (JStr "u") None; EvRelease]).
Proof.
  apply (unparsable_retry_after_raises
           (mk_response 429 [("Retry-After", "Wed, 21 Oct 2015 07:28:00 GMT")] Empty)
           "Wed, 21 Oct 2015 07:28:00 GMT" [ok_page (JObj [])] "u" None
           (new_client cfg10
              [rate_limited [("Retry-After", "Wed, 21 Oct 2015 07:28:00 GMT")];
               ok_page (JObj [])]));
    simpl; try lia; reflexivity.
Defined.

(** ** The pager *)

Lemma extend_with_data_page (acc : list json) (p : json) :
  is_page p = true ->
  extend_with_data acc p = Ok (acc ++ page_items p)%list.
Proof.
  destruct p as [| | | |items|fields]; try discriminate. simpl.
  unfold extend_with_data. simpl.
  destruct (obj_get "data" fields) as [[| | | |items|fs]|]; simpl;
    try discriminate; intros _; [reflexivity | now rewrite app_nil_r].
Qed.

Lemma has_next_page (p : json) :
  is_page p = true -> has_next p = Ok (has_locator p).
Proof.
  destruct p as [| | | |items|fields]; try discriminate. simpl.
  unfold has_next, has_locator. simpl.
  destruct (obj_get "data" fields) as [[| | | |items|fs]|]; simpl;
    try discriminate;
    (destruct (obj_get "links" fields) as [[| | | |items'|links]|]; simpl;
     try discriminate; intros _; try reflexivity;
     destruct (obj_get "next" links) as [next|]; simpl; try reflexivity;
     destruct (py_truthy next); reflexivity).
Qed.

Lemma next_link_page (p locator : json) :
  page_next p = Some locator ->
  next_link p = Ok locator /\ py_truthy locator = true.
Proof.
  destruct p as [| | | |items|fields]; try discriminate. simpl.
  unfold next_link. simpl.
  destruct (obj_get "links" fields) as [[| | | |items'|links]|]; try discriminate.
  simpl. destruct (obj_get "next" links) as [next|]; try discriminate.
  destruct (py_truthy next) eqn:E; try discriminate.
  intros H. injection H as <-. auto.
Qed.

Lemma has_url_locator (p : json) : has_url p = true -> has_locator p = true.
Proof. unfold has_url, has_locator. now destruct (page_next p). Qed.

Lemma make_request_ok_page (p : json) (rest : list reply) (url : json)
    (params : option query) (c : client) :
  is_string url = true ->
  (0 < semaphore c)%nat ->
  server c = ok_page p :: rest ->
  _make_request url params c
  = (Ok p, mk_client (config c) (semaphore c) rest
             (trace c ++ request_events (url, params))).
Proof.
  intros Hurl Hsem Hsrv. unfold _make_request, ok_page in *. rewrite Hsrv.
  rewrite make_request_once; [reflexivity | assumption | assumption | discriminate].
Qed.

(** The loop over a chain of pages: it returns the items of all pages in
    order, having made one request per page. *)
Lemma paginated_loop_chain (pages : list json) :
  forall fuel url params acc c rest,
    is_chain pages = true ->
    py_truthy url = true ->
    is_string url = true ->
    (0 < semaphore c)%nat ->
    server c = (map ok_page pages ++ rest)%list ->
    (List.length pages < fuel)%nat ->
    paginated_loop fuel url params acc c
    = (Ok (acc ++ List.concat (map page_items pages))%list,
       mk_client (config c) (semaphore c) rest
         (trace c ++ flat_map request_events (page_requests url params pages))).
Proof.
  induction pages as [|p ps IH];
    intros fuel url params acc c rest Hch Hurl Hstr Hsem Hsrv Hfuel; [discriminate|].
  destruct fuel as [|fuel]; [simpl in Hfuel; lia|].
  simpl paginated_loop. rewrite Hurl. unfold bind at 1.
  rewrite (make_request_ok_page p (map ok_page ps ++ rest) url params c Hstr Hsem Hsrv).
  assert (Hp : is_page p = true).
  { simpl in Hch. destruct ps; rewrite ?andb_true_iff in Hch; tauto. }
  unfold bind at 1, lift at 1. rewrite (extend_with_data_page acc p Hp).
  unfold bind at 1, lift at 1. rewrite (has_next_page p Hp).
  destruct ps as [|p' ps'].
  - simpl in Hch. rewrite andb_true_iff, negb_true_iff in Hch.
    destruct Hch as [_ Hno]. rewrite Hno.
    destruct fuel as [|fuel]; [simpl in Hfuel; lia|].
    simpl. unfold ret. unfold has_locator in Hno.
    destruct (page_next p); [discriminate|].
    now rewrite !app_nil_r.
  - assert (Hch' := Hch). simpl in Hch'.
    rewrite !andb_true_iff in Hch'. destruct Hch' as [[_ Hhas] Hrest].
    rewrite (has_url_locator p Hhas). unfold has_url in Hhas.
    destruct (page_next p) as [locator|] eqn:Hnext; [|discriminate].
    destruct (next_link_page p locator Hnext) as [Hlink Htruthy].
    unfold bind at 1, lift at 1. rewrite Hlink.
    rewrite (IH fuel locator None (acc ++ page_items p)%list _ rest Hrest Htruthy Hhas);
      simpl; try assumption; try reflexivity; [|simpl in Hfuel; lia].
    unfold page_requests. simpl. rewrite Hnext. simpl.
    rewrite <- !app_assoc. reflexivity.
Qed.

Lemma length_concat_sum (ls : list (list json)) :
  List.length (List.concat ls) = sum (map (fun l => List.length l) ls).
Proof.
  induction ls as [|l ls IH]; simpl; [reflexivity|].
  now rewrite length_app, IH.
Qed.

Lemma gets_request_events (qs : list (json * option query)) :
  gets (flat_map request_events qs) = qs.
Proof.
  induction qs as [|[u p] qs IH]; simpl; [reflexivity|]. now rewrite IH.
Qed.

Lemma length_next_requests (pages : list json) :
  is_chain pages = true ->
  S (List.length (next_requests pages)) = List.length pages.
Proof.
  induction pages as [|p ps IH]; [discriminate|].
  destruct ps as [|p' ps']; [reflexivity|].
  intros Hch. assert (Hch' := Hch). simpl in Hch'.
  rewrite !andb_true_iff in Hch'. destruct Hch' as [[_ Hhas] Hrest].
  unfold has_url in Hhas. simpl next_requests.
  destruct (page_next p); [|discriminate].
  change (S (S (List.length (next_requests (p' :: ps'))))
          = S (List.length (p' :: ps'))).
  f_equal. exact (IH Hrest).
Qed.

Lemma nth_next_request (pages : list json) :
  forall i p,
    is_chain pages = true ->
    nth_error pages i = Some p ->
    (S i < List.length pages)%nat ->
    exists locator,
      page_next p = Some locator /\
      nth_error (next_requests pages) i = Some (locator, None).
Proof.
  induction pages as [|q ps IH]; intros i p Hch Hnth Hlt; [discriminate|].
  destruct ps as [|p' ps']; [simpl in Hlt; lia|].
  assert (Hch' := Hch). simpl in Hch'.
  rewrite !andb_true_iff in Hch'. destruct Hch' as [[_ Hhas] Hrest].
  unfold has_url in Hhas. simpl next_requests.
  destruct (page_next q) as [locator|] eqn:Hq; [|discriminate].
  destruct i as [|i].
  - simpl in Hnth. injection Hnth as <-. exists locator. auto.
  - simpl in Hnth. simpl in Hlt.
    destruct (IH i p Hrest Hnth) as (l & H1 & H2); [simpl; lia|].
    exists l. auto.
Qed.

Lemma paginated_request_chain (pages : list json) (rest : list reply)
    (url : json) (params : option query) (c : client) :
  is_chain pages = true ->
  py_truthy url = true ->
  is_string url = true ->
  (0 < semaphore c)%nat ->
  server c = (map ok_page pages ++ rest)%list ->
  _paginated_request url params c
  = (Ok (List.concat (map page_items pages)),
     mk_client (config c) (semaphore c) rest
       (trace c ++ flat_map request_events (page_requests url params pages))).
Proof.
  intros Hch Hurl Hstr Hsem Hsrv. unfold _paginated_request.
  apply (paginated_loop_chain pages _ url params [] c rest); try assumption.
  rewrite Hsrv, length_app, length_map. lia.
Qed.

(** C6: over a chain of pages, each but the last naming the next by a
    string that is not empty, [_paginated_request] called with a URL string
    that is not empty returns the items of page 1, then those of page 2, and
    so on, each page in its own order and nothing dropped or merged; the
    length of the result is the sum of the per-page item counts. *)
Theorem paginated_request_concatenates (pages : list json) (rest : list reply)
    (url : string) (params : option query) (c : client) :
  is_chain pages = true ->
  py_truthy (JStr url) = true ->
  (0 < semaphore c)%nat ->
  server c = (map ok_page pages ++ rest)%list ->
  exists items,
    fst (_paginated_request (JStr url) params c) = Ok items /\
    items = List.concat (map page_items pages) /\
    List.length items = sum (map (fun p => List.length (page_items p)) pages).
Proof.
  intros Hch Hurl Hsem Hsrv.
  exists (List.concat (map page_items pages)).
  rewrite (paginated_request_chain pages rest (JStr url) params c)
    by (assumption || reflexivity).
  repeat split. now rewrite length_concat_sum, map_map.
Qed.

Lemma paginated_request_concatenates_witness :
  exists items,
    fst (_paginated_request (JStr "u") (Some [("include", "x")])
           (new_client cfg10
              [ok_page (page [JNum 1; JNum 2] (Some "u2"));
               ok_page (page [JNum 2; JNum 3] None)])) = Ok items /\
    items = [JNum 1; JNum 2; JNum 2; JNum 3] /\
    List.length items = 4%nat.
Proof.
  apply (paginated_request_concatenates
           [page [JNum 1; JNum 2] (Some "u2"); page [JNum 2; JNum 3] None] []
           "u" (Some [("include", "x")])
           (new_client cfg10
              [ok_page (page [JNum 1; JNum 2] (Some "u2"));
               ok_page (page [JNum 2; JNum 3] None)]));
    simpl; try lia; reflexivity.
Defined.

(** C7: over a chain of [k] pages, each but the last naming the next by a
    string that is not empty, [_paginated_request] called with a URL string
    that is not empty returns after [k] requests and [k] replies; the first
    request is the initial URL with the initial parameters, and request
    [i+1] is the next-page locator of page [i] with no parameters. *)
Theorem paginated_request_calls (pages : list json) (rest : list reply)
    (url : string) (params : option query) (c : client) :
  is_chain pages = true ->
  py_truthy (JStr url) = true ->
  (0 < semaphore c)%nat ->
  server c = (map ok_page pages ++ rest)%list ->
  let r := _paginated_request (JStr url) params c in
  let calls := gets (events_since c (snd r)) in
  completes (fst r) = true /\
  List.length calls = List.length pages /\
  server (snd r) = rest /\
  nth_error calls 0 = Some (JStr url, params) /\
  forall i p,
    nth_error pages i = Some p ->
    (S i < List.length pages)%nat ->
    exists locator,
      page_next p = Some locator /\
      nth_error calls (S i) = Some (locator, None).
Proof.
  intros Hch Hurl Hsem Hsrv.
  rewrite (paginated_request_chain pages rest (JStr url) params c)
    by (assumption || reflexivity).
  cbn [fst snd].
  rewrite (events_since_app c _
             (flat_map request_events (page_requests (JStr url) params pages)))
    by reflexivity.
  rewrite gets_request_events. unfold page_requests.
  repeat split.
  - simpl. now apply length_next_requests.
  - intros i p Hnth Hlt. simpl. now apply nth_next_request.
Qed.

Lemma paginated_request_calls_witness :
  let pages := [page [JNum 1] (Some "u2"); page [JNum 2] (Some "u3");
                page [JNum 3] None] in
  let c := new_client cfg10 (map ok_page pages) in
  let r := _paginated_request (JStr "u") (Some [("include", "x")]) c in
  let calls := gets (events_since c (snd r)) in
  completes (fst r) = true /\
  List.length calls = 3%nat /\
  server (snd r) = [] /\
  nth_error calls 0 = Some (JStr "u", Some [("include", "x")]) /\
  forall i p,
    nth_error pages i = Some p ->
    (S i < 3)%nat ->
    exists locator,
      page_next p = Some locator /\
      nth_error calls (S i) = Some (locator, None).
Proof.
  apply (paginated_request_calls
           [page [JNum 1] (Some "u2"); page [JNum 2] (Some "u3"); page [JNum 3] None]
           [] "u" (Some [("include", "x")])
           (new_client cfg10
              (map ok_page
                 [page [JNum 1] (Some "u2"); page [JNum 2] (Some "u3");
                  page [JNum 3] None])));
    simpl; try lia; reflexivity.
Defined.

(** ** Termination of the pager *)

Lemma obind_returns_or_raises {A B} (o : outcome A) (k : A -> outcome B) :
  returns_or_raises o ->
  (forall a, returns_or_raises (k a)) ->
  returns_or_raises (obind o k).
Proof. destruct o; simpl; auto; contradiction. Qed.

Lemma py_contains_pure (k : string) (v : json) : returns_or_raises (py_contains k v).
Proof. destruct v; simpl; exact I. Qed.

Lemma py_getitem_pure (k : string) (v : json) : returns_or_raises (py_getitem k v).
Proof. destruct v; simpl; try exact I. destruct (obj_get k fields); exact I. Qed.

Lemma py_iter_pure (v : json) : returns_or_raises (py_iter v).
Proof. destruct v; simpl; exact I. Qed.

Lemma page_step_pure (acc : list json) (params : option query) (response : json) :
  returns_or_raises (page_step acc params response).
Proof.
  unfold page_step, extend_with_data, has_next, next_link.
  repeat (first
    [ apply obind_returns_or_raises
    | apply py_contains_pure | apply py_getitem_pure | apply py_iter_pure
    | intros ?
    | match goal with |- returns_or_raises (if ?b then _ else _) => destruct b end
    | exact I ]).
Qed.

(** The loop, one turn unfolded. *)
Lemma paginated_loop_unfold (fuel : nat) (url : json) (params : option query)
    (acc : list json) (c : client) :
  paginated_loop (S fuel) url params acc c
  = if py_truthy url then
      match _make_request url params c with
      | (Ok response, c') =>
          match page_step acc params response with
          | Ok (next, params', acc') => paginated_loop fuel next params' acc' c'
          | Raise e => (Raise e, c')
          | Blocked => (Blocked, c')
          | Exhausted => (Exhausted, c')
          | OutOfFuel => (OutOfFuel, c')
          end
      | (Raise e, c') => (Raise e, c')
      | (Blocked, c') => (Blocked, c')
      | (Exhausted, c') => (Exhausted, c')
      | (OutOfFuel, c') => (OutOfFuel, c')
      end
    else (Ok acc, c).
Proof.
  simpl. destruct (py_truthy url); [|reflexivity].
  unfold bind at 1. destruct (_make_request url params c) as [[response|e| | |] c'];
    try reflexivity.
  unfold page_step, bind, lift.
  destruct (extend_with_data acc response) as [acc'|e| | |]; try reflexivity.
  simpl. destruct (has_next response) as [[|]|e| | |]; try reflexivity.
  simpl. destruct (next_link response) as [next|e| | |]; reflexivity.
Qed.

(** A call never reaches the model's bound, and a call that returns has taken
    at least one reply. *)
Lemma make_request_takes_reply (script : list reply) (url : json)
    (params : option query) :
  forall c,
    let r := make_request script url params c in
    fst r <> OutOfFuel /\
    (forall v, fst r = Ok v ->
     (List.length (server (snd r)) < List.length script)%nat).
Proof.
  induction script as [|rep rest IH]; intros c; simpl.
  - destruct (semaphore c); simpl; [split; discriminate|].
    destruct (is_string url); simpl; split; discriminate.
  - destruct (semaphore c) as [|free]; simpl; [split; discriminate|].
    destruct (is_string url); simpl; [|split; discriminate].
    destruct rep as [r|detail]; simpl; [|split; [discriminate|intros; lia]].
    destruct (handle_response r) as [v|seconds|e]; simpl;
      try (split; [discriminate|intros; lia]).
    specialize (IH (log [EvSleep seconds]
                      (log [EvAcquire; EvGet url params] (set_semaphore free c)))).
    simpl in IH. destruct (make_request rest url params _) as [o c'].
    simpl in *. destruct IH as [Hne Hlen]. unfold release.
    destruct o as [v|e| | |]; simpl; split; try discriminate; try congruence.
    intros v' _. specialize (Hlen v eq_refl). lia.
Qed.

(** With more fuel than replies the loop never reaches its bound. *)
Lemma paginated_loop_fuel_enough (fuel : nat) :
  forall url params acc c,
    (List.length (server c) < fuel)%nat ->
    fst (paginated_loop fuel url params acc c) <> OutOfFuel.
Proof.
  induction fuel as [|fuel IH]; intros url params acc c Hlt; [lia|].
  rewrite paginated_loop_unfold.
  destruct (py_truthy url); [|discriminate].
  destruct (make_request_takes_reply (server c) url params c) as [Hne Hlen].
  fold (_make_request url params c) in Hne, Hlen.
  destruct (_make_request url params c) as [[response|e| | |] c'];
    simpl in *; try discriminate; try congruence.
  specialize (Hlen response eq_refl).
  pose proof (page_step_pure acc params response) as Hpure.
  destruct (page_step acc params response) as [[[next params'] acc']|e| | |];
    simpl in *; try discriminate; try contradiction.
  apply IH. lia.
Qed.

(** Fuel beyond what a run needs does not change the run. *)
Lemma paginated_loop_more_fuel (fuel : nat) :
  forall url params acc c,
    fst (paginated_loop fuel url params acc c) <> OutOfFuel ->
    paginated_loop (S fuel) url params acc c = paginated_loop fuel url params acc c.
Proof.
  induction fuel as [|fuel IH]; intros url params acc c Hne;
    [simpl in Hne; unfold lift in Hne; simpl in Hne; congruence|].
  rewrite (paginated_loop_unfold (S fuel)).
  rewrite (paginated_loop_unfold fuel) in *.
  destruct (py_truthy url); [|reflexivity].
  destruct (_make_request url params c) as [[response|e| | |] c']; try reflexivity.
  destruct (page_step acc params response) as [[[next params'] acc']|e| | |];
    try reflexivity.
  now apply IH.
Qed.

(** The pager always ends within its bound. *)
Lemma paginated_request_terminates (url : json) (params : option query) (c : client) :
  fst (_paginated_request url params c) <> OutOfFuel.
Proof. unfold _paginated_request. apply paginated_loop_fuel_enough. lia. Qed.

(** ** A rate limit does not change what the pager returns *)

(** What a call returns depends on the free permits and on the replies, not
    on the trace so far. *)
Lemma make_request_same_server (script : list reply) (url : json)
    (params : option query) :
  forall ca cb,
    semaphore ca = semaphore cb ->
    let ra := make_request script url params ca in
    let rb := make_request script url params cb in
    fst ra = fst rb /\ same_server (snd ra) (snd rb).
Proof.
  unfold same_server.
  induction script as [|rep rest IH]; intros ca cb Hsem; simpl; rewrite <- Hsem.
  - destruct (semaphore ca) eqn:E; simpl; [repeat split; congruence|].
    destruct (is_string url); simpl; repeat split; congruence.
  - destruct (semaphore ca) as [|free] eqn:E; simpl; [repeat split; congruence|].
    destruct (is_string url); simpl; [|repeat split; congruence].
    destruct rep as [r|detail]; simpl; [|repeat split; congruence].
    destruct (handle_response r) as [v|seconds|e]; simpl;
      try (repeat split; congruence).
    specialize (IH (log [EvSleep seconds]
                      (log [EvAcquire; EvGet url params] (set_semaphore free ca)))
                   (log [EvSleep seconds]
                      (log [EvAcquire; EvGet url params] (set_semaphore free cb)))
                   eq_refl).
    simpl in IH.
    destruct (make_request rest url params
                (log [EvSleep seconds]
                   (log [EvAcquire; EvGet url params] (set_semaphore free ca))))
      as [oa ca'].
    destruct (make_request rest url params
                (log [EvSleep seconds]
                   (log [EvAcquire; EvGet url params] (set_semaphore free cb))))
      as [ob cb'].
    simpl in IH. destruct IH as (-> & Hs & Hv). unfold release.
    destruct (completes ob); simpl; auto.
Qed.

Lemma not_rate_limited_answer (r : response) :
  not_rate_limited (Answer r) = true -> status r <> 429.
Proof.
  simpl. rewrite negb_true_iff. intros H E. rewrite E in H. discriminate.
Qed.

(** One call on each side of a pending rate limit: the same outcome, and
    after a return the two sides are still related. *)
Lemma make_request_rate_limit_pending (r : response) (seconds : Z) (url : json)
    (params : option query) (ca cb : client) :
  status r = 429 ->
  retry_after r = Some seconds ->
  can_sleep seconds = true ->
  rate_limit_pending r ca cb ->
  let ra := _make_request url params ca in
  let rb := _make_request url params cb in
  fst ra = fst rb /\
  (completes (fst ra) = true -> rate_limit_related r (snd ra) (snd rb)).
Proof.
  intros Hst Hretry Hsleep (Hsem & Htwo & s1 & s2 & Hs1 & Hs2 & Ha & Hb).
  pose proof (handle_slept r seconds Hst Hretry Hsleep) as Hv.
  unfold _make_request.
  destruct (is_string url) eqn:Hurl.
  2: { (* no reply is taken on either side *)
       rewrite !make_request_not_string by (assumption || lia). simpl.
       split; [reflexivity|]. intros _. right. unfold rate_limit_pending. simpl.
       split; [assumption|]. split; [assumption|]. exists s1, s2. auto. }
  rewrite Ha, Hb.
  destruct s1 as [|x s1']; simpl app.
  - (* the rate-limited response is the next reply *)
    destruct (semaphore ca) as [|[|free]] eqn:Hca; try lia.
    rewrite (make_request_retry_step r s2 url params ca (S free) seconds Hca Hurl Hv).
    destruct s2 as [|y s2'].
    + simpl. rewrite <- Hsem. simpl. rewrite Hurl. simpl.
      split; [reflexivity|discriminate].
    + destruct y as [ry|detail].
      * simpl in Hs2. rewrite andb_true_iff in Hs2. destruct Hs2 as [Hy Hs2].
        pose proof (handle_not_rate_limited ry (not_rate_limited_answer ry Hy)) as Hno.
        rewrite !make_request_once; try assumption; simpl; try lia.
        destruct (handle_response ry) as [v|sec|e]; simpl.
        -- split; [reflexivity|]. intros _. left. split; simpl; congruence.
        -- now destruct (Hno sec).
        -- split; [reflexivity|]. intros _. left. split; simpl; congruence.
      * simpl. rewrite <- Hsem. simpl. rewrite Hurl. simpl. split; [reflexivity|].
        intros _. left. split; simpl; congruence.
  - (* an earlier reply comes first *)
    simpl in Hs1. rewrite andb_true_iff in Hs1. destruct Hs1 as [Hx Hs1].
    destruct x as [rx|detail].
    + pose proof (handle_not_rate_limited rx (not_rate_limited_answer rx Hx)) as Hno.
      rewrite !make_request_once; try assumption; try lia.
      split; [reflexivity|]. intros _. right. simpl.
      split; [assumption|]. split; [assumption|]. exists s1', s2. auto.
    + simpl. rewrite <- Hsem.
      destruct (semaphore ca) as [|free] eqn:Hca; [lia|]. rewrite Hurl. simpl.
      split; [reflexivity|]. intros _. right.
      unfold rate_limit_pending. simpl.
      split; [reflexivity|]. split; [lia|]. exists s1', s2. auto.
Qed.

Lemma make_request_related (r : response) (seconds : Z) (url : json)
    (params : option query) (ca cb : client) :
  status r = 429 ->
  retry_after r = Some seconds ->
  can_sleep seconds = true ->
  rate_limit_related r ca cb ->
  let ra := _make_request url params ca in
  let rb := _make_request url params cb in
  fst ra = fst rb /\
  (completes (fst ra) = true -> rate_limit_related r (snd ra) (snd rb)).
Proof.
  intros Hst Hretry Hsleep [[Hsem Hsrv]|Hpending].
  - unfold _make_request. rewrite Hsrv.
    destruct (make_request_same_server (server cb) url params ca cb Hsem) as [Ho Hs].
    split; [assumption|]. intros _. now left.
  - now apply (make_request_rate_limit_pending r seconds).
Qed.

(** The loop on the two sides, with the same fuel. *)
Lemma paginated_loop_related (r : response) (seconds : Z) (fuel : nat) :
  status r = 429 ->
  retry_after r = Some seconds ->
  can_sleep seconds = true ->
  forall url params acc ca cb,
    rate_limit_related r ca cb ->
    fst (paginated_loop fuel url params acc ca)
    = fst (paginated_loop fuel url params acc cb).
Proof.
  intros Hst Hretry Hsleep.
  induction fuel as [|fuel IH]; intros url params acc ca cb Hrel; [reflexivity|].
  rewrite !paginated_loop_unfold.
  destruct (py_truthy url); [|reflexivity].
  destruct (make_request_related r seconds url params ca cb Hst Hretry Hsleep Hrel)
    as [Ho Hnext].
  destruct (_make_request url params ca) as [oa ca'].
  destruct (_make_request url params cb) as [ob cb'].
  simpl in Ho, Hnext. subst ob.
  destruct oa as [response|e| | |]; try reflexivity.
  specialize (Hnext eq_refl).
  destruct (page_step acc params response) as [[[next params'] acc']|e| | |];
    try reflexivity.
  now apply IH.
Qed.

(** With a second permit free and a retry-after value that is absent or an
    integer a float can hold, a paginated fetch in which one page request
    is answered with the rate-limit status returns what the same fetch
    returns when the rate-limited response is taken out of the server's
    replies: the same items, and no error of its own. *)
Lemma rate_limit_is_transparent (r : response) (seconds : Z)
    (s1 s2 : list reply) (url : json) (params : option query) (c : client) :
  status r = 429 ->
  retry_after r = Some seconds ->
  can_sleep seconds = true ->
  (2 <= semaphore c)%nat ->
  forallb not_rate_limited s1 = true ->
  forallb not_rate_limited s2 = true ->
  fst (_paginated_request url params (set_server (s1 ++ Answer r :: s2) c))
  = fst (_paginated_request url params (set_server (s1 ++ s2) c)).
Proof.
  intros Hst Hretry Hsleep Htwo Hs1 Hs2. unfold _paginated_request.
  set (ca := set_server (s1 ++ Answer r :: s2) c).
  set (cb := set_server (s1 ++ s2) c).
  assert (Hrel : rate_limit_related r ca cb).
  { right. unfold rate_limit_pending. simpl.
    split; [reflexivity|]. split; [assumption|]. exists s1, s2. auto. }
  assert (Hlen : List.length (server ca) = S (List.length (server cb))).
  { simpl. rewrite !length_app. simpl. lia. }
  rewrite Hlen.
  rewrite (paginated_loop_related r seconds _ Hst Hretry Hsleep url params [] ca cb Hrel).
  f_equal. apply paginated_loop_more_fuel.
  apply paginated_loop_fuel_enough. lia.
Qed.

Example rate_limit_with_spare_permit :
  fst (_paginated_request (JStr "u") None
         (new_client cfg10
            [ok_page (page [JNum 1] (Some "u2"));
             rate_limited [("Retry-After", "3")];
             ok_page (page [JNum 2] None)]))
  = Ok [JNum 1; JNum 2].
Proof. reflexivity. Qed.

(** The retry of a rate-limited request with the last free permit: the call
    made for the retry waits for the permit its caller holds. *)
Lemma make_request_blocks_on_last_permit (r : response) (seconds : Z)
    (rest : list reply) (url : json) (params : option query) (c : client) :
  handle_response r = RetryAfter seconds ->
  is_string url = true ->
  semaphore c = 1%nat ->
  make_request (Answer r :: rest) url params c
  = (Blocked,
     mk_client (config c) 0 rest
       (trace c ++ [EvAcquire; EvGet url params; EvSleep seconds])).
Proof.
  intros Hv Hurl Hsem. simpl. rewrite Hsem, Hurl, Hv.
  destruct rest; simpl; unfold log, set_semaphore, set_server; simpl;
    now rewrite <- app_assoc.
Qed.

(** C4 (the code at the failing inputs): with one free permit, a paginated
    fetch whose first request is answered with the rate-limit status never
    returns, although the replies that follow are the pages of the
    collection: it has sent one request and slept, and the retry waits for
    the permit the rate-limited call still holds.  The same fetch without
    the rate-limited response returns the items of the pages. *)
Theorem rate_limit_blocks_on_last_permit (r : response) (seconds : Z)
    (pages : list json) (rest : list reply) (url : string)
    (params : option query) (c : client) :
  status r = 429 ->
  retry_after r = Some seconds ->
  can_sleep seconds = true ->
  is_chain pages = true ->
  py_truthy (JStr url) = true ->
  semaphore c = 1%nat ->
  fst (_paginated_request (JStr url) params
         (set_server (map ok_page pages ++ rest) c))
  = Ok (List.concat (map page_items pages)) /\
  _paginated_request (JStr url) params
    (set_server (Answer r :: map ok_page pages ++ rest) c)
  = (Blocked,
     mk_client (config c) 0 (map ok_page pages ++ rest)
       (trace c ++ [EvAcquire; EvGet (JStr url) params; EvSleep seconds])).
Proof.
  intros Hst Hretry Hsleep Hch Hurl Hsem. split.
  - rewrite (paginated_request_chain pages rest (JStr url) params
               (set_server (map ok_page pages ++ rest) c));
      try assumption; try reflexivity.
    simpl. lia.
  - unfold _paginated_request. cbn [server set_server List.length].
    cbn [paginated_loop]. rewrite Hurl. unfold bind at 1, _make_request.
    cbn [server set_server].
    rewrite (make_request_blocks_on_last_permit r seconds);
      [reflexivity | now apply handle_slept | reflexivity | assumption].
Qed.

Lemma rate_limit_blocks_on_last_permit_witness :
  let one_permit := mk_config "token" "https://app.terraform.io/api/v2" 1 30 in
  fst (_paginated_request (JStr "u") None
         (new_client one_permit [ok_page (page [JNum 1; JNum 2] None)]))
  = Ok [JNum 1; JNum 2] /\
  _paginated_request (JStr "u") None
    (new_client one_permit
       [rate_limited [("Retry-After", "3")]; ok_page (page [JNum 1; JNum 2] None)])
  = (Blocked,
     mk_client one_permit 0 [ok_page (page [JNum 1; JNum 2] None)]
       [EvAcquire; EvGet (JStr "u") None; EvSleep 3]).
Proof.
  apply (rate_limit_blocks_on_last_permit
           (mk_response 429 [("Retry-After", "3")] Empty) 3
           [page [JNum 1; JNum 2] None] [] "u" None
           (new_client (mk_config "token" "https://app.terraform.io/api/v2" 1 30) []));
    reflexivity.
Defined.

(** ** The orchestrator *)

Lemma bind_ok {A B} (m : M A) (k : A -> M B) (c c' : client) (b : B) :
  bind m k c = (Ok b, c') ->
  exists a c1, m c = (Ok a, c1) /\ k a c1 = (Ok b, c').
Proof.
  unfold bind. destruct (m c) as [[a|e| | |] c1]; try discriminate.
  intros H. exists a, c1. auto.
Qed.

Lemma lift_ok {A} (o : outcome A) (c c' : client) (a : A) :
  lift o c = (Ok a, c') -> o = Ok a /\ c' = c.
Proof. unfold lift. intros H. injection H as -> ->. auto. Qed.

Lemma obind_ok {A B} (o : outcome A) (k : A -> outcome B) (b : B) :
  obind o k = Ok b -> exists a, o = Ok a /\ k a = Ok b.
Proof. destruct o as [a|e| | |]; try discriminate. intros H. exists a. auto. Qed.

(** The stages of a run of [get_all_data] that returned. *)
Lemma get_all_data_ok (py_str : json -> string) (c c' : client) (snap : snapshot) :
  get_all_data py_str c = (Ok snap, c') ->
  exists c1 c2 tasks tasks',
    get_organizations c = (Ok (organizations snap), c1) /\
    workspace_tasks (organizations snap) = Ok tasks /\
    await_workspaces py_str tasks [] c1 = (Ok (workspaces snap), c2) /\
    run_tasks (workspaces snap) = Ok tasks' /\
    await_runs py_str tasks' [] c2 = (Ok (runs snap), c') /\
    summary snap
    = summarize (organizations snap) (workspaces snap) (runs snap).
Proof.
  unfold get_all_data. intros H.
  apply bind_ok in H. destruct H as (orgs & c1 & Horgs & H).
  apply bind_ok in H. destruct H as (tasks & c1' & Htasks & H).
  apply lift_ok in Htasks. destruct Htasks as [Htasks ->].
  apply bind_ok in H. destruct H as (org_workspaces & c2 & Hws & H).
  apply bind_ok in H. destruct H as (tasks' & c2' & Htasks' & H).
  apply lift_ok in Htasks'. destruct Htasks' as [Htasks' ->].
  apply bind_ok in H. destruct H as (workspace_runs & c3 & Hruns & H).
  unfold ret in H. injection H as <- <-. simpl.
  exists c1, c2, tasks, tasks'. repeat split; assumption.
Qed.

Lemma flat_map_map_values {V} (f : V -> nat) (d : pydict (pydict V)) :
  flat_map (fun org_runs => map f (dict_values org_runs)) (dict_values d)
  = map f (flat_map (fun org_runs => dict_values org_runs) (dict_values d)).
Proof.
  induction (dict_values d) as [|x l IH]; simpl; [reflexivity|].
  now rewrite IH, map_app.
Qed.

(** C3: in every snapshot [get_all_data] returns, [total_organizations] is
    the length of [organizations], [total_workspaces] is the sum of the
    lengths of the workspace lists of the [workspaces] mapping, and
    [total_runs] is the sum of the lengths of the run lists of the entries of
    the [runs] mapping.  When the organizations fetch returns no
    organization, [get_all_data] returns the empty snapshot with three zero
    counts and leaves the client as that fetch left it: no request is made
    for workspaces or runs. *)
Theorem summary_counts_match (py_str : json -> string) (c : client) :
  (forall snap c',
      get_all_data py_str c = (Ok snap, c') ->
      total_organizations (summary snap) = List.length (organizations snap) /\
      total_workspaces (summary snap)
      = sum (map (fun ws => List.length ws) (dict_values (workspaces snap))) /\
      total_runs (summary snap)
      = sum (map (fun entry => List.length (entry_runs entry))
               (flat_map (fun org_runs => dict_values org_runs)
                  (dict_values (runs snap))))) /\
  (forall c1,
      get_organizations c = (Ok [], c1) ->
      get_all_data py_str c
      = (Ok (mk_snapshot [] [] [] (mk_summary 0 0 0)), c1)).
Proof.
  split.
  - intros snap c' H.
    destruct (get_all_data_ok py_str c c' snap H)
      as (c1 & c2 & tasks & tasks' & _ & _ & _ & _ & _ & Hsum).
    rewrite Hsum. unfold summarize. simpl.
    repeat split. now rewrite flat_map_map_values.
  - intros c1 H. unfold get_all_data, bind. rewrite H. reflexivity.
Qed.

Lemma summary_counts_match_witness :
  (let snap := snapshot_of two_org_run in
   total_organizations (summary snap) = List.length (organizations snap) /\
   total_workspaces (summary snap)
   = sum (map (fun ws => List.length ws) (dict_values (workspaces snap))) /\
   total_runs (summary snap)
   = sum (map (fun entry => List.length (entry_runs entry))
            (flat_map (fun org_runs => dict_values org_runs)
               (dict_values (runs snap))))) /\
  get_all_data plain_str (new_client cfg10 [ok_page (page [] None)])
  = (Ok (mk_snapshot [] [] [] (mk_summary 0 0 0)),
     mk_client cfg10 10 []
       [EvAcquire;
        EvGet (JStr "https://app.terraform.io/api/v2/organizations") None;
        EvRelease]).
Proof.
  split.
  - apply (proj1 (summary_counts_match plain_str (new_client cfg10 two_org_script))
             (snapshot_of two_org_run) (snd two_org_run)).
    reflexivity.
  - apply (proj2 (summary_counts_match plain_str
                    (new_client cfg10 [ok_page (page [] None)]))).
    reflexivity.
Defined.

(** ** Dictionaries *)

Lemma hkey_eqb_eq (a b : hkey) : hkey_eqb a b = true <-> a = b.
Proof.
  destruct a, b; simpl; split; intros H; try discriminate; try reflexivity.
  - apply Z.eqb_eq in H. now subst.
  - injection H as ->. apply Z.eqb_refl.
  - apply String.eqb_eq in H. now subst.
  - injection H as ->. apply String.eqb_refl.
Qed.

Lemma same_key_iff (a b : json) :
  same_key a b = true <->
  exists h, py_hash_key a = Some h /\ py_hash_key b = Some h.
Proof.
  unfold same_key. split.
  - destruct (py_hash_key a) as [x|], (py_hash_key b) as [y|]; try discriminate.
    intros H. apply hkey_eqb_eq in H. subst. eauto.
  - intros (h & -> & ->). now apply hkey_eqb_eq.
Qed.

Lemma same_key_refl (a : json) : py_hash_key a <> None -> same_key a a = true.
Proof.
  intros H. apply same_key_iff. destruct (py_hash_key a) as [h|]; [eauto|contradiction].
Qed.

Lemma same_key_sym (a b : json) : same_key a b = same_key b a.
Proof.
  destruct (same_key a b) eqn:E1, (same_key b a) eqn:E2; try reflexivity.
  - apply same_key_iff in E1. destruct E1 as (h & H1 & H2).
    assert (same_key b a = true) by (apply same_key_iff; eauto). congruence.
  - apply same_key_iff in E2. destruct E2 as (h & H1 & H2).
    assert (same_key a b = true) by (apply same_key_iff; eauto). congruence.
Qed.

Lemma same_key_trans (a b c : json) :
  same_key a b = true -> same_key a c = same_key b c.
Proof.
  intros H. apply same_key_iff in H. destruct H as (h & Ha & Hb).
  unfold same_key. now rewrite Ha, Hb.
Qed.

Lemma same_key_hashable (a b : json) :
  same_key a b = true -> py_hash_key a <> None /\ py_hash_key b <> None.
Proof.
  intros H. apply same_key_iff in H. destruct H as (h & -> & ->).
  split; discriminate.
Qed.

(** Reading after writing. *)
Lemma dict_get_set {V} (k k0 : json) (v : V) (d : pydict V) :
  py_hash_key k0 <> None ->
  dict_get k (dict_set k0 v d) = if same_key k k0 then Some v else dict_get k d.
Proof.
  intros Hh. induction d as [|[k' v'] rest IH]; simpl.
  - destruct (same_key k k0); reflexivity.
  - destruct (same_key k0 k') eqn:E0; simpl.
    + rewrite (same_key_sym k k0), (same_key_trans k0 k' k E0), (same_key_sym k' k).
      destruct (same_key k k'); reflexivity.
    + destruct (same_key k k') eqn:E1; [|exact IH].
      rewrite (same_key_trans k k' k0 E1), (same_key_sym k' k0), E0. reflexivity.
Qed.

(** A key that compares equal reads the same. *)
Lemma dict_get_same_key {V} (a b : json) (d : pydict V) :
  same_key a b = true -> dict_get a d = dict_get b d.
Proof.
  intros H. induction d as [|[k' v'] rest IH]; simpl; [reflexivity|].
  rewrite (same_key_trans a b k' H). now rewrite IH.
Qed.

Lemma dict_get_none_in {V} (k k' : json) (v : V) (d : pydict V) :
  dict_get k d = None -> In (k', v) d -> same_key k k' = false.
Proof.
  induction d as [|[k1 v1] rest IH]; simpl; [contradiction|].
  destruct (same_key k k1) eqn:E; [discriminate|].
  intros Hnone [Heq|Hin]; [injection Heq as <- <-; assumption|auto].
Qed.

Lemma dict_wf_get {V} (k : json) (v : V) (d : pydict V) :
  dict_wf d -> In (k, v) d -> dict_get k d = Some v.
Proof.
  induction d as [|[k1 v1] rest IH]; simpl; [contradiction|].
  intros (Hh & Hnone & Hwf) [Heq|Hin].
  - injection Heq as <- <-. now rewrite same_key_refl.
  - rewrite same_key_sym, (dict_get_none_in k1 k v rest Hnone Hin). auto.
Qed.

Lemma dict_wf_in_hashable {V} (k : json) (v : V) (d : pydict V) :
  dict_wf d -> In (k, v) d -> py_hash_key k <> None.
Proof.
  induction d as [|[k1 v1] rest IH]; simpl; [contradiction|].
  intros (Hh & _ & Hwf) [Heq|Hin]; [injection Heq as <- <-; assumption|auto].
Qed.

Lemma dict_wf_set {V} (k : json) (v : V) (d : pydict V) :
  py_hash_key k <> None -> dict_wf d -> dict_wf (dict_set k v d).
Proof.
  intros Hh. induction d as [|[k1 v1] rest IH]; simpl.
  - auto.
  - intros (Hh1 & Hnone & Hwf). destruct (same_key k k1) eqn:E; simpl.
    + auto.
    + repeat split; auto.
      rewrite dict_get_set by assumption.
      now rewrite same_key_sym, E.
Qed.

Lemma py_setitem_ok {V} (k : json) (v : V) (d d' : pydict V) :
  py_setitem k v d = Ok d' -> py_hash_key k <> None /\ d' = dict_set k v d.
Proof.
  unfold py_setitem. destruct (py_hash_key k); [|discriminate].
  intros H. injection H as <-. split; [discriminate|reflexivity].
Qed.

(** ** The runs mapping *)

Lemma dict_get_unhashable {V} (k : json) (d : pydict V) :
  py_hash_key k = None -> dict_get k d = None.
Proof.
  intros Eh. induction d as [|[k' v] rest IH]; simpl; [reflexivity|].
  unfold same_key at 1. now rewrite Eh.
Qed.

Lemma store_runs_ok (t : run_task) (fetched : list json)
    (wr wr' : pydict (pydict run_entry)) :
  store_runs t fetched wr = Ok wr' ->
  py_hash_key (task_workspace_name t) <> None /\
  wr' = dict_set (task_org_name t)
          (dict_set (task_workspace_name t)
             (mk_run_entry (task_workspace_id t) fetched)
             (match dict_get (task_org_name t) wr with
              | Some d => d
              | None => []
              end))
          (if dict_mem (task_org_name t) wr then wr
           else dict_set (task_org_name t) [] wr).
Proof.
  unfold store_runs. intros H. apply obind_ok in H.
  destruct H as (org_runs' & Hset & H). injection H as <-.
  apply py_setitem_ok in Hset. destruct Hset as [Hh ->].
  split; [assumption|]. f_equal. f_equal.
  unfold dict_mem. destruct (dict_get (task_org_name t) wr) as [d|] eqn:E.
  - now rewrite E.
  - destruct (py_hash_key (task_org_name t)) eqn:Eh.
    + rewrite dict_get_set by congruence.
      rewrite same_key_refl by congruence. reflexivity.
    + now rewrite (dict_get_unhashable _ _ Eh).
Qed.

(** Reading the runs mapping after one store. *)
Lemma runs_entry_store (t : run_task) (fetched : list json)
    (wr wr' : pydict (pydict run_entry)) (org name : json) :
  py_hash_key (task_org_name t) <> None ->
  store_runs t fetched wr = Ok wr' ->
  runs_entry wr' org name
  = if same_key org (task_org_name t) && same_key name (task_workspace_name t)
    then Some (mk_run_entry (task_workspace_id t) fetched)
    else runs_entry wr org name.
Proof.
  intros Hho H. apply store_runs_ok in H. destruct H as [Hhn ->].
  unfold runs_entry. rewrite dict_get_set by assumption.
  destruct (same_key org (task_org_name t)) eqn:Eo; simpl.
  - rewrite dict_get_set by assumption.
    rewrite (dict_get_same_key org (task_org_name t) wr Eo).
    destruct (same_key name (task_workspace_name t)); [reflexivity|].
    destruct (dict_get (task_org_name t) wr); reflexivity.
  - unfold dict_mem. destruct (dict_get (task_org_name t) wr); [reflexivity|].
    rewrite dict_get_set by assumption. now rewrite Eo.
Qed.


(** The runs mapping read at any keys: the entry of the last task stored
    under them. *)
Lemma runs_entry_store_all (l : list (run_task * list json)) :
  forall wr wr' org name,
    Forall (fun x => py_hash_key (task_org_name (fst x)) <> None) l ->
    store_all l wr = Ok wr' ->
    runs_entry wr' org name
    = match last_match l org name with
      | Some e => Some e
      | None => runs_entry wr org name
      end.
Proof.
  induction l as [|[t f] rest IH]; intros wr wr' org name Hh H; simpl in *.
  - now injection H as <-.
  - apply obind_ok in H. destruct H as (wr1 & H1 & H2).
    inversion Hh as [|x l' Hx Hrest]; subst. simpl in Hx.
    rewrite (IH wr1 wr' org name Hrest H2).
    destruct (last_match rest org name); [reflexivity|].
    rewrite (runs_entry_store t f wr wr1 org name Hx H1).
    destruct (same_key org (task_org_name t) && same_key name (task_workspace_name t));
      reflexivity.
Qed.

Lemma sum_app (a b : list nat) : sum (a ++ b) = (sum a + sum b)%nat.
Proof. induction a as [|x a IH]; simpl; [reflexivity|]. rewrite IH. lia. Qed.

Lemma sum_flat_map {A} (f : A -> list nat) (l : list A) :
  sum (flat_map f l) = sum (map (fun x => sum (f x)) l).
Proof.
  induction l as [|x l IH]; simpl; [reflexivity|]. now rewrite sum_app, IH.
Qed.

(** Writing a key changes the total weight by the new value less the old. *)
Lemma sum_dict_set {V} (w : V -> nat) (k : json) (v : V) (d : pydict V) :
  (sum (map w (dict_values (dict_set k v d)))
   + match dict_get k d with Some old => w old | None => 0 end
   = sum (map w (dict_values d)) + w v)%nat.
Proof.
  unfold dict_values. induction d as [|[k' v'] rest IH]; simpl; [lia|].
  destruct (same_key k k'); simpl; lia.
Qed.










(** ** The stages of [get_all_data] *)

(** The second loop of step 3 is its awaits followed by its stores. *)
Lemma await_runs_ok (py_str : json -> string) (tasks : list run_task) :
  forall wr c wr' c',
    await_runs py_str tasks wr c = (Ok wr', c') ->
    exists fetched,
      fetch_runs py_str tasks c = (Ok fetched, c') /\
      List.length fetched = List.length tasks /\
      store_all (combine tasks fetched) wr = Ok wr'.
Proof.
  induction tasks as [|t rest IH]; intros wr c wr' c' H; simpl in H.
  - unfold ret in H. injection H as <- <-. exists []. auto.
  - apply bind_ok in H. destruct H as (f & c1 & Hf & H).
    apply bind_ok in H. destruct H as (wr1 & c1' & Hs & H).
    apply lift_ok in Hs. destruct Hs as [Hs ->].
    destruct (IH wr1 c1 wr' c' H) as (fs & Hfs & Hlen & Hall).
    exists (f :: fs). simpl. unfold bind. rewrite Hf, Hfs. unfold ret.
    rewrite Hs. simpl. auto.
Qed.

Lemma workspace_run_tasks_ok (org_name : json) (ws : list json) :
  forall tasks,
    workspace_run_tasks org_name ws = Ok tasks ->
    List.length tasks = List.length ws /\
    forall t, In t tasks ->
      task_org_name t = org_name /\
      exists w, In w ws /\
        py_getitem "id" w = Ok (task_workspace_id t) /\
        workspace_name w = Ok (task_workspace_name t).
Proof.
  induction ws as [|w rest IH]; intros tasks H; simpl in H.
  - injection H as <-. split; [reflexivity|]. intros t [].
  - apply obind_ok in H. destruct H as (id & Hid & H).
    apply obind_ok in H. destruct H as (attributes & Hattr & H).
    apply obind_ok in H. destruct H as (name & Hname & H).
    apply obind_ok in H. destruct H as (others & Hrest & H).
    injection H as <-. destruct (IH others Hrest) as [Hlen Hin].
    split; [simpl; now rewrite Hlen|].
    intros t [<-|Ht].
    + split; [reflexivity|]. exists w. simpl. split; [now left|].
      split; [assumption|]. unfold workspace_name. now rewrite Hattr.
    + destruct (Hin t Ht) as (Horg & w' & Hw' & Hrest').
      split; [assumption|]. exists w'. split; [now right|assumption].
Qed.

(** Every task is a workspace of the workspaces mapping, and there is one
    task per workspace. *)
Lemma run_tasks_ok (d : pydict (list json)) :
  forall tasks,
    run_tasks d = Ok tasks ->
    List.length tasks = sum (map (fun ws => List.length ws) (dict_values d)) /\
    forall t, In t tasks ->
      exists ws w,
        In (task_org_name t, ws) d /\ In w ws /\
        py_getitem "id" w = Ok (task_workspace_id t) /\
        workspace_name w = Ok (task_workspace_name t).
Proof.
  induction d as [|[org ws] rest IH]; intros tasks H; simpl in H.
  - injection H as <-. split; [reflexivity|]. intros t [].
  - apply obind_ok in H. destruct H as (here & Hhere & H).
    apply obind_ok in H. destruct H as (later & Hlater & H).
    injection H as <-.
    destruct (workspace_run_tasks_ok org ws here Hhere) as [Hlen1 Hin1].
    destruct (IH later Hlater) as [Hlen2 Hin2].
    split.
    + rewrite length_app, Hlen1, Hlen2. reflexivity.
    + intros t Ht. apply in_app_or in Ht. destruct Ht as [Ht|Ht].
      * destruct (Hin1 t Ht) as (Horg & w & Hw & Hrest).
        exists ws, w. rewrite Horg. split; [now left|]. auto.
      * destruct (Hin2 t Ht) as (ws' & w & Hin & Hrest).
        exists ws', w. split; [now right|]. auto.
Qed.

(** The workspaces mapping has hashable, pairwise different keys. *)
Lemma await_workspaces_wf (py_str : json -> string) (tasks : list json) :
  forall d c d' c',
    await_workspaces py_str tasks d c = (Ok d', c') ->
    dict_wf d -> dict_wf d'.
Proof.
  induction tasks as [|org rest IH]; intros d c d' c' H Hwf; simpl in H.
  - unfold ret in H. now injection H as <- <-.
  - apply bind_ok in H. destruct H as (ws & c1 & Hws & H).
    apply bind_ok in H. destruct H as (d1 & c1' & Hset & H).
    apply lift_ok in Hset. destruct Hset as [Hset ->].
    apply py_setitem_ok in Hset. destruct Hset as [Hh ->].
    apply (IH _ _ _ _ H). now apply dict_wf_set.
Qed.

(** What a run of [get_all_data] that returned did in step 3. *)
Lemma get_all_data_runs (py_str : json -> string) (c c' : client) (snap : snapshot) :
  get_all_data py_str c = (Ok snap, c') ->
  exists tasks fetched c2,
    dict_wf (workspaces snap) /\
    run_tasks (workspaces snap) = Ok tasks /\
    fetch_runs py_str tasks c2 = (Ok fetched, c') /\
    List.length fetched = List.length tasks /\
    store_all (combine tasks fetched) [] = Ok (runs snap) /\
    Forall (fun x => py_hash_key (task_org_name (fst x)) <> None)
      (combine tasks fetched).
Proof.
  intros H.
  destruct (get_all_data_ok py_str c c' snap H)
    as (c1 & c2 & names & tasks & Horgs & Hnames & Hws & Htasks & Hruns & Hsum).
  destruct (await_runs_ok py_str tasks [] c2 (runs snap) c' Hruns)
    as (fetched & Hfetch & Hlen & Hall).
  assert (Hwf : dict_wf (workspaces snap))
    by (apply (await_workspaces_wf py_str names [] c1 _ c2 Hws); exact I).
  exists tasks, fetched, c2. repeat split; try assumption.
  apply Forall_forall. intros [t f] Hin. simpl.
  apply in_combine_l in Hin.
  destruct (proj2 (run_tasks_ok _ _ Htasks) t Hin) as (ws & w & Hd & _).
  exact (dict_wf_in_hashable _ _ _ Hwf Hd).
Qed.

(** ** The snapshot *)

Lemma last_match_some (l : list (run_task * list json)) (org name : json)
    (e : run_entry) :
  last_match l org name = Some e ->
  exists t f,
    In (t, f) l /\
    same_key org (task_org_name t) = true /\
    same_key name (task_workspace_name t) = true /\
    e = mk_run_entry (task_workspace_id t) f.
Proof.
  induction l as [|[t f] rest IH]; simpl; [discriminate|].
  destruct (last_match rest org name) as [e'|].
  - intros H. injection H as ->. destruct (IH eq_refl) as (t' & f' & Hin & Hrest).
    exists t', f'. split; [now right|assumption].
  - destruct (same_key org (task_org_name t)) eqn:Eo; [|discriminate].
    destruct (same_key name (task_workspace_name t)) eqn:En; [|discriminate].
    simpl. intros H. injection H as <-. exists t, f. split; [now left|auto].
Qed.


Lemma store_all_names_hashable (l : list (run_task * list json)) :
  forall wr wr',
    store_all l wr = Ok wr' ->
    forall t f, In (t, f) l -> py_hash_key (task_workspace_name t) <> None.
Proof.
  induction l as [|[t0 f0] rest IH]; intros wr wr' H t f Hin; simpl in *;
    [contradiction|].
  apply obind_ok in H. destruct H as (wr1 & H1 & H2).
  destruct Hin as [Heq|Hin].
  - injection Heq as <- <-. now apply store_runs_ok in H1.
  - exact (IH wr1 wr' H2 t f Hin).
Qed.

Lemma in_dict_set {V} (k k' : json) (v v' : V) (d : pydict V) :
  In (k', v') (dict_set k v d) -> v' = v \/ In (k', v') d.
Proof.
  induction d as [|[k1 v1] rest IH]; simpl.
  - intros [H|[]]. injection H as <- <-. now left.
  - destruct (same_key k k1); simpl.
    + intros [H|H]; [injection H as <- <-; now left|right; now right].
    + intros [H|H]; [right; now left|].
      destruct (IH H) as [->|Hin]; [now left|right; now right].
Qed.

Lemma dict_get_in {V} (k : json) (v : V) (d : pydict V) :
  dict_get k d = Some v -> exists k', In (k', v) d.
Proof.
  induction d as [|[k1 v1] rest IH]; simpl; [discriminate|].
  destruct (same_key k k1).
  - intros H. injection H as <-. exists k1. now left.
  - intros H. destruct (IH H) as (k' & Hin). exists k'. now right.
Qed.

(** The runs mapping and the mapping of every organization in it keep
    hashable, pairwise different keys. *)
Lemma store_runs_wf (t : run_task) (fetched : list json)
    (wr wr' : pydict (pydict run_entry)) :
  py_hash_key (task_org_name t) <> None ->
  store_runs t fetched wr = Ok wr' ->
  dict_wf wr /\ (forall k org_runs, In (k, org_runs) wr -> dict_wf org_runs) ->
  dict_wf wr' /\ (forall k org_runs, In (k, org_runs) wr' -> dict_wf org_runs).
Proof.
  intros Hho H [Hwf Hinner]. apply store_runs_ok in H. destruct H as [Hhn ->].
  set (wr1 := if dict_mem (task_org_name t) wr then wr
              else dict_set (task_org_name t) [] wr).
  assert (Hwf1 : dict_wf wr1).
  { unfold wr1. destruct (dict_mem (task_org_name t) wr); [assumption|].
    now apply dict_wf_set. }
  split; [now apply dict_wf_set|].
  intros k org_runs Hin. apply in_dict_set in Hin. destruct Hin as [->|Hin].
  - apply dict_wf_set; [assumption|].
    destruct (dict_get (task_org_name t) wr) as [d|] eqn:E; [|exact I].
    destruct (dict_get_in _ _ _ E) as (k' & Hk'). exact (Hinner k' d Hk').
  - unfold wr1 in Hin. destruct (dict_mem (task_org_name t) wr); [eauto|].
    apply in_dict_set in Hin. destruct Hin as [->|Hin]; [exact I|eauto].
Qed.

Lemma store_all_wf (l : list (run_task * list json)) :
  forall wr wr',
    Forall (fun x => py_hash_key (task_org_name (fst x)) <> None) l ->
    store_all l wr = Ok wr' ->
    dict_wf wr /\ (forall k org_runs, In (k, org_runs) wr -> dict_wf org_runs) ->
    dict_wf wr' /\ (forall k org_runs, In (k, org_runs) wr' -> dict_wf org_runs).
Proof.
  induction l as [|[t f] rest IH]; intros wr wr' Hh H Hwf; simpl in H.
  - now injection H as <-.
  - apply obind_ok in H. destruct H as (wr1 & H1 & H2).
    inversion Hh as [|x l' Hx Hrest]; subst. simpl in Hx.
    apply (IH wr1 wr' Hrest H2). now apply (store_runs_wf t f wr wr1).
Qed.

Lemma is_item_get {V} (k : json) (v : V) (d : pydict V) :
  dict_wf d -> is_item k v d -> dict_get k d = Some v.
Proof. intros Hwf [H|H]; [assumption|now apply dict_wf_get]. Qed.

(** C8: in every snapshot [get_all_data] returns, when [org] is a key of the
    [runs] mapping and [name] is a key of [runs[org]], then [org] is a key of
    the [workspaces] mapping and [workspaces[org]] holds a workspace whose
    name attribute equals [name] (as Python compares dictionary keys) and
    whose id is the [workspace_id] stored under [name]. *)
Theorem runs_keys_are_workspaces (py_str : json -> string) (c c' : client)
    (snap : snapshot) :
  get_all_data py_str c = (Ok snap, c') ->
  forall org name org_runs entry,
    is_item org org_runs (runs snap) ->
    is_item name entry org_runs ->
    exists ws w n,
      dict_get org (workspaces snap) = Some ws /\
      In w ws /\
      workspace_name w = Ok n /\
      same_key n name = true /\
      py_getitem "id" w = Ok (workspace_id entry).
Proof.
  intros Hrun org name org_runs entry Horg Hname.
  destruct (get_all_data_runs py_str c c' snap Hrun)
    as (tasks & fetched & c2 & Hwf & Htasks & _ & _ & Hall & Hh).
  destruct (store_all_wf _ [] (runs snap) Hh Hall) as [Hwfr Hinner];
    [split; [exact I|intros k d []]|].
  apply (is_item_get _ _ _ Hwfr) in Horg.
  assert (Hwfo : dict_wf org_runs).
  { destruct (dict_get_in _ _ _ Horg) as (k' & Hk'). exact (Hinner k' _ Hk'). }
  apply (is_item_get _ _ _ Hwfo) in Hname.
  assert (Hentry : runs_entry (runs snap) org name = Some entry)
    by (unfold runs_entry; now rewrite Horg).
  rewrite (runs_entry_store_all _ [] (runs snap) org name Hh Hall) in Hentry.
  destruct (last_match (combine tasks fetched) org name) as [e|] eqn:El;
    [|discriminate].
  injection Hentry as ->.
  destruct (last_match_some _ _ _ _ El) as (t & f & Hin & Ho & Hn & ->).
  apply in_combine_l in Hin.
  destruct (proj2 (run_tasks_ok _ _ Htasks) t Hin) as (ws & w & Hd & Hw & Hid & Hnm).
  exists ws, w, (task_workspace_name t). repeat split; try assumption.
  - rewrite (dict_get_same_key org (task_org_name t) _ Ho).
    now apply dict_wf_get.
  - now rewrite same_key_sym.
Qed.

Lemma runs_keys_are_workspaces_witness :
  exists ws w n,
    dict_get (JStr "globex") (workspaces (snapshot_of two_org_run)) = Some ws /\
    In w ws /\
    workspace_name w = Ok n /\
    same_key n (JStr "prod") = true /\
    py_getitem "id" w = Ok (JStr "ws-b").
Proof.
  apply (runs_keys_are_workspaces plain_str (new_client cfg10 two_org_script)
           (snd two_org_run) (snapshot_of two_org_run) eq_refl
           (JStr "globex") (JStr "prod")
           [(JStr "prod",
             mk_run_entry (JStr "ws-b") [run "r4"; run "r5"; run "r6"])]
           (mk_run_entry (JStr "ws-b") [run "r4"; run "r5"; run "r6"]));
    first [reflexivity | right; simpl; tauto].
Defined.



(** The run behind the witness: two workspaces named [prod], the second one
    kept, two workspaces counted and one run. *)
Example duplicate_names_run :
  runs (snapshot_of duplicate_run)
  = [(JStr "acme", [(JStr "prod", mk_run_entry (JStr "ws-b") [run "r3"])])] /\
  summary (snapshot_of duplicate_run) = mk_summary 1 2 1.
Proof. split; reflexivity. Qed.

(** ** The analyzer *)

(** C9: when the input file is missing, or its contents are not valid JSON,
    the analyzer exits with code 1 and its whole standard output is the one
    line of the error message: no report is printed. *)
Theorem analyzer_fails_on_bad_input (file_system : string -> open_result)
    (json_loads : string -> option json) (the_reports : reports)
    (args : arguments) :
  (file_system (input args) = FileNotFound \/
   exists text, file_system (input args) = Opened text /\ json_loads text = None) ->
  let r := main file_system json_loads the_reports args in
  exit_code (snd r) = 1 /\
  fst r = [match file_system (input args) with
           | FileNotFound => "Error: File " ++ input args ++ " not found"
           | _ => "Error: Invalid JSON in " ++ input args
           end].
Proof.
  intros [Hmissing|(text & Hopen & Hbad)]; unfold main, load_data.
  - rewrite Hmissing. simpl. split; reflexivity.
  - rewrite Hopen, Hbad. simpl. split; reflexivity.
Qed.

Lemma analyzer_fails_on_bad_input_witness :
  (let r := main sample_files sample_loads sample_reports
              (mk_arguments "missing.json" false false false true) in
   exit_code (snd r) = 1 /\ fst r = ["Error: File missing.json not found"]) /\
  (let r := main sample_files sample_loads sample_reports
              (mk_arguments "broken.json" true true true false) in
   exit_code (snd r) = 1 /\ fst r = ["Error: Invalid JSON in broken.json"]).
Proof.
  split.
  - apply (analyzer_fails_on_bad_input sample_files sample_loads sample_reports
             (mk_arguments "missing.json" false false false true)).
    left. reflexivity.
  - apply (analyzer_fails_on_bad_input sample_files sample_loads sample_reports
             (mk_arguments "broken.json" true true true false)).
    right. exists "{". split; reflexivity.
Defined.

(** A file that loads is reported on, and the analyzer exits with 0. *)
Example analyzer_reports_on_good_input :
  main sample_files sample_loads sample_reports
    (mk_arguments "terraform_data.json" false true false false)
  = (["summary"; "workspaces"], Returned).
Proof. reflexivity. Qed.

(** * Further properties of the code *)

(** ** The executor: fatal replies and repeated rate limits *)

Lemma failure_of_answer (r : response) (e : exn) :
  failure_of (Answer r) = Some e -> handle_response r = Throw e.
Proof.
  simpl. destruct (handle_response r); try discriminate.
  intros H. now injection H as <-.
Qed.

(** The replies that end a request by an exception, and the exception of
    each. *)
Lemma failure_of_cases (rep : reply) (e : exn) :
  failure_of rep = Some e <->
  match rep with
  | Fault detail => e = ClientError detail
  | Answer r =>
      (status r = 200 /\
       ((body r = Malformed /\ e = JSONDecodeError) \/
        (body r = NotJson /\ e = ContentTypeError))) \/
      (status r = 429 /\
       ((retry_after r = None /\ e = ValueError) \/
        (exists d, retry_after r = Some d /\ float_overflow <= d /\
                   e = OverflowError))) \/
      (status r <> 200 /\ status r <> 429 /\ 400 <= status r /\
       e = ClientResponseError (status r))
  end.
Proof.
  destruct rep as [r|detail]; simpl.
  - unfold handle_response, raise_for_status, can_sleep.
    destruct (status r =? 200) eqn:E1;
      [apply Z.eqb_eq in E1 | apply Z.eqb_neq in E1].
    + destruct (body r); split; intros H;
        try discriminate; try (injection H as <-; left; split; auto; fail);
        destruct H as [[_ [[H1 H2]|[H1 H2]]]|[[H1 _]|(H1 & _)]];
        try discriminate; try lia; now subst.
    + destruct (status r =? 429) eqn:E2;
        [apply Z.eqb_eq in E2 | apply Z.eqb_neq in E2].
      * destruct (retry_after r) as [d|].
        -- destruct (d <? float_overflow) eqn:E3;
             [apply Z.ltb_lt in E3 | apply Z.ltb_ge in E3]; split; intros H;
             try discriminate.
           ++ destruct H as [[H1 _]|[[_ [[H1 _]|(d' & H1 & H2 & _)]]|(_ & H1 & _)]];
                try discriminate; try lia.
              injection H1 as <-. lia.
           ++ injection H as <-. right. left. split; [assumption|].
              right. exists d. auto.
           ++ destruct H as [[H1 _]|[[_ [[H1 _]|(d' & H1 & H2 & H3)]]|(_ & H1 & _)]];
                try discriminate; try lia. now subst.
        -- split; intros H.
           ++ injection H as <-. right. left. auto.
           ++ destruct H as [[H1 _]|[[_ [[_ H1]|(d' & H1 & _)]]|(_ & H1 & _)]];
                try discriminate; try lia. now subst.
      * destruct (400 <=? status r) eqn:E3;
          [apply Z.leb_le in E3 | apply Z.leb_gt in E3]; split; intros H;
          try discriminate.
        -- injection H as <-. right. right. auto.
        -- destruct H as [[H1 _]|[[H1 _]|(_ & _ & _ & H1)]]; try lia. now subst.
        -- destruct H as [[H1 _]|[[H1 _]|(_ & _ & H1 & _)]]; lia.
  - split; intros H; [now injection H as <- | now subst].
Qed.

(** A fatal reply: one request, the permit given back, the exception raised. *)
Lemma make_request_fatal (rep : reply) (e : exn) (rest : list reply)
    (url : json) (params : option query) (c : client) :
  failure_of rep = Some e ->
  is_string url = true ->
  (0 < semaphore c)%nat ->
  server c = rep :: rest ->
  _make_request url params c
  = (Raise e,
     mk_client (config c) (semaphore c) rest
       (trace c ++ [EvAcquire; EvGet url params; EvRelease])).
Proof.
  intros Hf Hurl Hsem Hsrv. unfold _make_request. rewrite Hsrv.
  destruct rep as [r|detail].
  - pose proof (failure_of_answer r e Hf) as Hv.
    rewrite make_request_once;
      [now rewrite Hv | assumption | assumption | rewrite Hv; discriminate].
  - simpl in Hf. injection Hf as <-. simpl. rewrite Hurl.
    destruct (semaphore c) as [|free]; [lia|]. simpl.
    unfold log, set_semaphore, set_server. simpl. now rewrite <- app_assoc.
Qed.






Lemma gets_app (a b : list event) : gets (a ++ b) = (gets a ++ gets b)%list.
Proof.
  induction a as [|e a IH]; simpl; [reflexivity|]. destruct e; simpl; now rewrite ?IH.
Qed.





Lemma peak_held_ge (evs : list event) : forall h, h <= peak_held h evs.
Proof.
  induction evs as [|e evs IH]; intros h; simpl; [lia|].
  destruct e; try apply IH; lia.
Qed.



Lemma make_request_blocked_now (script : list reply) (url : json)
    (params : option query) (c : client) :
  semaphore c = 0%nat ->
  make_request script url params c = (Blocked, set_server script c).
Proof. intros H. destruct script; simpl; now rewrite H. Qed.







(** ** The permit pool *)

Lemma peak_held_shift (evs : list event) :
  forall h, peak_held h evs = h + peak_held 0 evs.
Proof.
  induction evs as [|e evs IH]; intros h; simpl; [lia|].
  destruct e.
  - rewrite (IH (h + 1)), (IH 1). lia.
  - rewrite (IH (h - 1)), (IH (-1)). lia.
  - apply IH.
  - apply IH.
Qed.

Lemma peak_held_app (a b : list event) :
  forall h, peak_held h (a ++ b) = Z.max (peak_held h a) (peak_held (held_after h a) b).
Proof.
  induction a as [|e a IH]; intros h; simpl.
  - pose proof (peak_held_ge b h). lia.
  - destruct e; rewrite IH; lia.
Qed.

Lemma conserves_ret {A} (a : A) : conserves_permits (ret a).
Proof.
  intros c. unfold ret. simpl. split; [reflexivity|]. exists [].
  rewrite app_nil_r. simpl. repeat split; lia.
Qed.

Lemma conserves_lift {A} (o : outcome A) : conserves_permits (lift o).
Proof.
  intros c. unfold lift. simpl. split; [reflexivity|]. exists [].
  rewrite app_nil_r. simpl. repeat split; lia.
Qed.

Lemma conserves_bind {A B} (m : M A) (k : A -> M B) :
  conserves_permits m ->
  (forall a, conserves_permits (k a)) ->
  conserves_permits (bind m k).
Proof.
  intros Hm Hk c. unfold bind. specialize (Hm c).
  destruct (m c) as [o c1]. cbn [fst snd] in Hm.
  destruct Hm as (Hcfg & evs & Htr & Hsum & Hpeak & Hdone).
  destruct o as [a|e| | |];
    try (cbn [fst snd]; split; [assumption|]; exists evs; repeat split; assumption).
  specialize (Hk a c1). destruct (k a c1) as [o2 c2]. cbn [fst snd] in *.
  destruct Hk as (Hcfg2 & evs2 & Htr2 & Hsum2 & Hpeak2 & Hdone2).
  split; [congruence|]. exists (evs ++ evs2)%list.
  rewrite Htr2, Htr, app_assoc. split; [reflexivity|].
  rewrite held_after_app, peak_held_app.
  rewrite (held_after_shift evs2 (held_after 0 evs)).
  rewrite (peak_held_shift evs2 (held_after 0 evs)).
  specialize (Hdone eq_refl).
  split; [lia|]. split; [lia|]. intros H. specialize (Hdone2 H). lia.
Qed.

(** The executor: every retry holds one permit more, and what the call
    takes it gives back when it returns or raises. *)
Lemma make_request_conserves (script : list reply) :
  forall url params, conserves_permits (make_request script url params).
Proof.
  induction script as [|rep rest IH]; intros url params c;
    (destruct (semaphore c) as [|free] eqn:Hs;
     [ rewrite make_request_blocked_now by assumption;
       cbn [fst snd]; unfold set_server; cbn [config trace semaphore completes];
       split; [reflexivity|]; exists []; rewrite app_nil_r, Hs; simpl;
       repeat split; try lia; try discriminate |]);
    (destruct (is_string url) eqn:Hurl;
     [| rewrite make_request_not_string by (assumption || lia);
        cbn [fst snd config trace semaphore completes];
        split; [reflexivity|]; exists [EvAcquire; EvRelease];
        split; [reflexivity|]; rewrite ?Hs; cbn [held_after peak_held];
        repeat split; lia ]).
  - simpl. rewrite Hs, Hurl.
    unfold set_server, log, set_semaphore.
    cbn [fst snd config trace semaphore server completes].
    split; [reflexivity|]. exists [EvAcquire; EvGet url params].
    split; [reflexivity|]. cbn [held_after peak_held].
    repeat split; try lia; try discriminate.
  - simpl. rewrite Hs, Hurl.
    assert (Hone : forall (o : outcome json),
                completes o = true ->
                let r := release (o, set_server rest
                                       (log [EvAcquire; EvGet url params]
                                          (set_semaphore free c))) in
                config (snd r) = config c /\
                exists evs,
                  trace (snd r) = (trace c ++ evs)%list /\
                  Z.of_nat (semaphore (snd r)) + held_after 0 evs = Z.of_nat (S free) /\
                  peak_held 0 evs <= Z.of_nat (S free) /\
                  (completes (fst r) = true -> held_after 0 evs = 0)).
    { intros o Ho. unfold release. rewrite Ho.
      unfold set_server, log, set_semaphore.
      cbn [fst snd config trace semaphore server].
      split; [reflexivity|]. exists [EvAcquire; EvGet url params; EvRelease].
      rewrite <- app_assoc. split; [reflexivity|]. cbn [held_after peak_held].
      repeat split; lia. }
    destruct rep as [r|detail]; [|exact (Hone (Raise (ClientError detail)) eq_refl)].
    destruct (handle_response r) as [v|seconds|e];
      [exact (Hone (Ok v) eq_refl) | | exact (Hone (Raise e) eq_refl)].
    specialize (IH url params
                  (log [EvSleep seconds]
                     (log [EvAcquire; EvGet url params] (set_semaphore free c)))).
    destruct (make_request rest url params _) as [o c'].
    unfold log, set_semaphore in IH. cbn [fst snd config trace semaphore server] in IH.
    destruct IH as (Hcfg & evs & Htr & Hsum & Hpeak & Hdone).
    unfold release. destruct (completes o) eqn:Ho.
    + unfold log, set_semaphore. cbn [fst snd config trace semaphore server].
      split; [assumption|].
      exists ([EvAcquire; EvGet url params; EvSleep seconds] ++ evs ++ [EvRelease])%list.
      rewrite Htr. split; [now rewrite <- !app_assoc|].
      specialize (Hdone eq_refl).
      cbn [app held_after peak_held].
      rewrite held_after_app, peak_held_app.
      rewrite (held_after_shift evs (0 + 1)), (peak_held_shift evs (0 + 1)).
      cbn [held_after peak_held]. rewrite Ho.
      repeat split; lia.
    + cbn [fst snd]. split; [assumption|].
      exists ([EvAcquire; EvGet url params; EvSleep seconds] ++ evs)%list.
      rewrite Htr. split; [now rewrite <- !app_assoc|].
      cbn [app held_after peak_held].
      rewrite (held_after_shift evs (0 + 1)), (peak_held_shift evs (0 + 1)).
      rewrite Ho. repeat split; try lia; try discriminate.
Qed.

Lemma _make_request_conserves (url : json) (params : option query) :
  conserves_permits (_make_request url params).
Proof. intros c. exact (make_request_conserves (server c) url params c). Qed.

Lemma paginated_loop_conserves (fuel : nat) :
  forall url params acc, conserves_permits (paginated_loop fuel url params acc).
Proof.
  induction fuel as [|fuel IH]; intros url params acc; simpl.
  - apply conserves_lift.
  - destruct (py_truthy url); [|apply conserves_ret].
    apply conserves_bind; [apply _make_request_conserves|]. intros response.
    apply conserves_bind; [apply conserves_lift|]. intros acc'.
    apply conserves_bind; [apply conserves_lift|]. intros [|].
    + apply conserves_bind; [apply conserves_lift|]. intros next. apply IH.
    + apply IH.
Qed.

Lemma paginated_request_conserves (url : client -> json) (params : option query) :
  conserves_permits (fun c => _paginated_request (url c) params c).
Proof.
  intros c. unfold _paginated_request.
  exact (paginated_loop_conserves (S (List.length (server c))) (url c) params [] c).
Qed.

Lemma await_workspaces_conserves (py_str : json -> string) (tasks : list json) :
  forall d, conserves_permits (await_workspaces py_str tasks d).
Proof.
  induction tasks as [|t tasks IH]; intros d; simpl; [apply conserves_ret|].
  apply conserves_bind.
  - unfold get_workspaces_for_organization.
    exact (paginated_request_conserves _ _).
  - intros ws. apply conserves_bind; [apply conserves_lift|]. intros d'. apply IH.
Qed.

Lemma await_runs_conserves (py_str : json -> string) (tasks : list run_task) :
  forall d, conserves_permits (await_runs py_str tasks d).
Proof.
  induction tasks as [|t tasks IH]; intros d; simpl; [apply conserves_ret|].
  apply conserves_bind.
  - unfold get_runs_for_workspace.
    exact (paginated_request_conserves _ _).
  - intros ws. apply conserves_bind; [apply conserves_lift|]. intros d'. apply IH.
Qed.

Lemma get_all_data_conserves (py_str : json -> string) :
  conserves_permits (get_all_data py_str).
Proof.
  unfold get_all_data.
  apply conserves_bind.
  { unfold get_organizations. exact (paginated_request_conserves _ _). }
  intros orgs. apply conserves_bind; [apply conserves_lift|]. intros tasks.
  apply conserves_bind; [apply await_workspaces_conserves|]. intros ws.
  apply conserves_bind; [apply conserves_lift|]. intros tasks'.
  apply conserves_bind; [apply await_runs_conserves|]. intros rs.
  apply conserves_ret.
Qed.

(** X4: at every end of [_make_request], also when it waits for ever, the
    permits it holds and the free permits make up the permits that were
    free when it was called; it never holds more than those; and when it
    returns or raises the pool is as it found it. *)
Theorem make_request_conserves_permits (url : json) (params : option query)
    (c : client) :
  let r := _make_request url params c in
  let evs := events_since c (snd r) in
  Z.of_nat (semaphore (snd r)) + held_after 0 evs = Z.of_nat (semaphore c) /\
  peak_held 0 evs <= Z.of_nat (semaphore c) /\
  (completes (fst r) = true -> semaphore (snd r) = semaphore c).
Proof.
  cbv zeta.
  destruct (_make_request_conserves url params c) as (_ & evs & Htr & Hsum & Hpeak & Hdone).
  rewrite (events_since_app c _ evs Htr).
  repeat split; try assumption. intros H. specialize (Hdone H). lia.
Qed.

(** X5: a collection never holds more permits than
    [max_concurrent_requests], whatever the server replies, and when it
    returns or raises every permit is back in the pool. *)
Theorem collection_within_budget (py_str : json -> string) (cfg : TerraformConfig)
    (script : list reply) :
  let r := get_all_data py_str (new_client cfg script) in
  peak_held 0 (trace (snd r)) <= Z.of_nat (max_concurrent_requests cfg) /\
  (completes (fst r) = true ->
   semaphore (snd r) = max_concurrent_requests cfg /\
   held_after 0 (trace (snd r)) = 0).
Proof.
  cbv zeta.
  destruct (get_all_data_conserves py_str (new_client cfg script))
    as (_ & evs & Htr & Hsum & Hpeak & Hdone).
  simpl in Htr, Hsum, Hpeak. rewrite Htr.
  split; [assumption|]. intros H. specialize (Hdone H). split; lia.
Qed.

(** ** The pager: failures, endless chains and empty responses *)

Lemma requests_along_last (pages : list json) :
  forall url params,
    (firstn (List.length pages) (requests_along url params pages)
     ++ [last_request (url, params) pages])%list
    = requests_along url params pages.
Proof.
  induction pages as [|p ps IH]; intros url params; [reflexivity|].
  change (requests_along url params (p :: ps))
    with ((url, params) :: requests_along (locator p) None ps).
  cbn [List.length firstn last_request app]. now rewrite IH.
Qed.

(** The loop over pages that all name a next page: it has made one request
    per page and is about to make the next. *)
Lemma paginated_loop_linked (pages : list json) :
  forall fuel url params acc c tail,
    forallb linked pages = true ->
    py_truthy url = true ->
    is_string url = true ->
    (0 < semaphore c)%nat ->
    server c = (map ok_page pages ++ tail)%list ->
    paginated_loop (List.length pages + fuel) url params acc c
    = paginated_loop fuel
        (fst (last_request (url, params) pages))
        (snd (last_request (url, params) pages))
        (acc ++ List.concat (map page_items pages))%list
        (mk_client (config c) (semaphore c) tail
           (trace c ++ flat_map request_events
                         (firstn (List.length pages)
                            (requests_along url params pages)))) /\
    py_truthy (fst (last_request (url, params) pages)) = true /\
    is_string (fst (last_request (url, params) pages)) = true.
Proof.
  induction pages as [|p ps IH];
    intros fuel url params acc c tail Hall Hurl Hstr Hsem Hsrv.
  - simpl. rewrite !app_nil_r. simpl in Hsrv. rewrite <- Hsrv.
    split; [now destruct c | split; assumption].
  - simpl in Hall. apply andb_true_iff in Hall. destruct Hall as [Hp Hrest].
    unfold linked in Hp. apply andb_true_iff in Hp. destruct Hp as [Hp Hhas].
    change (List.length (p :: ps) + fuel)%nat with (S (List.length ps + fuel)).
    simpl paginated_loop. rewrite Hurl. unfold bind at 1.
    rewrite (make_request_ok_page p (map ok_page ps ++ tail) url params c
               Hstr Hsem Hsrv).
    unfold bind at 1, lift at 1. rewrite (extend_with_data_page acc p Hp).
    unfold bind at 1, lift at 1. rewrite (has_next_page p Hp).
    rewrite (has_url_locator p Hhas).
    unfold has_url in Hhas.
    destruct (page_next p) as [next|] eqn:Hnext; [|discriminate].
    destruct (next_link_page p next Hnext) as [Hlink Htruthy].
    unfold bind at 1, lift at 1. rewrite Hlink.
    destruct (IH fuel next None (acc ++ page_items p)%list
                (mk_client (config c) (semaphore c) (map ok_page ps ++ tail)
                   (trace c ++ request_events (url, params)))
                tail Hrest Htruthy Hhas Hsem eq_refl) as [Heq Hlast].
    rewrite Heq.
    change (requests_along url params (p :: ps))
      with ((url, params) :: requests_along (locator p) None ps).
    cbn [List.length firstn last_request flat_map map List.concat config semaphore trace].
    unfold locator. rewrite Hnext.
    split; [|assumption].
    now rewrite <- !app_assoc.
Qed.

(** X6: the pager gives nothing back when a later page fails.  After any
    number of pages that name a next page by a string that is not empty, a
    reply that makes [_make_request] raise makes [_paginated_request] raise
    the same exception: the items of the pages already read are dropped, and
    no further request is made. *)
Theorem pager_fails_without_partial_result (pages : list json) (rep : reply)
    (e : exn) (rest : list reply) (url : string) (params : option query)
    (c : client) :
  forallb linked pages = true ->
  failure_of rep = Some e ->
  py_truthy (JStr url) = true ->
  (0 < semaphore c)%nat ->
  server c = (map ok_page pages ++ rep :: rest)%list ->
  _paginated_request (JStr url) params c
  = (Raise e,
     mk_client (config c) (semaphore c) rest
       (trace c
        ++ flat_map request_events (requests_along (JStr url) params pages))).
Proof.
  intros Hall Hfail Hurl Hsem Hsrv. unfold _paginated_request.
  replace (S (List.length (server c)))
    with (List.length pages + S (S (List.length rest)))%nat
    by (rewrite Hsrv, length_app, length_map; simpl; lia).
  destruct (paginated_loop_linked pages (S (S (List.length rest))) (JStr url) params []
              c (rep :: rest) Hall Hurl eq_refl Hsem Hsrv) as (Heq & Hlast & Hstr).
  rewrite Heq. simpl paginated_loop. rewrite Hlast. unfold bind at 1.
  erewrite (make_request_fatal rep e rest);
    [| exact Hfail | exact Hstr | exact Hsem | reflexivity].
  cbn [config semaphore trace]. f_equal. f_equal.
  rewrite <- (requests_along_last pages (JStr url) params) at 2.
  rewrite flat_map_app. simpl. rewrite ?app_nil_r, <- ?app_assoc.
  now destruct (last_request (JStr url, params) pages).
Qed.

Lemma pager_fails_without_partial_result_witness :
  _paginated_request (JStr "u") None
    (new_client cfg10
       [ok_page (page [JNum 1; JNum 2] (Some "u2"));
        Answer (mk_response 500 [] Empty);
        ok_page (page [JNum 3] None)])
  = (Raise (ClientResponseError 500),
     mk_client cfg10 10 [ok_page (page [JNum 3] None)]
       [EvAcquire; EvGet (JStr "u") None; EvRelease;
        EvAcquire; EvGet (JStr "u2") None; EvRelease]).
Proof.
  apply (pager_fails_without_partial_result
           [page [JNum 1; JNum 2] (Some "u2")]
           (Answer (mk_response 500 [] Empty)) (ClientResponseError 500)
           [ok_page (page [JNum 3] None)] "u" None
           (new_client cfg10
              [ok_page (page [JNum 1; JNum 2] (Some "u2"));
               Answer (mk_response 500 [] Empty);
               ok_page (page [JNum 3] None)]));
    simpl; try lia; reflexivity.
Defined.

(** X7: the pager has no bound on the pages and does not detect a cycle:
    as long as every page names a next page by a string that is not empty
    it asks for that page, the same locator again if the server repeats it,
    and it does not return.  In front of [n] such pages it makes [n + 1]
    requests, the first with the parameters and the others without. *)
Theorem pager_follows_every_locator (pages : list json) (url : string)
    (params : option query) (c : client) :
  forallb linked pages = true ->
  py_truthy (JStr url) = true ->
  (0 < semaphore c)%nat ->
  server c = map ok_page pages ->
  let r := _paginated_request (JStr url) params c in
  fst r = Exhausted /\
  gets (events_since c (snd r)) = requests_along (JStr url) params pages.
Proof.
  intros Hall Hurl Hsem Hsrv. cbv zeta.
  assert (Hrun : _paginated_request (JStr url) params c
                 = (Exhausted,
                    mk_client (config c) (pred (semaphore c)) []
                      (trace c
                       ++ flat_map request_events
                            (firstn (List.length pages)
                               (requests_along (JStr url) params pages))
                       ++ [EvAcquire;
                           EvGet (fst (last_request (JStr url, params) pages))
                                 (snd (last_request (JStr url, params) pages))]))).
  { unfold _paginated_request.
    replace (S (List.length (server c))) with (List.length pages + 1)%nat
      by (rewrite Hsrv, length_map; lia).
    rewrite <- (app_nil_r (map ok_page pages)) in Hsrv.
    destruct (paginated_loop_linked pages 1 (JStr url) params [] c [] Hall Hurl
                eq_refl Hsem Hsrv) as (Heq & Hlast & Hstr).
    rewrite Heq. simpl paginated_loop. rewrite Hlast. unfold bind at 1.
    unfold _make_request. cbn [server]. simpl make_request. cbn [semaphore].
    rewrite Hstr.
    destruct (semaphore c) as [|free]; [lia|].
    unfold set_server, log, set_semaphore. cbn [trace config semaphore server pred].
    now rewrite <- app_assoc. }
  rewrite Hrun. cbn [fst snd]. split; [reflexivity|].
  erewrite events_since_app by reflexivity.
  rewrite gets_app, gets_request_events. simpl gets.
  rewrite <- (requests_along_last pages (JStr url) params) at 2.
  now destruct (last_request (JStr url, params) pages).
Qed.

Lemma pager_follows_every_locator_witness :
  let c := new_client cfg10
             (map ok_page [page [JNum 1] (Some "u2"); page [JNum 1] (Some "u2");
                           page [JNum 1] (Some "u2")]) in
  let r := _paginated_request (JStr "u") (Some [("include", "x")]) c in
  fst r = Exhausted /\
  gets (events_since c (snd r))
  = [(JStr "u", Some [("include", "x")]);
     (JStr "u2", None); (JStr "u2", None); (JStr "u2", None)].
Proof.
  apply (pager_follows_every_locator
           [page [JNum 1] (Some "u2"); page [JNum 1] (Some "u2");
            page [JNum 1] (Some "u2")]
           "u" (Some [("include", "x")])
           (new_client cfg10
              (map ok_page [page [JNum 1] (Some "u2"); page [JNum 1] (Some "u2");
                            page [JNum 1] (Some "u2")])));
    simpl; try lia; reflexivity.
Defined.

(** X8: a reply with a status below 400 other than 200 and 429 makes the
    pager raise [TypeError]: [_make_request] hands it [None], and the pager
    tests ['data' in None].  The request is made once and not repeated. *)
Theorem pager_raises_on_empty_success (r : response) (rest : list reply)
    (url : string) (params : option query) (c : client) :
  status r < 400 ->
  status r <> 200 ->
  status r <> 429 ->
  py_truthy (JStr url) = true ->
  (0 < semaphore c)%nat ->
  server c = Answer r :: rest ->
  _paginated_request (JStr url) params c
  = (Raise TypeError,
     mk_client (config c) (semaphore c) rest
       (trace c ++ request_events (JStr url, params))).
Proof.
  intros Hlt H200 H429 Hurl Hsem Hsrv. unfold _paginated_request.
  rewrite paginated_loop_unfold, Hurl. unfold _make_request. rewrite Hsrv.
  rewrite make_request_once;
    [| assumption | reflexivity | now apply handle_not_rate_limited].
  unfold handle_response, raise_for_status.
  destruct (status r =? 200) eqn:E1; [apply Z.eqb_eq in E1; contradiction|].
  destruct (status r =? 429) eqn:E2; [apply Z.eqb_eq in E2; contradiction|].
  destruct (400 <=? status r) eqn:E3; [apply Z.leb_le in E3; lia|].
  reflexivity.
Qed.

Lemma pager_raises_on_empty_success_witness :
  _paginated_request (JStr "u") None
    (new_client cfg10 [Answer (mk_response 204 [] Empty)])
  = (Raise TypeError,
     mk_client cfg10 10 [] [EvAcquire; EvGet (JStr "u") None; EvRelease]).
Proof.
  apply (pager_raises_on_empty_success (mk_response 204 [] Empty) []
           "u" None (new_client cfg10 [Answer (mk_response 204 [] Empty)]));
    simpl; try lia; reflexivity.
Defined.

(** ** The orchestrator: malformed items and failed fetches *)

Lemma py_getitem_cases (k : string) (v : json) :
  (exists x, py_getitem k v = Ok x) \/ (exists e, py_getitem k v = Raise e).
Proof.
  pose proof (py_getitem_pure k v) as H.
  destruct (py_getitem k v) as [x|e| | |]; simpl in H; try contradiction; eauto.
Qed.

Lemma workspace_tasks_cons (org : json) (rest : list json) :
  workspace_tasks (org :: rest)
  = (n <-- organization_name org ;;;
     tasks <-- workspace_tasks rest ;;;
     Ok (n :: tasks)).
Proof.
  simpl. unfold organization_name.
  destruct (py_getitem "attributes" org); reflexivity.
Qed.

Lemma organization_name_cases (org : json) :
  (exists n, organization_name org = Ok n) \/
  (exists e, organization_name org = Raise e).
Proof.
  unfold organization_name.
  destruct (py_getitem_cases "attributes" org) as [[a ->]|[e ->]]; simpl; [|eauto].
  apply py_getitem_cases.
Qed.

Lemma workspace_tasks_raises (orgs : list json) (org : json) :
  In org orgs ->
  (forall n, organization_name org <> Ok n) ->
  exists e, workspace_tasks orgs = Raise e.
Proof.
  intros Hin Hbad. induction orgs as [|o rest IH]; [contradiction|].
  rewrite workspace_tasks_cons. destruct Hin as [->|Hin].
  - destruct (organization_name_cases org) as [[n Hn]|[e He]].
    + now destruct (Hbad n).
    + rewrite He. simpl. eauto.
  - destruct (IH Hin) as [e He]. rewrite He.
    destruct (organization_name_cases o) as [[n ->]|[e' ->]]; simpl; eauto.
Qed.

Lemma workspace_tasks_ok (orgs : list json) :
  forall names,
    workspace_tasks orgs = Ok names ->
    Forall2 (fun org n => organization_name org = Ok n) orgs names.
Proof.
  induction orgs as [|o rest IH]; intros names H.
  - simpl in H. injection H as <-. constructor.
  - rewrite workspace_tasks_cons in H.
    apply obind_ok in H. destruct H as (n & Hn & H).
    apply obind_ok in H. destruct H as (tasks & Ht & H).
    injection H as <-. constructor; auto.
Qed.

(** X9: an organization without [attributes] or without a [name] makes
    [get_all_data] raise as soon as the organizations are fetched, wherever
    it stands in the list: no workspace and no run is requested, not even for
    the organizations before it. *)
Theorem malformed_organization_aborts (py_str : json -> string) (c c1 : client)
    (orgs : list json) (org : json) :
  get_organizations c = (Ok orgs, c1) ->
  In org orgs ->
  (forall n, organization_name org <> Ok n) ->
  exists e, get_all_data py_str c = (Raise e, c1).
Proof.
  intros Horgs Hin Hbad.
  destruct (workspace_tasks_raises orgs org Hin Hbad) as [e He].
  exists e. unfold get_all_data. unfold bind at 1. rewrite Horgs.
  unfold bind at 1, lift at 1. now rewrite He.
Qed.

Lemma malformed_organization_aborts_witness :
  exists e,
    get_all_data plain_str (new_client cfg10 malformed_org_script)
    = (Raise e,
       mk_client cfg10 10 [ok_page (page [item "ws-a" "prod"] None)]
         [EvAcquire;
          EvGet (JStr "https://app.terraform.io/api/v2/organizations") None;
          EvRelease]).
Proof.
  apply (malformed_organization_aborts plain_str
           (new_client cfg10 malformed_org_script)
           (mk_client cfg10 10 [ok_page (page [item "ws-a" "prod"] None)]
              [EvAcquire;
               EvGet (JStr "https://app.terraform.io/api/v2/organizations") None;
               EvRelease])
           [item "org-1" "acme"; JObj [("id", JStr "org-2")]]
           (JObj [("id", JStr "org-2")])).
  - reflexivity.
  - simpl. tauto.
  - intros n H. discriminate H.
Defined.

Lemma workspace_run_tasks_cases (k : json) (ws : list json) :
  (exists tasks, workspace_run_tasks k ws = Ok tasks) \/
  (exists e, workspace_run_tasks k ws = Raise e).
Proof.
  induction ws as [|w rest IH]; simpl; [eauto|].
  destruct (py_getitem_cases "id" w) as [[i ->]|[e ->]]; simpl; [|eauto].
  destruct (py_getitem_cases "attributes" w) as [[a ->]|[e ->]]; simpl; [|eauto].
  destruct (py_getitem_cases "name" a) as [[n ->]|[e ->]]; simpl; [|eauto].
  destruct IH as [[tasks ->]|[e ->]]; simpl; eauto.
Qed.

Lemma workspace_run_tasks_raises (k : json) (ws : list json) (w : json) :
  In w ws ->
  malformed_workspace w ->
  exists e, workspace_run_tasks k ws = Raise e.
Proof.
  intros Hin Hbad. induction ws as [|w0 rest IH]; [contradiction|].
  simpl. destruct Hin as [->|Hin].
  - destruct (py_getitem_cases "id" w) as [[i Hi]|[e He]];
      [|rewrite He; simpl; eauto].
    rewrite Hi. simpl.
    destruct (py_getitem_cases "attributes" w) as [[a Ha]|[e He]];
      [|rewrite He; simpl; eauto].
    rewrite Ha. simpl.
    destruct (py_getitem_cases "name" a) as [[n Hn]|[e He]];
      [|rewrite He; simpl; eauto].
    exfalso. destruct Hbad as [Hbad|Hbad].
    + exact (Hbad i Hi).
    + apply (Hbad n). unfold workspace_name. rewrite Ha. exact Hn.
  - destruct (IH Hin) as [e He]. rewrite He.
    destruct (py_getitem_cases "id" w0) as [[i ->]|[e1 ->]]; simpl; [|eauto].
    destruct (py_getitem_cases "attributes" w0) as [[a ->]|[e1 ->]]; simpl; [|eauto].
    destruct (py_getitem_cases "name" a) as [[n ->]|[e1 ->]]; simpl; eauto.
Qed.

Lemma run_tasks_raises (d : pydict (list json)) (k : json) (ws : list json) (w : json) :
  In (k, ws) d ->
  In w ws ->
  malformed_workspace w ->
  exists e, run_tasks d = Raise e.
Proof.
  intros Hd Hw Hbad. induction d as [|[k0 ws0] rest IH]; [contradiction|].
  simpl. destruct Hd as [Heq|Hd].
  - injection Heq as -> ->.
    destruct (workspace_run_tasks_raises k ws w Hw Hbad) as [e ->]. simpl. eauto.
  - destruct (IH Hd) as [e He]. rewrite He.
    destruct (workspace_run_tasks_cases k0 ws0) as [[tasks ->]|[e' ->]]; simpl; eauto.
Qed.

(** X10: a workspace without [id], [attributes] or [name] makes
    [get_all_data] raise once the workspaces of all organizations are
    fetched and before the runs of any workspace are requested. *)
Theorem malformed_workspace_aborts (py_str : json -> string) (c c1 c2 : client)
    (orgs names : list json) (d : pydict (list json))
    (k : json) (ws : list json) (w : json) :
  get_organizations c = (Ok orgs, c1) ->
  workspace_tasks orgs = Ok names ->
  await_workspaces py_str names [] c1 = (Ok d, c2) ->
  In (k, ws) d ->
  In w ws ->
  malformed_workspace w ->
  exists e, get_all_data py_str c = (Raise e, c2).
Proof.
  intros Horgs Hnames Hws Hd Hw Hbad.
  destruct (run_tasks_raises d k ws w Hd Hw Hbad) as [e He].
  exists e. unfold get_all_data. unfold bind at 1. rewrite Horgs.
  unfold bind at 1, lift at 1. rewrite Hnames.
  unfold bind at 1. rewrite Hws.
  unfold bind at 1, lift at 1. now rewrite He.
Qed.

Lemma malformed_workspace_aborts_witness :
  exists e,
    get_all_data plain_str (new_client cfg10 malformed_workspace_script)
    = (Raise e,
       mk_client cfg10 10 [ok_page (page [run "r1"] None)]
         [EvAcquire;
          EvGet (JStr "https://app.terraform.io/api/v2/organizations") None;
          EvRelease;
          EvAcquire;
          EvGet (JStr "https://app.terraform.io/api/v2/organizations/acme/workspaces")
            (Some [("include", "current-run,organization")]);
          EvRelease]).
Proof.
  apply (malformed_workspace_aborts plain_str
           (new_client cfg10 malformed_workspace_script)
           (mk_client cfg10 10
              [ok_page (page [item "ws-a" "prod";
                              JObj [("id", JStr "ws-b"); ("attributes", JObj [])]] None);
               ok_page (page [run "r1"] None)]
              [EvAcquire;
               EvGet (JStr "https://app.terraform.io/api/v2/organizations") None;
               EvRelease])
           (mk_client cfg10 10 [ok_page (page [run "r1"] None)]
              [EvAcquire;
               EvGet (JStr "https://app.terraform.io/api/v2/organizations") None;
               EvRelease;
               EvAcquire;
               EvGet (JStr "https://app.terraform.io/api/v2/organizations/acme/workspaces")
                 (Some [("include", "current-run,organization")]);
               EvRelease])
           [item "org-1" "acme"] [JStr "acme"]
           [(JStr "acme",
             [item "ws-a" "prod";
              JObj [("id", JStr "ws-b"); ("attributes", JObj [])]])]
           (JStr "acme")
           [item "ws-a" "prod"; JObj [("id", JStr "ws-b"); ("attributes", JObj [])]]
           (JObj [("id", JStr "ws-b"); ("attributes", JObj [])])).
  - reflexivity.
  - reflexivity.
  - reflexivity.
  - simpl. tauto.
  - simpl. tauto.
  - right. intros n H. discriminate H.
Defined.

Lemma await_workspaces_app (py_str : json -> string) (a b : list json) :
  forall d c,
    await_workspaces py_str (a ++ b) d c
    = bind (await_workspaces py_str a d) (fun d' => await_workspaces py_str b d') c.
Proof.
  induction a as [|n a IH]; intros d c; [reflexivity|].
  change ((n :: a) ++ b)%list with (n :: (a ++ b))%list.
  cbn [await_workspaces]. unfold bind, lift.
  destruct (get_workspaces_for_organization py_str n c) as [[ws|e| | |] c1];
    try reflexivity.
  destruct (py_setitem n ws d) as [d1|e| | |]; try reflexivity.
  rewrite IH. reflexivity.
Qed.

(** X11: the first workspace fetch that raises ends the collection with
    that exception.  The organizations after it are never requested: the
    client is left as the failed fetch left it. *)
Theorem workspace_failure_aborts (py_str : json -> string) (c c1 c2 c3 : client)
    (orgs before later : list json) (n : json) (d : pydict (list json)) (e : exn) :
  get_organizations c = (Ok orgs, c1) ->
  workspace_tasks orgs = Ok (before ++ n :: later)%list ->
  await_workspaces py_str before [] c1 = (Ok d, c2) ->
  get_workspaces_for_organization py_str n c2 = (Raise e, c3) ->
  get_all_data py_str c = (Raise e, c3).
Proof.
  intros Horgs Hnames Hbefore Hfail.
  assert (Hws : await_workspaces py_str (before ++ n :: later) [] c1 = (Raise e, c3)).
  { rewrite await_workspaces_app. unfold bind. rewrite Hbefore.
    simpl. unfold bind. now rewrite Hfail. }
  unfold get_all_data. unfold bind at 1. rewrite Horgs.
  unfold bind at 1, lift at 1. rewrite Hnames.
  unfold bind at 1. now rewrite Hws.
Qed.

Lemma workspace_failure_aborts_witness :
  get_all_data plain_str (new_client cfg10 failing_workspaces_script)
  = (Raise (ClientResponseError 500),
     mk_client cfg10 10 [ok_page (page [item "ws-b" "prod"] None)]
       [EvAcquire;
        EvGet (JStr "https://app.terraform.io/api/v2/organizations") None;
        EvRelease;
        EvAcquire;
        EvGet (JStr "https://app.terraform.io/api/v2/organizations/acme/workspaces")
          (Some [("include", "current-run,organization")]);
        EvRelease]).
Proof.
  apply (workspace_failure_aborts plain_str
           (new_client cfg10 failing_workspaces_script)
           (mk_client cfg10 10
              [Answer (mk_response 500 [] Empty);
               ok_page (page [item "ws-b" "prod"] None)]
              [EvAcquire;
               EvGet (JStr "https://app.terraform.io/api/v2/organizations") None;
               EvRelease])
           (mk_client cfg10 10
              [Answer (mk_response 500 [] Empty);
               ok_page (page [item "ws-b" "prod"] None)]
              [EvAcquire;
               EvGet (JStr "https://app.terraform.io/api/v2/organizations") None;
               EvRelease])
           (mk_client cfg10 10 [ok_page (page [item "ws-b" "prod"] None)]
              [EvAcquire;
               EvGet (JStr "https://app.terraform.io/api/v2/organizations") None;
               EvRelease;
               EvAcquire;
               EvGet (JStr "https://app.terraform.io/api/v2/organizations/acme/workspaces")
                 (Some [("include", "current-run,organization")]);
               EvRelease])
           [item "org-1" "acme"; item "org-2" "globex"]
           [] [JStr "globex"] (JStr "acme") [] (ClientResponseError 500));
    reflexivity.
Defined.

(** ** The orchestrator: what the mappings of a snapshot hold *)

Lemma Forall2_in_l {A B} (P : A -> B -> Prop) (l : list A) (l' : list B) (x : A) :
  Forall2 P l l' -> In x l -> exists y, In y l' /\ P x y.
Proof.
  induction 1 as [|a b l l' Hab _ IH]; [contradiction|].
  intros [<-|Hin].
  - exists b. split; [now left|assumption].
  - destruct (IH Hin) as (y & Hy & Hp). exists y. split; [now right|assumption].
Qed.

Lemma Forall2_in_r {A B} (P : A -> B -> Prop) (l : list A) (l' : list B) (y : B) :
  Forall2 P l l' -> In y l' -> exists x, In x l /\ P x y.
Proof.
  induction 1 as [|a b l l' Hab _ IH]; [contradiction|].
  intros [<-|Hin].
  - exists a. split; [now left|assumption].
  - destruct (IH Hin) as (x & Hx & Hp). exists x. split; [now right|assumption].
Qed.

Lemma dict_mem_set {V} (k k0 : json) (v : V) (d : pydict V) :
  py_hash_key k0 <> None ->
  dict_mem k (dict_set k0 v d) = same_key k k0 || dict_mem k d.
Proof.
  intros Hh. unfold dict_mem. rewrite dict_get_set by assumption.
  destruct (same_key k k0); reflexivity.
Qed.

(** The keys of the workspaces mapping: the names that were awaited. *)
Lemma await_workspaces_mem (py_str : json -> string) (tasks : list json) :
  forall d c d' c',
    await_workspaces py_str tasks d c = (Ok d', c') ->
    Forall (fun n => py_hash_key n <> None) tasks /\
    forall k, dict_mem k d' = dict_mem k d || existsb (same_key k) tasks.
Proof.
  induction tasks as [|n rest IH]; intros d c d' c' H; simpl in H.
  - unfold ret in H. injection H as <- <-. split; [constructor|].
    intros k. simpl. now rewrite orb_false_r.
  - apply bind_ok in H. destruct H as (ws & c1 & Hws & H).
    apply bind_ok in H. destruct H as (d1 & c1' & Hset & H).
    apply lift_ok in Hset. destruct Hset as [Hset ->].
    apply py_setitem_ok in Hset. destruct Hset as [Hh ->].
    destruct (IH _ _ _ _ H) as [Hall Hmem].
    split; [constructor; assumption|].
    intros k. rewrite Hmem, dict_mem_set by assumption. simpl.
    destruct (same_key k n), (dict_mem k d); reflexivity.
Qed.

Lemma dict_get_in_key {V} (k : json) (v : V) (d : pydict V) :
  dict_get k d = Some v -> exists k', In (k', v) d /\ same_key k k' = true.
Proof.
  induction d as [|[k1 v1] rest IH]; simpl; [discriminate|].
  destruct (same_key k k1) eqn:E.
  - intros H. injection H as <-. exists k1. split; [now left|assumption].
  - intros H. destruct (IH H) as (k' & Hin & Hk). exists k'. split; [now right|assumption].
Qed.

(** An item of a well-formed dictionary, however it was met, stands in the
    dictionary under a key that compares equal. *)
Lemma is_item_in {V} (k : json) (v : V) (d : pydict V) :
  dict_wf d -> is_item k v d -> exists k', In (k', v) d /\ same_key k k' = true.
Proof.
  intros Hwf [H|H].
  - now apply dict_get_in_key.
  - exists k. split; [assumption|].
    apply same_key_refl. exact (dict_wf_in_hashable k v d Hwf H).
Qed.

(** X12: in every snapshot [get_all_data] returns, the keys of the
    [workspaces] mapping are the names of the organizations: every
    organization has a name under which [workspaces] holds a list, and every
    key of [workspaces] is the name of an organization of the snapshot. *)
Theorem workspaces_keys_are_organizations (py_str : json -> string) (c c' : client)
    (snap : snapshot) :
  get_all_data py_str c = (Ok snap, c') ->
  (forall org,
      In org (organizations snap) ->
      exists n ws,
        organization_name org = Ok n /\
        dict_get n (workspaces snap) = Some ws) /\
  (forall k ws,
      is_item k ws (workspaces snap) ->
      exists org n,
        In org (organizations snap) /\
        organization_name org = Ok n /\
        same_key k n = true).
Proof.
  intros Hrun.
  destruct (get_all_data_ok py_str c c' snap Hrun)
    as (c1 & c2 & names & tasks & Horgs & Hnames & Hws & _).
  pose proof (workspace_tasks_ok _ _ Hnames) as Hall2.
  destruct (await_workspaces_mem py_str names [] c1 _ c2 Hws) as [Hhash Hmem].
  assert (Hwf : dict_wf (workspaces snap))
    by (apply (await_workspaces_wf py_str names [] c1 _ c2 Hws); exact I).
  split.
  - intros org Hin.
    destruct (Forall2_in_l _ _ _ org Hall2 Hin) as (n & Hn & Hname).
    assert (Hk : dict_mem n (workspaces snap) = true).
    { rewrite Hmem. simpl. apply existsb_exists. exists n. split; [assumption|].
      apply same_key_refl. rewrite Forall_forall in Hhash. now apply Hhash. }
    unfold dict_mem in Hk.
    destruct (dict_get n (workspaces snap)) as [ws|] eqn:E; [|discriminate].
    exists n, ws. auto.
  - intros k ws Hitem. apply (is_item_get _ _ _ Hwf) in Hitem.
    assert (Hk : dict_mem k (workspaces snap) = true)
      by (unfold dict_mem; now rewrite Hitem).
    rewrite Hmem in Hk. simpl in Hk. apply existsb_exists in Hk.
    destruct Hk as (n & Hn & Hkn).
    destruct (Forall2_in_r _ _ _ n Hall2 Hn) as (org & Horg & Hname).
    exists org, n. auto.
Qed.

Lemma workspaces_keys_are_organizations_witness :
  (forall org,
      In org (organizations (snapshot_of two_org_run)) ->
      exists n ws,
        organization_name org = Ok n /\
        dict_get n (workspaces (snapshot_of two_org_run)) = Some ws) /\
  (forall k ws,
      is_item k ws (workspaces (snapshot_of two_org_run)) ->
      exists org n,
        In org (organizations (snapshot_of two_org_run)) /\
        organization_name org = Ok n /\
        same_key k n = true).
Proof.
  apply (workspaces_keys_are_organizations plain_str
           (new_client cfg10 two_org_script) (snd two_org_run)
           (snapshot_of two_org_run)).
  reflexivity.
Defined.

Lemma workspace_run_tasks_complete (k : json) (ws : list json) :
  forall tasks,
    workspace_run_tasks k ws = Ok tasks ->
    forall w, In w ws ->
      exists t,
        In t tasks /\ task_org_name t = k /\
        py_getitem "id" w = Ok (task_workspace_id t) /\
        workspace_name w = Ok (task_workspace_name t).
Proof.
  induction ws as [|w0 rest IH]; intros tasks H w Hin; [contradiction|].
  simpl in H.
  apply obind_ok in H. destruct H as (id & Hid & H).
  apply obind_ok in H. destruct H as (attributes & Hattr & H).
  apply obind_ok in H. destruct H as (name & Hname & H).
  apply obind_ok in H. destruct H as (others & Hrest & H).
  injection H as <-. destruct Hin as [<-|Hin].
  - exists (mk_run_task k name id). simpl. split; [now left|].
    split; [reflexivity|]. split; [assumption|].
    unfold workspace_name. now rewrite Hattr.
  - destruct (IH others Hrest w Hin) as (t & Ht & Hrest').
    exists t. split; [now right|assumption].
Qed.

(** Every workspace of the workspaces mapping has its task. *)
Lemma run_tasks_complete (d : pydict (list json)) :
  forall tasks,
    run_tasks d = Ok tasks ->
    forall k ws w, In (k, ws) d -> In w ws ->
      exists t,
        In t tasks /\ task_org_name t = k /\
        py_getitem "id" w = Ok (task_workspace_id t) /\
        workspace_name w = Ok (task_workspace_name t).
Proof.
  induction d as [|[k0 ws0] rest IH]; intros tasks H k ws w Hd Hw; [contradiction|].
  simpl in H.
  apply obind_ok in H. destruct H as (here & Hhere & H).
  apply obind_ok in H. destruct H as (later & Hlater & H).
  injection H as <-. destruct Hd as [Heq|Hd].
  - injection Heq as -> ->.
    destruct (workspace_run_tasks_complete k ws here Hhere w Hw) as (t & Ht & Hrest).
    exists t. split; [apply in_or_app; now left|assumption].
  - destruct (IH later Hlater k ws w Hd Hw) as (t & Ht & Hrest).
    exists t. split; [apply in_or_app; now right|assumption].
Qed.

Lemma in_combine_exists {A B} (l : list A) :
  forall (l' : list B) (x : A),
    List.length l' = List.length l -> In x l -> exists y, In (x, y) (combine l l').
Proof.
  induction l as [|a l IH]; intros l' x Hlen Hin; [contradiction|].
  destruct l' as [|b l']; [discriminate|]. simpl in Hlen.
  destruct Hin as [<-|Hin].
  - exists b. now left.
  - destruct (IH l' x) as (y & Hy); [lia|assumption|]. exists y. now right.
Qed.

Lemma last_match_in (l : list (run_task * list json)) (t : run_task) (f : list json)
    (org name : json) :
  In (t, f) l ->
  same_key org (task_org_name t) = true ->
  same_key name (task_workspace_name t) = true ->
  exists e, last_match l org name = Some e.
Proof.
  intros Hin Ho Hn. induction l as [|[t0 f0] rest IH]; [contradiction|].
  simpl. destruct (last_match rest org name) as [e|] eqn:E; [eauto|].
  destruct Hin as [Heq|Hin].
  - injection Heq as -> ->. rewrite Ho, Hn. simpl. eauto.
  - destruct (IH Hin) as (e & He). discriminate.
Qed.

(** A workspace of the workspaces mapping has an entry in the runs
    mapping. *)
Lemma workspace_has_entry (py_str : json -> string) (c c' : client)
    (snap : snapshot) (k : json) (ws : list json) (w : json) :
  get_all_data py_str c = (Ok snap, c') ->
  is_item k ws (workspaces snap) ->
  In w ws ->
  exists n entry,
    workspace_name w = Ok n /\
    runs_entry (runs snap) k n = Some entry.
Proof.
  intros Hrun Hitem Hw.
  destruct (get_all_data_runs py_str c c' snap Hrun)
    as (tasks & fetched & c2 & Hwf & Htasks & _ & Hlen & Hall & Hh).
  destruct (is_item_in k ws _ Hwf Hitem) as (k' & Hin & Hkk).
  destruct (run_tasks_complete _ _ Htasks k' ws w Hin Hw) as (t & Ht & Horg & _ & Hname).
  destruct (in_combine_exists tasks fetched t Hlen Ht) as (f & Hf).
  pose proof (store_all_names_hashable _ _ _ Hall t f Hf) as Hhn.
  destruct (last_match_in _ t f k (task_workspace_name t) Hf) as (e & He).
  { now rewrite Horg. }
  { now apply same_key_refl. }
  exists (task_workspace_name t), e. split; [assumption|].
  rewrite (runs_entry_store_all _ [] (runs snap) k _ Hh Hall). now rewrite He.
Qed.

(** X13: in every snapshot [get_all_data] returns, every workspace of the
    [workspaces] mapping has a name, and the [runs] mapping holds an entry
    under the workspace's organization and that name. *)
Theorem every_workspace_has_runs_entry (py_str : json -> string) (c c' : client)
    (snap : snapshot) (k : json) (ws : list json) (w : json) :
  get_all_data py_str c = (Ok snap, c') ->
  is_item k ws (workspaces snap) ->
  In w ws ->
  exists n entry,
    workspace_name w = Ok n /\
    runs_entry (runs snap) k n = Some entry.
Proof. exact (workspace_has_entry py_str c c' snap k ws w). Qed.

Lemma every_workspace_has_runs_entry_witness :
  exists n entry,
    workspace_name (item "ws-b" "prod") = Ok n /\
    runs_entry (runs (snapshot_of two_org_run)) (JStr "globex") n = Some entry.
Proof.
  apply (every_workspace_has_runs_entry plain_str
           (new_client cfg10 two_org_script) (snd two_org_run)
           (snapshot_of two_org_run) (JStr "globex") [item "ws-b" "prod"]
           (item "ws-b" "prod")).
  - reflexivity.
  - left. reflexivity.
  - simpl. tauto.
Defined.

(** The keys of the runs mapping: the organizations of the tasks stored. *)
Lemma store_all_mem (l : list (run_task * list json)) :
  forall wr wr',
    Forall (fun x => py_hash_key (task_org_name (fst x)) <> None) l ->
    store_all l wr = Ok wr' ->
    forall k,
      dict_mem k wr'
      = dict_mem k wr || existsb (fun x => same_key k (task_org_name (fst x))) l.
Proof.
  induction l as [|[t f] rest IH]; intros wr wr' Hh H k; simpl in H.
  - injection H as <-. simpl. now rewrite orb_false_r.
  - apply obind_ok in H. destruct H as (wr1 & H1 & H2).
    inversion Hh as [|x l' Hx Hrest]; subst. simpl in Hx.
    rewrite (IH wr1 wr' Hrest H2 k). simpl.
    apply store_runs_ok in H1. destruct H1 as [_ ->].
    rewrite dict_mem_set by assumption.
    destruct (dict_mem (task_org_name t) wr).
    + destruct (same_key k (task_org_name t)), (dict_mem k wr); reflexivity.
    + rewrite dict_mem_set by assumption.
      destruct (same_key k (task_org_name t)), (dict_mem k wr); reflexivity.
Qed.

(** X14: in every snapshot [get_all_data] returns, an organization is a key
    of the [runs] mapping exactly when it has a workspace: an organization
    whose workspace list is empty has no entry in [runs], not even an empty
    one. *)
Theorem runs_skip_empty_organizations (py_str : json -> string) (c c' : client)
    (snap : snapshot) (k : json) (ws : list json) :
  get_all_data py_str c = (Ok snap, c') ->
  dict_get k (workspaces snap) = Some ws ->
  (dict_get k (runs snap) = None <-> ws = []).
Proof.
  intros Hrun Hk. split.
  - intros Hnone. destruct ws as [|w ws']; [reflexivity|].
    destruct (workspace_has_entry py_str c c' snap k (w :: ws') w Hrun)
      as (n & e & _ & He); [now left | now left |].
    unfold runs_entry in He. rewrite Hnone in He. discriminate.
  - intros ->.
    destruct (get_all_data_runs py_str c c' snap Hrun)
      as (tasks & fetched & c2 & Hwf & Htasks & _ & Hlen & Hall & Hh).
    pose proof (store_all_mem _ [] (runs snap) Hh Hall k) as Hmem.
    simpl in Hmem.
    destruct (existsb (fun x => same_key k (task_org_name (fst x)))
                (combine tasks fetched)) eqn:Ex.
    + apply existsb_exists in Ex. destruct Ex as ([t f] & Hin & Hkt). simpl in Hkt.
      apply in_combine_l in Hin.
      destruct (proj2 (run_tasks_ok _ _ Htasks) t Hin) as (ws' & w & Hd & Hw & _).
      pose proof (dict_wf_get _ _ _ Hwf Hd) as Hget.
      rewrite <- (dict_get_same_key k (task_org_name t) _ Hkt) in Hget.
      rewrite Hk in Hget. injection Hget as <-. contradiction.
    + unfold dict_mem in Hmem.
      destruct (dict_get k (runs snap)); [discriminate|reflexivity].
Qed.

Lemma runs_skip_empty_organizations_witness :
  (dict_get (JStr "acme") (runs (snapshot_of empty_org_run)) = None
   <-> ([] : list json) = []) /\
  (dict_get (JStr "globex") (runs (snapshot_of empty_org_run)) = None
   <-> [item "ws-b" "prod"] = []).
Proof.
  split.
  - apply (runs_skip_empty_organizations plain_str
             (new_client cfg10 empty_org_script) (snd empty_org_run)
             (snapshot_of empty_org_run) (JStr "acme") []); reflexivity.
  - apply (runs_skip_empty_organizations plain_str
             (new_client cfg10 empty_org_script) (snd empty_org_run)
             (snapshot_of empty_org_run) (JStr "globex") [item "ws-b" "prod"]);
      reflexivity.
Defined.

(** ** The command line of the collector *)

Lemma get_organizations_blocked (c : client) :
  semaphore c = 0%nat ->
  py_truthy (JStr (base_url (config c) ++ "/organizations")) = true ->
  get_organizations c = (Blocked, c).
Proof.
  intros Hsem Hurl. unfold get_organizations, _paginated_request.
  rewrite paginated_loop_unfold, Hurl. unfold _make_request.
  rewrite make_request_blocked_now by assumption.
  unfold set_server. now destruct c.
Qed.

(** X16: the collector needs a permit to send anything.  With
    [--max-concurrent 0] the first request waits for a permit that never
    comes: the process does not end and sends nothing.  With a negative
    value the semaphore cannot be built and the process exits with 1.  In
    both cases nothing is written and nothing is printed. *)
Theorem collector_needs_a_permit (py_str : json -> string) (script : list reply)
    (can_write : string -> bool) (args : collector_arguments) :
  arg_max_concurrent args <= 0 ->
  let r := collector_main py_str script can_write args in
  activity r = [] /\
  saved r = None /\
  printed r = [] /\
  process r = if arg_max_concurrent args <? 0 then Exits 1 else Waits.
Proof.
  intros Hle. cbv zeta. unfold collector_main.
  destruct (arg_max_concurrent args <? 0) eqn:Hneg; [simpl; repeat split|].
  apply Z.ltb_ge in Hneg.
  assert (Hzero : arg_max_concurrent args = 0) by lia.
  assert (Hrun : get_all_data py_str (new_client (config_of args) script)
                 = (Blocked, new_client (config_of args) script)).
  { unfold get_all_data. unfold bind at 1.
    rewrite get_organizations_blocked; [reflexivity| |reflexivity].
    unfold new_client, config_of. simpl. now rewrite Hzero. }
  rewrite Hrun. simpl. repeat split.
Qed.

Lemma collector_needs_a_permit_witness :
  let r := collector_main plain_str two_org_script (fun _ => true)
             (mk_collector_arguments "token" "terraform_data.json" 0 30) in
  activity r = [] /\
  saved r = None /\
  printed r = [] /\
  process r = Waits.
Proof.
  apply (collector_needs_a_permit plain_str two_org_script (fun _ => true)
           (mk_collector_arguments "token" "terraform_data.json" 0 30)).
  simpl. lia.
Defined.

(** The run of the specification's end-to-end example, from the command
    line: six runs in two workspaces of two organizations. *)
Example collector_main_two_orgs :
  let r := collector_main plain_str two_org_script (fun _ => true) default_arguments in
  process r = Exits 0 /\
  printed r
  = [String "010" "==================================================";
     "TERRAFORM CLOUD DATA COLLECTION SUMMARY";
     "==================================================";
     "Organizations: 2";
     "Workspaces: 2";
     "Runs: 6";
     "Output file: terraform_data.json";
     "=================================================="].
Proof. split; reflexivity. Qed.

(** ** The reports of the analyzer *)

Lemma rbind_some {A B} (m : report_step A) (k : A -> report_step B)
    (out : list string) (b : B) :
  rbind m k = (out, Some b) ->
  exists o1 a o2, m = (o1, Some a) /\ k a = (o2, Some b) /\ out = (o1 ++ o2)%list.
Proof.
  destruct m as [o1 [a|]]; simpl; [|discriminate].
  destruct (k a) as [o2 r] eqn:E. intros H. injection H as <- ->.
  exists o1, a, o2. auto.
Qed.

Lemma need_some {A} (o : option A) (out : list string) (a : A) :
  need o = (out, Some a) -> o = Some a /\ out = [].
Proof. unfold need. intros H. injection H as <- ->. auto. Qed.

Lemma print_some (line : string) (out : list string) (u : unit) :
  print line = (out, Some u) -> out = [line].
Proof. unfold print. intros H. now injection H as <-. Qed.

Lemma rret_some {A} (a b : A) (out : list string) :
  rret a = (out, Some b) -> a = b /\ out = [].
Proof. unfold rret. intros H. injection H as <- <-. auto. Qed.

Lemma heading_some (title : string) (out : list string) (u : unit) :
  heading title = (out, Some u) ->
  out = [String "010" (rule 60); title; rule 60].
Proof. unfold heading, rbind, print. simpl. intros H. now injection H as <-. Qed.

(** Reading a report that returned, step by step. *)
Ltac rinv :=
  repeat (cbv beta in *;
          match goal with
          | H : rbind _ _ = (_, Some _) |- _ =>
              apply rbind_some in H; destruct H as (? & ? & ? & ? & ? & ?)
          | H : need _ = (_, Some _) |- _ =>
              apply need_some in H; destruct H
          | H : print _ = (_, Some _) |- _ => apply print_some in H
          | H : heading _ = (_, Some _) |- _ => apply heading_some in H
          | H : rret _ = (_, Some _) |- _ => apply rret_some in H; destruct H
          end).

Lemma length_chars (s : string) : List.length (chars s) = String.length s.
Proof. induction s as [|c s IH]; simpl; [reflexivity|]. now rewrite IH. Qed.

(** [len(v)] is the number of elements a loop over [v] visits. *)
Lemma py_len_elements (v : json) (n : nat) (l : list json) :
  py_len v = Some n -> py_elements v = Some l -> List.length l = n.
Proof.
  unfold py_len, py_elements.
  destruct v as [| | |s|items|fields]; simpl; try discriminate;
    intros H1 H2; injection H1 as <-; injection H2 as <-.
  - apply length_chars.
  - reflexivity.
  - apply length_map.
Qed.

Lemma Forall_dict_set {V} (P : V -> Prop) (k : json) (v : V) (d : pydict V) :
  Forall (fun kv => P (snd kv)) d ->
  P v ->
  Forall (fun kv => P (snd kv)) (dict_set k v d).
Proof.
  induction d as [|[k' v'] rest IH]; simpl; intros Hd Hv.
  - constructor; auto.
  - inversion Hd as [|x l Hx Hrest]; subst.
    destruct (same_key k k'); constructor; simpl; auto.
Qed.

(** One more count: the counts grow by one, and none of them is zero. *)
Lemma count_up_inv (k : json) (counts counts' : pydict nat) :
  count_up k counts = Some counts' ->
  sum (dict_values counts') = S (sum (dict_values counts)) /\
  (Forall (fun kv => (1 <= snd kv)%nat) counts ->
   Forall (fun kv => (1 <= snd kv)%nat) counts').
Proof.
  unfold count_up. destruct (py_hash_key k); [|discriminate].
  intros H. injection H as <-. split.
  - pose proof (sum_dict_set (fun n : nat => n) k
                  (S (match dict_get k counts with Some n => n | None => 0%nat end))
                  counts) as Hs.
    rewrite !map_id in Hs. destruct (dict_get k counts); lia.
  - intros Hall. apply (Forall_dict_set (fun n => (1 <= n)%nat)); [assumption|lia].
Qed.

Lemma run_details_lines (py_str : json -> string) (run status attrs : json)
    (out : list string) (u : unit) :
  Report.run_details py_str run status attrs = (out, Some u) ->
  List.length out = 4%nat.
Proof. unfold Report.run_details. intros H. rinv. subst. reflexivity. Qed.

(** The loop over the runs of one workspace: every run is counted under
    one status, and four lines are printed for every run shown. *)
Lemma runs_loop_inv (py_str : json -> string) (todo : list json) :
  forall runs counts out counts',
    Report.runs_loop py_str todo runs counts = (out, Some counts') ->
    sum (dict_values counts') = (sum (dict_values counts) + List.length todo)%nat /\
    (Forall (fun kv => (1 <= snd kv)%nat) counts ->
     Forall (fun kv => (1 <= snd kv)%nat) counts') /\
    List.length out
    = (4 * List.length (filter (fun run => shown run runs) todo))%nat.
Proof.
  induction todo as [|run rest IH]; intros runs counts out counts' H;
    cbn [Report.runs_loop] in H.
  - rinv. subst. simpl. repeat split; auto; lia.
  - rinv.
    match goal with
    | Hc : count_up _ _ = Some _ |- _ =>
        apply count_up_inv in Hc; destruct Hc as [Hsum Hpos]
    end.
    match goal with
    | Hr : Report.runs_loop _ _ _ _ = _ |- _ =>
        destruct (IH _ _ _ _ Hr) as (Hsum' & Hpos' & Hlen')
    end.
    subst. simpl filter. rewrite !length_app. simpl List.length.
    split; [lia|]. split; [auto|].
    destruct (shown run runs).
    + match goal with
      | Hd : Report.run_details _ _ _ _ = _ |- _ =>
          apply run_details_lines in Hd; rewrite Hd
      end.
      simpl List.length. lia.
    + rinv. subst. simpl List.length. lia.
Qed.

Lemma workspaces_runs_loop_inv (py_str : json -> string)
    (items : list (string * json)) :
  forall total counts out stats,
    Report.workspaces_runs_loop py_str items total counts = (out, Some stats) ->
    (fst stats + sum (dict_values counts) = total + sum (dict_values (snd stats)))%nat /\
    (Forall (fun kv => (1 <= snd kv)%nat) counts ->
     Forall (fun kv => (1 <= snd kv)%nat) (snd stats)).
Proof.
  induction items as [|[name data] rest IH]; intros total counts out stats H;
    cbn [Report.workspaces_runs_loop] in H.
  - rinv. subst. simpl. split; [lia|auto].
  - rinv.
    match goal with
    | Hr : Report.runs_loop _ _ _ _ = _ |- _ =>
        apply runs_loop_inv in Hr; destruct Hr as (Hsum & Hpos & _)
    end.
    match goal with
    | Hl : py_len _ = Some _, He : py_elements _ = Some _ |- _ =>
        pose proof (py_len_elements _ _ _ Hl He) as Hn
    end.
    match goal with
    | Hr : Report.workspaces_runs_loop _ _ _ _ = _ |- _ =>
        destruct (IH _ _ _ _ Hr) as (Hsum' & Hpos')
    end.
    split; [lia|auto].
Qed.

Lemma organizations_runs_loop_inv (py_str : json -> string)
    (items : list (string * json)) :
  forall total counts out stats,
    Report.organizations_runs_loop py_str items total counts = (out, Some stats) ->
    (fst stats + sum (dict_values counts) = total + sum (dict_values (snd stats)))%nat /\
    (Forall (fun kv => (1 <= snd kv)%nat) counts ->
     Forall (fun kv => (1 <= snd kv)%nat) (snd stats)).
Proof.
  induction items as [|[name data] rest IH]; intros total counts out stats H;
    cbn [Report.organizations_runs_loop] in H.
  - rinv. subst. simpl. split; [lia|auto].
  - rinv.
    match goal with
    | Hr : Report.workspaces_runs_loop _ _ _ _ = _ |- _ =>
        apply workspaces_runs_loop_inv in Hr; destruct Hr as (Hsum & Hpos)
    end.
    match goal with
    | Hr : Report.organizations_runs_loop _ _ _ _ = _ |- _ =>
        destruct (IH _ _ _ _ Hr) as (Hsum' & Hpos')
    end.
    split; [lia|auto].
Qed.

Lemma insert_by_count_sum (x : json * nat) (l : list (json * nat)) :
  sum (map snd (insert_by_count x l)) = (snd x + sum (map snd l))%nat.
Proof.
  induction l as [|y l IH]; simpl; [reflexivity|].
  destruct (snd y <=? snd x)%nat; simpl; [reflexivity|]. rewrite IH. lia.
Qed.

Lemma most_common_sum (counts : pydict nat) :
  sum (map snd (most_common counts)) = sum (dict_values counts).
Proof.
  unfold most_common, dict_values.
  induction counts as [|x l IH]; simpl; [reflexivity|].
  now rewrite insert_by_count_sum, IH.
Qed.

Lemma Forall_insert_by_count (P : json * nat -> Prop) (x : json * nat)
    (l : list (json * nat)) :
  P x -> Forall P l -> Forall P (insert_by_count x l).
Proof.
  intros Hx. induction l as [|y l IH]; simpl; intros Hl.
  - constructor; auto.
  - inversion Hl as [|z l' Hy Hrest]; subst.
    destruct (snd y <=? snd x)%nat; constructor; auto.
Qed.

Lemma Forall_most_common (P : json * nat -> Prop) (counts : pydict nat) :
  Forall P counts -> Forall P (most_common counts).
Proof.
  unfold most_common. induction counts as [|x l IH]; simpl; intros H; [constructor|].
  inversion H as [|y l' Hx Hrest]; subst.
  apply Forall_insert_by_count; auto.
Qed.

Lemma in_le_sum (l : list (json * nat)) :
  Forall (fun kv => (snd kv <= sum (map snd l))%nat) l.
Proof.
  induction l as [|x l IH]; simpl; constructor; [lia|].
  eapply Forall_impl; [|exact IH]. simpl. intros a Ha. lia.
Qed.

Lemma status_lines_total (py_str : json -> string)
    (format_percentage : nat -> nat -> string) (total : nat)
    (l : list (json * nat)) :
  Forall (fun kv => (1 <= snd kv <= total)%nat) l ->
  Report.status_lines py_str format_percentage total l
  = (map (status_line py_str format_percentage total) l, Some tt).
Proof.
  induction l as [|[s n] l IH]; intros HF; simpl; [reflexivity|].
  inversion HF as [|x l' Hx Hrest]; subst. simpl in Hx.
  rewrite (IH Hrest). unfold rbind, print. simpl.
  destruct (0 <? total)%nat eqn:E; [reflexivity|].
  apply Nat.ltb_ge in E. lia.
Qed.

(** What a run of [analyze_runs] that returned went through. *)
Lemma analyze_runs_inv (py_str : json -> string)
    (format_percentage : nat -> nat -> string) (data : json) (out : list string) :
  Report.analyze_runs py_str format_percentage data = (out, Some tt) ->
  exists runs_data items body stats,
    py_get "runs" (JObj []) data = Some runs_data /\
    py_items runs_data = Some items /\
    Report.organizations_runs_loop py_str items 0 [] = (body, Some stats) /\
    out = (([String "010" (rule 60); "RUN ANALYSIS"; rule 60] ++ body)
           ++ [String "010" "Run Statistics:";
               ("  Total Runs: " ++ py_str_count (fst stats))%string;
               String "010" "Run Status Distribution:"]
           ++ map (status_line py_str format_percentage (fst stats))
                (most_common (snd stats)))%list /\
    sum (map snd (most_common (snd stats))) = fst stats /\
    Forall (fun kv => (1 <= snd kv <= fst stats)%nat) (most_common (snd stats)).
Proof.
  unfold Report.analyze_runs. intros H. rinv.
  match goal with
  | Hr : Report.organizations_runs_loop _ ?items _ _ = (?o, Some ?stats),
    Hg : py_get _ _ _ = Some ?rd |- _ =>
      pose proof (organizations_runs_loop_inv _ _ _ _ _ _ Hr) as (Hsum & Hpos);
      exists rd, items, o, stats
  end.
  simpl in Hsum. rewrite Nat.add_0_r in Hsum.
  match goal with
  | |- context [most_common (snd ?st)] =>
      assert (Hall : Forall (fun kv => (1 <= snd kv <= fst st)%nat)
                       (most_common (snd st)))
  end.
  { apply Forall_most_common.
    match goal with
    | |- Forall _ (snd ?st) => pose proof (in_le_sum (snd st)) as Hle
    end.
    specialize (Hpos (Forall_nil _)).
    rewrite Forall_forall in *. intros kv Hin.
    specialize (Hle kv Hin). specialize (Hpos kv Hin).
    unfold dict_values in Hsum. lia. }
  match goal with
  | Hs : Report.status_lines _ _ _ _ = _ |- _ =>
      rewrite (status_lines_total _ _ _ _ Hall) in Hs; injection Hs as <-
  end.
  subst. split; [assumption|]. split; [assumption|]. split; [assumption|].
  split; [simpl; rewrite <- ?app_assoc; reflexivity|].
  split; [rewrite most_common_sum; now symmetry|assumption].
Qed.

(** X17: whenever [analyze_runs] returns, the status distribution it
    prints is a partition of the runs it counted: the counts of the statuses
    add up to the total, every status shown has at least one run, and every
    percentage is the share of that total, so the branch that prints 0 for
    an empty total is never taken. *)
Theorem run_statuses_add_up (py_str : json -> string)
    (format_percentage : nat -> nat -> string) (data : json) (out : list string) :
  Report.analyze_runs py_str format_percentage data = (out, Some tt) ->
  exists before total statuses,
    out = (before
           ++ [String "010" "Run Statistics:";
               ("  Total Runs: " ++ py_str_count total)%string;
               String "010" "Run Status Distribution:"]
           ++ map (status_line py_str format_percentage total) statuses)%list /\
    sum (map snd statuses) = total /\
    Forall (fun kv => (1 <= snd kv <= total)%nat) statuses.
Proof.
  intros H.
  destruct (analyze_runs_inv py_str format_percentage data out H)
    as (runs_data & items & body & stats & _ & _ & _ & Hout & Hsum & Hall).
  exists ([String "010" (rule 60); "RUN ANALYSIS"; rule 60] ++ body)%list,
    (fst stats), (most_common (snd stats)).
  auto.
Qed.

Lemma run_statuses_add_up_witness :
  exists before total statuses,
    fst sample_runs_report
    = (before
       ++ [String "010" "Run Statistics:";
           ("  Total Runs: " ++ py_str_count total)%string;
           String "010" "Run Status Distribution:"]
       ++ map (status_line scalar_str whole_percentage total) statuses)%list /\
    sum (map snd statuses) = total /\
    Forall (fun kv => (1 <= snd kv <= total)%nat) statuses.
Proof.
  apply (run_statuses_add_up scalar_str whole_percentage sample_document
           (fst sample_runs_report)).
  reflexivity.
Defined.

(** What the report of the sample document shows. *)
Example sample_runs_report_lines :
  sample_runs_report
  = ([String "010" "============================================================";
      "RUN ANALYSIS";
      "============================================================";
      String "010" "Organization: acme";
      "  Workspace: prod";
      "    Total Runs: 4";
      "      - Run run-1...";
      "        Status: applied";
      "        Created: N/A";
      "        Message: Queued manually...";
      "      - Run run-2...";
      "        Status: errored";
      "        Created: N/A";
      "        Message: Queued manually...";
      "      - Run run-3...";
      "        Status: applied";
      "        Created: N/A";
      "        Message: Queued manually...";
      "      - Run run-4...";
      "        Status: applied";
      "        Created: N/A";
      "        Message: Queued manually...";
      String "010" "Run Statistics:";
      "  Total Runs: 4";
      String "010" "Run Status Distribution:";
      "  applied: 3 (75.0%)";
      "  errored: 1 (25.0%)"], Some tt).
Proof. reflexivity. Qed.

Lemma filter_none {A} (f : A -> bool) (l : list A) :
  (forall x, In x l -> f x = false) -> filter f l = [].
Proof.
  induction l as [|a l IH]; simpl; intros H; [reflexivity|].
  rewrite (H a) by now left. apply IH. intros x Hx. apply H. now right.
Qed.

Lemma filter_all {A} (f : A -> bool) (l : list A) :
  (forall x, In x l -> f x = true) -> filter f l = l.
Proof.
  induction l as [|a l IH]; simpl; intros H; [reflexivity|].
  rewrite (H a) by now left. f_equal. apply IH. intros x Hx. apply H. now right.
Qed.

(** Among runs that all differ, at most the run itself compares equal. *)
Lemma all_different_once (runs : list json) (run : json) :
  all_different runs = true ->
  In run runs ->
  (List.length (filter (fun r => py_eq r run) runs) <= 1)%nat.
Proof.
  induction runs as [|a rest IH]; intros Hall Hin; [contradiction|].
  simpl in Hall. apply andb_true_iff in Hall. destruct Hall as [Hhead Hrest].
  rewrite forallb_forall in Hhead. destruct Hin as [->|Hin].
  - simpl. rewrite (filter_none (fun r => py_eq r run) rest).
    + destruct (py_eq run run); simpl; lia.
    + intros r Hr. specialize (Hhead r Hr).
      apply andb_true_iff in Hhead. destruct Hhead as [H1 _].
      now apply negb_true_iff in H1.
  - simpl. pose proof (Hhead run Hin) as H.
    apply andb_true_iff in H. destruct H as [_ H2].
    apply negb_true_iff in H2. rewrite H2. now apply IH.
Qed.

(** X18: the filter commented "Recent runs (last 10)" does not limit the
    report to ten runs.  It tests how many runs of the workspace compare
    equal to the run at hand, so for runs that all differ, however many,
    [analyze_runs] prints the four lines of details of every one of them. *)
Theorem different_runs_are_all_shown (py_str : json -> string) (runs : list json)
    (counts counts' : pydict nat) (out : list string) :
  all_different runs = true ->
  Report.runs_loop py_str runs runs counts = (out, Some counts') ->
  List.length out = (4 * List.length runs)%nat.
Proof.
  intros Hall H. apply runs_loop_inv in H. destruct H as (_ & _ & ->).
  rewrite filter_all; [reflexivity|].
  intros run Hin. unfold shown. apply Nat.leb_le.
  pose proof (all_different_once runs run Hall Hin). lia.
Qed.

Lemma different_runs_are_all_shown_witness :
  List.length (fst eleven_runs_report) = 44%nat.
Proof.
  apply (different_runs_are_all_shown scalar_str eleven_runs []
           [(JStr "applied", 11%nat)] (fst eleven_runs_report)).
  - reflexivity.
  - reflexivity.
Defined.

Lemma float_overflow_large : 9223372036854775808 < float_overflow.
Proof. vm_compute. reflexivity. Qed.

Opaque float_overflow.

Lemma py_ratio_small (format_ratio : Z -> Z -> string) (a b : Z) :
  Z.abs a < 9223372036854775808 ->
  0 < b ->
  Report.py_ratio format_ratio (JNum a) (JNum b) = Some (format_ratio a b).
Proof.
  intros Ha Hb. unfold Report.py_ratio. cbn [as_int].
  destruct (b =? 0) eqn:E; [apply Z.eqb_eq in E; lia|].
  destruct (float_overflow * Z.abs b <=? Z.abs a) eqn:E2; [|reflexivity].
  apply Z.leb_le in E2. pose proof float_overflow_large as Hf.
  assert (float_overflow * 1 <= float_overflow * Z.abs b)
    by (apply Z.mul_le_mono_nonneg_l; lia).
  lia.
Qed.

(** X19: [generate_summary_report] never divides by zero.  On a document
    whose counts are integers (a missing count is 0) with workspace and run
    counts below [2 ^ 63] in absolute value it returns, having printed the
    three totals, the average of workspaces per organization only when
    there is an organization, and the average of runs per workspace only
    when there is a workspace. *)
Theorem summary_report_guards_averages (py_str : json -> string)
    (format_ratio : Z -> Z -> string) (data summary : json) (o w r : Z) :
  py_get "summary" (JObj []) data = Some summary ->
  py_get "total_organizations" (JNum 0) summary = Some (JNum o) ->
  py_get "total_workspaces" (JNum 0) summary = Some (JNum w) ->
  py_get "total_runs" (JNum 0) summary = Some (JNum r) ->
  Z.abs w < 9223372036854775808 ->
  Z.abs r < 9223372036854775808 ->
  Report.generate_summary_report py_str format_ratio data
  = (([String "010" (rule 60);
       "COMPREHENSIVE SUMMARY REPORT";
       rule 60;
       ("Total Organizations: " ++ py_str (JNum o))%string;
       ("Total Workspaces: " ++ py_str (JNum w))%string;
       ("Total Runs: " ++ py_str (JNum r))%string]
      ++ (if 0 <? o
          then [("Average Workspaces per Organization: "
                 ++ format_ratio w o)%string]
          else [])
      ++ (if 0 <? w
          then [("Average Runs per Workspace: " ++ format_ratio r w)%string]
          else []))%list,
     Some tt).
Proof.
  intros Hs Ho Hw Hr Hwb Hrb. unfold Report.generate_summary_report.
  unfold heading, rbind, need, print, rret. rewrite Hs. simpl.
  rewrite Ho. simpl. rewrite Hw. simpl. rewrite Hr. simpl.
  destruct (0 <? o) eqn:Eo; destruct (0 <? w) eqn:Ew; simpl;
    rewrite ?Hr; simpl;
    repeat match goal with
           | E : (0 <? _) = true |- _ => apply Z.ltb_lt in E
           end;
    rewrite ?(py_ratio_small format_ratio w o) by assumption;
    rewrite ?(py_ratio_small format_ratio r w) by assumption;
    reflexivity.
Qed.

Lemma summary_report_guards_averages_witness :
  Report.generate_summary_report scalar_str whole_ratio
    (JObj [("summary", JObj [("total_organizations", JNum 0)])])
  = ([String "010" (rule 60);
      "COMPREHENSIVE SUMMARY REPORT";
      rule 60;
      "Total Organizations: 0";
      "Total Workspaces: 0";
      "Total Runs: 0"], Some tt).
Proof.
  apply (summary_report_guards_averages scalar_str whole_ratio
           (JObj [("summary", JObj [("total_organizations", JNum 0)])])
           (JObj [("total_organizations", JNum 0)]) 0 0 0);
    first [reflexivity | simpl; lia].
Defined.

(** A workspace count no float can hold: the division raises once the three
    totals are printed. *)
Example summary_report_overflow :
  let data :=
    JObj [("summary",
           JObj [("total_organizations", JNum 1);
                 ("total_workspaces", JNum (10 ^ 400));
                 ("total_runs", JNum 0)])] in
  let report := Report.generate_summary_report scalar_str whole_ratio data in
  List.length (fst report) = 6%nat /\ snd report = None.
Proof. vm_compute. split; reflexivity. Qed.

(** The inner loop of [analyze_workspaces]: every workspace is counted
    once, under one Terraform version. *)
Lemma workspaces_loop_inv (py_str : json -> string) (workspaces : list json) :
  forall total versions out stats,
    Report.workspaces_loop py_str workspaces total versions = (out, Some stats) ->
    fst stats = (total + List.length workspaces)%nat /\
    sum (dict_values (snd stats))
    = (sum (dict_values versions) + List.length workspaces)%nat /\
    (Forall (fun kv => (1 <= snd kv)%nat) versions ->
     Forall (fun kv => (1 <= snd kv)%nat) (snd stats)).
Proof.
  induction workspaces as [|w rest IH]; intros total versions out stats H;
    cbn [Report.workspaces_loop] in H.
  - rinv. subst. simpl. repeat split; auto; lia.
  - rinv.
    match goal with
    | Hc : count_up _ _ = Some _ |- _ =>
        apply count_up_inv in Hc; destruct Hc as [Hsum Hpos]
    end.
    match goal with
    | Hr : Report.workspaces_loop _ _ _ _ = _ |- _ =>
        destruct (IH _ _ _ _ Hr) as (Htotal & Hsum' & Hpos')
    end.
    simpl List.length. repeat split; auto; lia.
Qed.

Lemma organizations_workspaces_loop_inv (py_str : json -> string)
    (items : list (string * json)) :
  forall total versions out stats,
    Report.organizations_workspaces_loop py_str items total versions
    = (out, Some stats) ->
    (fst stats + sum (dict_values versions)
     = total + sum (dict_values (snd stats)))%nat /\
    (Forall (fun kv => (1 <= snd kv)%nat) versions ->
     Forall (fun kv => (1 <= snd kv)%nat) (snd stats)).
Proof.
  induction items as [|[name data] rest IH]; intros total versions out stats H;
    cbn [Report.organizations_workspaces_loop] in H.
  - rinv. subst. simpl. split; [lia|auto].
  - rinv.
    match goal with
    | Hr : Report.workspaces_loop _ _ _ _ = _ |- _ =>
        apply workspaces_loop_inv in Hr; destruct Hr as (Htotal & Hsum & Hpos)
    end.
    match goal with
    | Hr : Report.organizations_workspaces_loop _ _ _ _ = _ |- _ =>
        destruct (IH _ _ _ _ Hr) as (Hsum' & Hpos')
    end.
    split; [lia|auto].
Qed.

Lemma version_lines_all (py_str : json -> string) (l : list (json * nat)) :
  Report.version_lines py_str l = (map (version_line py_str) l, Some tt).
Proof.
  induction l as [|[v n] l IH]; simpl; [reflexivity|].
  rewrite IH. reflexivity.
Qed.

(** X20: whenever [analyze_workspaces] returns, the Terraform versions it
    prints are a partition of the workspaces it counted: the counts of the
    versions add up to the total of the statistics, and every version shown
    has at least one workspace. *)
Theorem workspace_versions_add_up (py_str : json -> string) (data : json)
    (out : list string) :
  Report.analyze_workspaces py_str data = (out, Some tt) ->
  exists before total versions,
    out = (before
           ++ [String "010" "Workspace Statistics:";
               ("  Total Workspaces: " ++ py_str_count total)%string;
               String "010" "Terraform Versions:"]
           ++ map (version_line py_str) versions)%list /\
    sum (map snd versions) = total /\
    Forall (fun kv => (1 <= snd kv <= total)%nat) versions.
Proof.
  unfold Report.analyze_workspaces. intros H. rinv.
  match goal with
  | Hr : Report.organizations_workspaces_loop _ _ _ _ = (?o, Some ?stats) |- _ =>
      apply organizations_workspaces_loop_inv in Hr; destruct Hr as (Hsum & Hpos);
      rename o into body; rename stats into st
  end.
  simpl in Hsum. rewrite Nat.add_0_r in Hsum.
  match goal with
  | Hs : Report.version_lines _ _ = _ |- _ =>
      rewrite version_lines_all in Hs; injection Hs as <-
  end.
  subst.
  exists ([String "010" (rule 60); "WORKSPACE ANALYSIS"; rule 60] ++ body)%list,
    (fst st), (most_common (snd st)).
  split; [|split].
  - simpl. rewrite <- ?app_assoc. reflexivity.
  - rewrite most_common_sum. now symmetry.
  - apply Forall_most_common.
    pose proof (in_le_sum (snd st)) as Hle.
    specialize (Hpos (Forall_nil _)).
    rewrite Forall_forall in *. intros kv Hin.
    specialize (Hle kv Hin). specialize (Hpos kv Hin).
    unfold dict_values in Hsum. lia.
Qed.

Lemma workspace_versions_add_up_witness :
  exists before total versions,
    fst sample_workspaces_report
    = (before
       ++ [String "010" "Workspace Statistics:";
           ("  Total Workspaces: " ++ py_str_count total)%string;
           String "010" "Terraform Versions:"]
       ++ map (version_line scalar_str) versions)%list /\
    sum (map snd versions) = total /\
    Forall (fun kv => (1 <= snd kv <= total)%nat) versions.
Proof.
  apply (workspace_versions_add_up scalar_str sample_document
           (fst sample_workspaces_report)).
  reflexivity.
Defined.

(** What the workspaces report of the sample document shows. *)
Example sample_workspaces_report_lines :
  sample_workspaces_report
  = ([String "010" "============================================================";
      "WORKSPACE ANALYSIS";
      "============================================================";
      String "010" "Organization: acme";
      "  Total Workspaces: 2";
      "    - prod";
      "      Terraform Version: 1.5.0";
      "      Execution Mode: unknown";
      "      Auto Apply: False";
      "      Created: N/A";
      "    - staging";
      "      Terraform Version: 1.5.0";
      "      Execution Mode: unknown";
      "      Auto Apply: False";
      "      Created: N/A";
      String "010" "Workspace Statistics:";
      "  Total Workspaces: 2";
      String "010" "Terraform Versions:";
      "  1.5.0: 2"], Some tt).
Proof. reflexivity. Qed.

(** ** From the collector to the analyzer *)

Lemma obj_get_app (k : string) (a b : list (string * json)) :
  obj_get k (a ++ b)
  = match obj_get k a with
    | Some v => Some v
    | None => obj_get k b
    end.
Proof.
  induction a as [|[k' v'] a IH]; simpl; [reflexivity|].
  destruct (String.eqb k k'); [reflexivity|exact IH].
Qed.

Lemma obj_set_fresh (k : string) (v : json) (fields : list (string * json)) :
  obj_get k fields = None -> obj_set k v fields = (fields ++ [(k, v)])%list.
Proof.
  induction fields as [|[k' v'] rest IH]; simpl; [reflexivity|].
  destruct (String.eqb k k'); [discriminate|].
  intros H. now rewrite (IH H).
Qed.

(** A dictionary with strings as keys is written and read back item by
    item. *)
Lemma object_of_fields {V} (to_json : V -> json) (d : pydict V) :
  forall acc,
    dict_wf d ->
    forallb (fun kv => is_string (fst kv)) d = true ->
    (forall k v, In (k, v) d -> obj_get (key_text k) acc = None) ->
    fold_left
      (fun fields kv => obj_set (key_text (fst kv)) (to_json (snd kv)) fields)
      d acc
    = (acc ++ map (fun kv => (key_text (fst kv), to_json (snd kv))) d)%list.
Proof.
  induction d as [|[k v] rest IH]; intros acc Hwf Hstr Hfresh.
  - simpl. now rewrite app_nil_r.
  - simpl in Hwf. destruct Hwf as (Hh & Hnone & Hwf).
    simpl in Hstr. apply andb_true_iff in Hstr. destruct Hstr as [Hk Hstr].
    simpl. rewrite obj_set_fresh by (apply (Hfresh k v); now left).
    rewrite IH; [now rewrite <- app_assoc|assumption|assumption|].
    intros k' v' Hin. rewrite obj_get_app.
    rewrite (Hfresh k' v') by now right. simpl.
    pose proof (dict_get_none_in k k' v' rest Hnone Hin) as Hdiff.
    assert (Hk' : is_string k' = true).
    { rewrite forallb_forall in Hstr. exact (Hstr (k', v') Hin). }
    destruct k as [| | |s| |]; try discriminate.
    destruct k' as [| | |s'| |]; try discriminate.
    unfold same_key in Hdiff. simpl in *.
    rewrite String.eqb_sym. now rewrite Hdiff.
Qed.

Lemma object_of_strings {V} (to_json : V -> json) (d : pydict V) :
  dict_wf d ->
  forallb (fun kv => is_string (fst kv)) d = true ->
  object_of to_json d
  = JObj (map (fun kv => (key_text (fst kv), to_json (snd kv))) d).
Proof.
  intros Hwf Hstr. unfold object_of.
  rewrite object_of_fields; [reflexivity|assumption|assumption|reflexivity].
Qed.

(** The loop of [analyze_runs] over the workspaces of one organization of
    the document counts the runs of every entry. *)
Lemma workspaces_runs_loop_document (py_str : json -> string)
    (org_runs : pydict run_entry) :
  forall total counts out stats,
    Report.workspaces_runs_loop py_str
      (map (fun ne => (key_text (fst ne), entry_document (snd ne))) org_runs)
      total counts
    = (out, Some stats) ->
    fst stats = (total + org_runs_count org_runs)%nat.
Proof.
  unfold org_runs_count, dict_values.
  induction org_runs as [|[n e] rest IH]; intros total counts out stats H;
    cbn [map Report.workspaces_runs_loop fst snd] in H.
  - rinv. subst. simpl. lia.
  - rinv.
    match goal with
    | Hg : py_get "runs" _ (entry_document e) = Some ?x |- _ =>
        unfold entry_document in Hg; simpl in Hg; injection Hg as <-
    end.
    match goal with
    | Hl : py_len (JArr _) = Some _ |- _ => simpl in Hl; injection Hl as <-
    end.
    match goal with
    | Hr : Report.workspaces_runs_loop _ _ _ _ = _ |- _ =>
        rewrite (IH _ _ _ _ Hr)
    end.
    simpl. lia.
Qed.

Lemma organizations_runs_loop_document (py_str : json -> string)
    (workspace_runs : pydict (pydict run_entry)) :
  forall total counts out stats,
    (forall k org_runs, In (k, org_runs) workspace_runs -> dict_wf org_runs) ->
    string_names workspace_runs = true ->
    Report.organizations_runs_loop py_str
      (map (fun kv => (key_text (fst kv), object_of entry_document (snd kv)))
         workspace_runs)
      total counts
    = (out, Some stats) ->
    fst stats = (total + runs_count workspace_runs)%nat.
Proof.
  unfold runs_count, dict_values.
  induction workspace_runs as [|[k org_runs] rest IH];
    intros total counts out stats Hwf Hstr H;
    cbn [map Report.organizations_runs_loop fst snd] in H.
  - rinv. subst. simpl. lia.
  - simpl in Hstr. apply andb_true_iff in Hstr. destruct Hstr as [Hhere Hstr].
    apply andb_true_iff in Hhere. destruct Hhere as [_ Hinner].
    rewrite (object_of_strings entry_document org_runs) in H;
      [|apply (Hwf k); now left|assumption].
    rinv.
    match goal with
    | Hi : py_items (JObj _) = Some _ |- _ => simpl in Hi; injection Hi as <-
    end.
    match goal with
    | Hr : Report.workspaces_runs_loop _ _ _ _ = _ |- _ =>
        apply workspaces_runs_loop_document in Hr
    end.
    match goal with
    | Hr : Report.organizations_runs_loop _ _ _ _ = _ |- _ =>
        rewrite (IH _ _ _ _ (fun k' d' Hin => Hwf k' d' (or_intror Hin)) Hstr Hr)
    end.
    simpl. lia.
Qed.

(** X21: the analyzer recounts what the collector counted.  On the
    document of a snapshot [get_all_data] returned whose organization and
    workspace names are strings, [analyze_runs], when it returns, prints as
    its total of runs the [total_runs] of the snapshot's summary, and takes
    its percentages of that total. *)
Theorem analyzer_recounts_the_runs (py_str py_str' : json -> string)
    (format_percentage : nat -> nat -> string) (c c' : client)
    (snap : snapshot) (out : list string) :
  get_all_data py_str c = (Ok snap, c') ->
  string_names (runs snap) = true ->
  Report.analyze_runs py_str' format_percentage (document snap) = (out, Some tt) ->
  exists before statuses,
    out = (before
           ++ [String "010" "Run Statistics:";
               ("  Total Runs: "
                ++ py_str_count (total_runs (summary snap)))%string;
               String "010" "Run Status Distribution:"]
           ++ map (status_line py_str' format_percentage
                     (total_runs (summary snap)))
                statuses)%list /\
    sum (map snd statuses) = total_runs (summary snap).
Proof.
  intros Hrun Hstr H.
  destruct (analyze_runs_inv py_str' format_percentage _ out H)
    as (runs_data & items & body & stats & Hget & Hitems & Hloop & Hout & Hsum & _).
  destruct (get_all_data_runs py_str c c' snap Hrun)
    as (tasks & fetched & c2 & _ & _ & _ & _ & Hall & Hh).
  destruct (store_all_wf _ [] (runs snap) Hh Hall) as [Hwfr Hinner];
    [split; [exact I|intros k d []]|].
  destruct (get_all_data_ok py_str c c' snap Hrun)
    as (_ & _ & _ & _ & _ & _ & _ & _ & _ & Hsummary).
  assert (Houter : forallb (fun kv => is_string (fst kv)) (runs snap) = true).
  { unfold string_names in Hstr. rewrite forallb_forall in *.
    intros kv Hin. specialize (Hstr kv Hin).
    apply andb_true_iff in Hstr. tauto. }
  unfold document in Hget. simpl in Hget. injection Hget as <-.
  rewrite (object_of_strings (object_of entry_document) (runs snap) Hwfr Houter)
    in Hitems.
  simpl in Hitems. injection Hitems as <-.
  apply (organizations_runs_loop_document py_str' (runs snap) _ _ _ _ Hinner Hstr)
    in Hloop.
  assert (Htotal : fst stats = total_runs (summary snap)).
  { rewrite Hloop, Hsummary. simpl. rewrite sum_flat_map.
    unfold runs_count, org_runs_count. reflexivity. }
  rewrite Htotal in Hout, Hsum.
  exists ([String "010" (rule 60); "RUN ANALYSIS"; rule 60] ++ body)%list,
    (most_common (snd stats)).
  auto.
Qed.

Lemma analyzer_recounts_the_runs_witness :
  exists before statuses,
    fst two_org_runs_report
    = (before
       ++ [String "010" "Run Statistics:";
           ("  Total Runs: "
            ++ py_str_count (total_runs (summary (snapshot_of two_org_run))))%string;
           String "010" "Run Status Distribution:"]
       ++ map (status_line scalar_str whole_percentage
                 (total_runs (summary (snapshot_of two_org_run))))
            statuses)%list /\
    sum (map snd statuses) = total_runs (summary (snapshot_of two_org_run)).
Proof.
  apply (analyzer_recounts_the_runs plain_str scalar_str whole_percentage
           (new_client cfg10 two_org_script) (snd two_org_run)
           (snapshot_of two_org_run) (fst two_org_runs_report));
    reflexivity.
Defined.

(** The runs report on the document of the end-to-end run. *)
Example two_org_runs_report_total :
  snd two_org_runs_report = Some tt /\
  In "  Total Runs: 6" (fst two_org_runs_report) /\
  In "  unknown: 6 (100.0%)" (fst two_org_runs_report).
Proof. split; [reflexivity|]. split; simpl; tauto. Qed.

(** An organization [get_all_data] accepted prints its five lines. *)
Lemma organizations_loop_named (py_str : json -> string) (orgs : list json) :
  (forall org, In org orgs -> exists n, organization_name org = Ok n) ->
  exists out,
    Report.organizations_loop py_str orgs = (out, Some tt) /\
    List.length out = (5 * List.length orgs)%nat.
Proof.
  induction orgs as [|org rest IH]; intros Hnamed.
  - exists []. split; reflexivity.
  - destruct IH as (out & Hout & Hlen); [intros o Ho; apply Hnamed; now right|].
    destruct (Hnamed org) as (n & Hn); [now left|].
    unfold organization_name in Hn.
    destruct org as [| | | | |fields]; try discriminate.
    simpl in Hn. destruct (obj_get "attributes" fields) as [attrs|] eqn:Ea;
      [|discriminate].
    simpl in Hn. destruct attrs as [| | | | |afields]; try discriminate.
    cbn [Report.organizations_loop]. rewrite Hout.
    unfold rbind, need, print, py_get. rewrite Ea. simpl.
    eexists. split; [reflexivity|]. simpl. rewrite Hlen. lia.
Qed.

(** X22: [analyze_organizations] never fails on what the collector wrote.
    On the document of any snapshot [get_all_data] returned it returns,
    having printed its heading and five lines for every organization of the
    snapshot. *)
Theorem collected_organizations_are_reported (py_str py_str' : json -> string)
    (c c' : client) (snap : snapshot) :
  get_all_data py_str c = (Ok snap, c') ->
  exists out,
    Report.analyze_organizations py_str' (document snap) = (out, Some tt) /\
    List.length out = (3 + 5 * total_organizations (summary snap))%nat.
Proof.
  intros Hrun.
  destruct (get_all_data_ok py_str c c' snap Hrun)
    as (c1 & c2 & names & tasks & _ & Hnames & _ & _ & _ & Hsummary).
  pose proof (workspace_tasks_ok _ _ Hnames) as Hall2.
  destruct (organizations_loop_named py_str' (organizations snap))
    as (out & Hout & Hlen).
  { intros org Hin.
    destruct (Forall2_in_l _ _ _ org Hall2 Hin) as (n & _ & Hn). eauto. }
  exists ([String "010" (rule 60); "ORGANIZATION ANALYSIS"; rule 60] ++ out)%list.
  split.
  - unfold Report.analyze_organizations, document.
    unfold heading, rbind, need, print, py_get, py_elements. simpl.
    rewrite Hout. reflexivity.
  - rewrite length_app, Hlen, Hsummary. reflexivity.
Qed.

Lemma collected_organizations_are_reported_witness :
  exists out,
    Report.analyze_organizations scalar_str (document (snapshot_of two_org_run))
    = (out, Some tt) /\
    List.length out
    = (3 + 5 * total_organizations (summary (snapshot_of two_org_run)))%nat.
Proof.
  apply (collected_organizations_are_reported plain_str scalar_str
           (new_client cfg10 two_org_script) (snd two_org_run)
           (snapshot_of two_org_run)).
  reflexivity.
Defined.

(** The organizations report on the document of the end-to-end run. *)
Example two_org_organizations_report_lines :
  two_org_organizations_report
  = ([String "010" "============================================================";
      "ORGANIZATION ANALYSIS";
      "============================================================";
      String "010" "Organization: acme";
      "  Email: N/A";
      "  Created: N/A";
      "  Plan: N/A";
      "  Users: N/A";
      String "010" "Organization: globex";
      "  Email: N/A";
      "  Created: N/A";
      "  Plan: N/A";
      "  Users: N/A"], Some tt).
Proof. reflexivity. Qed.
